(** * TranslucentTB: the taskbar state machine of [main.cpp]

    A shallow embedding of the core of [src/TranslucentTB/main.cpp]: the
    appearance applier [SetWindowBlur], the handle refresh
    [RefreshHandles], the peek toggle [TogglePeek], the window visitor
    [EnumWindowsProcess], the tick [SetTaskbarBlur] and the shutdown
    sequence of [wWinMain].

    Machine integers are [Z] with the 32-bit wrap-around written out;
    [std::unordered_map] is stdpp's [gmap]; the process-wide [run] struct
    and the function-local statics are one record threaded through a small
    state-and-exception monad; calls that leave the process (messages sent
    to a window, the composition attribute call, [EnumWindows], the
    configuration save) are appended to a trace. *)

From Stdlib Require Import ZArith Lia List Bool.
From stdpp Require Import base option list gmap fin_maps.

Local Open Scope Z_scope.

(** ** 32-bit unsigned arithmetic, as C++ evaluates it on [uint32_t] *)

Module U32.

Definition modulus : Z := 2 ^ 32.

Definition wrap (x : Z) : Z := x mod modulus.

Definition add (x y : Z) : Z := wrap (x + y).

Definition shl (x n : Z) : Z := wrap (Z.shiftl x n).

Definition shr (x n : Z) : Z := Z.shiftr x n.

Definition in_range (x : Z) : Prop := 0 <= x < modulus.

End U32.

(** The byte of [c] that starts at bit [k]. *)
Definition lane (c k : Z) : Z := (c / 2 ^ k) mod 256.

(** The packed colour written [0xAARRGGBB] with [a], [r], [g], [b] for the
    four bytes, most significant first. *)
Definition packed (b3 b2 b1 b0 : Z) : Z :=
  b3 * 2 ^ 24 + b2 * 2 ^ 16 + b1 * 2 ^ 8 + b0.

Definition is_byte (x : Z) : Prop := 0 <= x < 256.

(** ** [swca] data *)

(** Modelled from the spec: the declaration of [swca::ACCENT] lives in
    [swcadata.hpp], which is missing; the constructors are the five accent
    kinds that [main.cpp] names (the glossary's closed enumeration
    normal / opaque / blurred / transparent-gradient / fluent). *)
Inductive ACCENT : Set :=
| ACCENT_NORMAL
| ACCENT_ENABLE_GRADIENT
| ACCENT_ENABLE_TRANSPARENTGRADIENT
| ACCENT_ENABLE_BLURBEHIND
| ACCENT_ENABLE_FLUENT.

#[global] Instance ACCENT_eq_dec : EqDecision ACCENT.
Proof. solve_decision. Defined.

(** Modelled from the spec: [swca::ACCENTPOLICY] is declared in
    [swcadata.hpp], which is missing. [main.cpp] initialises its four
    members in order and names the first [nAccentState] and the third
    [nColor], an unsigned 32-bit colour; the names of the other two are
    ours. *)
Record ACCENTPOLICY : Set := mkPolicy {
  nAccentState : ACCENT;
  nFlags : Z;
  nColor : Z;
  nAnimationId : Z
}.

#[global] Instance ACCENTPOLICY_eq_dec : EqDecision ACCENTPOLICY.
Proof. solve_decision. Defined.

(** The third initialiser of [policy] in [SetWindowBlur]:
    [(color & 0xFF00FF00) + ((color & 0x00FF0000) >> 16)
       + ((color & 0x000000FF) << 16)]. *)
Definition swap_red_blue (color : Z) : Z :=
  U32.add
    (U32.add (Z.land color 0xFF00FF00)
             (U32.shr (Z.land color 0x00FF0000) 16))
    (U32.shl (Z.land color 0x000000FF) 16).

(** [swca::ACCENTPOLICY policy = { appearance, 2, ..., 0 }]. *)
Definition initial_policy (appearance : ACCENT) (color : Z) : ACCENTPOLICY :=
  mkPolicy appearance 2 (swap_red_blue color) 0.

(** The [else if] branch of [SetWindowBlur]: with the fluent accent and a
    zero top byte, [policy.nColor = (0x01 << 24) + (policy.nColor & 0x00FFFFFF)]. *)
Definition fluent_fix (policy : ACCENTPOLICY) : ACCENTPOLICY :=
  if decide (nAccentState policy = ACCENT_ENABLE_FLUENT) then
    if U32.shr (nColor policy) 24 =? 0x00 then
      mkPolicy (nAccentState policy) (nFlags policy)
               (U32.add (Z.shiftl 0x01 24) (Z.land (nColor policy) 0x00FFFFFF))
               (nAnimationId policy)
    else policy
  else policy.

(** The policy that reaches [user32::SetWindowCompositionAttribute] when the
    accent is not [ACCENT_NORMAL]. *)
Definition wire_policy (appearance : ACCENT) (color : Z) : ACCENTPOLICY :=
  fluent_fix (initial_policy appearance color).

(** ** Data of [main.cpp] *)

(** A [Window] wraps an [HWND], an [HMONITOR] is a handle too: both are
    integers here, and [Window::NullWindow] is the null handle. *)
Abbreviation Window := Z (only parsing).
Abbreviation HMONITOR := Z (only parsing).

Definition NullWindow : Window := 0.

(** Show states that [main.cpp] compares [Window::state] with. *)
Definition SW_SHOWMINIMIZED : Z := 2.
Definition SW_MAXIMIZE : Z := 3.

Inductive MONITORSTATE : Set :=
| Normal
| WindowMaximised
| StartMenuOpen.

#[global] Instance MONITORSTATE_eq_dec : EqDecision MONITORSTATE.
Proof. solve_decision. Defined.

Inductive EXITREASON : Set :=
| NewInstance
| UserAction
| UserActionNoSave.

#[global] Instance EXITREASON_eq_dec : EqDecision EXITREASON.
Proof. solve_decision. Defined.

(** The configuration values that the core reads. The values can change
    between two ticks, so every function takes them as an argument. *)
Module Config.

(** Modelled from the spec: [Config::PEEK] is declared in [config.hpp],
    which is missing; the peek policy has the four values that
    [PEEK_BUTTON_MAP] of [main.cpp] lists. *)
Inductive PEEK : Set :=
| Enabled
| DynamicGenerous
| Dynamic
| Disabled.

#[global] Instance PEEK_eq_dec : EqDecision PEEK.
Proof. solve_decision. Defined.

(** The members of [Config] that [main.cpp] reads. *)
Record t : Set := mk {
  TASKBAR_APPEARANCE : ACCENT;
  TASKBAR_COLOR : Z;
  DYNAMIC_WS : bool;
  DYNAMIC_APPEARANCE : ACCENT;
  DYNAMIC_COLOR : Z;
  DYNAMIC_USE_REGULAR_COLOR : bool;
  DYNAMIC_REGULAR_ON_PEEK : bool;
  DYNAMIC_START : bool;
  PEEK_POLICY : PEEK;
  VERBOSE : bool
}.

End Config.

(** What the operating system answers during one tick: the top-level
    windows in the order [EnumWindows] visits them, the attributes of each
    window that [window.hpp], [blacklist.hpp] and [util.hpp] query, and the
    windows that [Window::Find] returns. *)
Record Desktop : Type := mkDesktop {
  (* user32::SetWindowCompositionAttribute is a non-null pointer *)
  swca_available : bool;
  top_level_windows : list Window;
  visible : Window -> bool;
  cloaked : Window -> bool;
  IsBlacklisted : Window -> bool;
  state : Window -> Z;
  on_current_desktop : Window -> bool;
  monitor : Window -> HMONITOR;
  (* the answer of isRealWindow(hwnd) *)
  isRealWindow : Window -> bool;
  IsStartVisible : bool;
  (* Window::Find(L"Windows.UI.Core.CoreWindow", L"Start") *)
  start_window : Window;
  (* Window::Find(L"Shell_TrayWnd") *)
  shell_tray : Window;
  (* what successive Window::Find(L"Shell_SecondaryTrayWnd", ...) return *)
  secondary_trays : list Window;
  (* the TrayShowDesktopButtonWClass child of TrayNotifyWnd of a taskbar *)
  peek_button : Window -> Window
}.

(** Calls that leave the process. *)
Inductive event : Set :=
| send_message_WM_THEMECHANGED (window : Window)
| SetWindowCompositionAttribute (window : Window) (policy : ACCENTPOLICY)
| SetWindowLong_EXSTYLE (window : Window) (layered : bool)
| SetLayeredWindowAttributes (window : Window) (alpha : Z)
| EnumWindows_call
| Config_Save
| Log_OutputMessage.

#[global] Instance event_eq_dec : EqDecision event.
Proof. solve_decision. Defined.

(** Entries into the functions of the core, in call order. *)
Inductive call : Set :=
| call_SetWindowBlur (window : Window) (appearance : ACCENT) (color : Z)
| call_TogglePeek (status : bool)
| call_EnumWindowsProcess (hWnd : Window)
| call_RefreshHandles.

#[global] Instance call_eq_dec : EqDecision call.
Proof. solve_decision. Defined.

(** The [run] struct, the function-local statics ([is_normal] of
    [SetWindowBlur], [cached_peek] and [cached_taskbar] of [TogglePeek],
    [counter] of [SetTaskbarBlur]) and the two logs. [cached_taskbar] is
    [None] until the first call of [TogglePeek] initialises it. *)
Record Sys : Type := mkSys {
  exit_reason : EXITREASON;
  main_taskbar : Window;
  taskbars : gmap Z (Z * MONITORSTATE);
  should_show_peek : bool;
  is_running : bool;
  peek_active : bool;
  is_normal : gmap Z bool;
  cached_peek : bool;
  cached_taskbar : option Window;
  counter : Z;
  trace : list event;
  calls : list call
}.

(** The state of the process when [wWinMain] starts. *)
Definition initial_Sys : Sys :=
  mkSys UserAction NullWindow ∅ true true false ∅ true None 10 [] [].

Definition set_exit_reason (v : EXITREASON) (s : Sys) : Sys :=
  mkSys v (main_taskbar s) (taskbars s) (should_show_peek s) (is_running s)
        (peek_active s) (is_normal s) (cached_peek s) (cached_taskbar s)
        (counter s) (trace s) (calls s).

Definition set_main_taskbar (v : Window) (s : Sys) : Sys :=
  mkSys (exit_reason s) v (taskbars s) (should_show_peek s) (is_running s)
        (peek_active s) (is_normal s) (cached_peek s) (cached_taskbar s)
        (counter s) (trace s) (calls s).

Definition set_taskbars (v : gmap Z (Z * MONITORSTATE)) (s : Sys) : Sys :=
  mkSys (exit_reason s) (main_taskbar s) v (should_show_peek s) (is_running s)
        (peek_active s) (is_normal s) (cached_peek s) (cached_taskbar s)
        (counter s) (trace s) (calls s).

Definition set_should_show_peek (v : bool) (s : Sys) : Sys :=
  mkSys (exit_reason s) (main_taskbar s) (taskbars s) v (is_running s)
        (peek_active s) (is_normal s) (cached_peek s) (cached_taskbar s)
        (counter s) (trace s) (calls s).

Definition set_is_running (v : bool) (s : Sys) : Sys :=
  mkSys (exit_reason s) (main_taskbar s) (taskbars s) (should_show_peek s) v
        (peek_active s) (is_normal s) (cached_peek s) (cached_taskbar s)
        (counter s) (trace s) (calls s).

Definition set_peek_active (v : bool) (s : Sys) : Sys :=
  mkSys (exit_reason s) (main_taskbar s) (taskbars s) (should_show_peek s)
        (is_running s) v (is_normal s) (cached_peek s) (cached_taskbar s)
        (counter s) (trace s) (calls s).

Definition set_is_normal (v : gmap Z bool) (s : Sys) : Sys :=
  mkSys (exit_reason s) (main_taskbar s) (taskbars s) (should_show_peek s)
        (is_running s) (peek_active s) v (cached_peek s) (cached_taskbar s)
        (counter s) (trace s) (calls s).

Definition set_cached_peek (v : bool) (s : Sys) : Sys :=
  mkSys (exit_reason s) (main_taskbar s) (taskbars s) (should_show_peek s)
        (is_running s) (peek_active s) (is_normal s) v (cached_taskbar s)
        (counter s) (trace s) (calls s).

Definition set_cached_taskbar (v : option Window) (s : Sys) : Sys :=
  mkSys (exit_reason s) (main_taskbar s) (taskbars s) (should_show_peek s)
        (is_running s) (peek_active s) (is_normal s) (cached_peek s) v
        (counter s) (trace s) (calls s).

Definition set_counter (v : Z) (s : Sys) : Sys :=
  mkSys (exit_reason s) (main_taskbar s) (taskbars s) (should_show_peek s)
        (is_running s) (peek_active s) (is_normal s) (cached_peek s)
        (cached_taskbar s) v (trace s) (calls s).

Definition set_trace (v : list event) (s : Sys) : Sys :=
  mkSys (exit_reason s) (main_taskbar s) (taskbars s) (should_show_peek s)
        (is_running s) (peek_active s) (is_normal s) (cached_peek s)
        (cached_taskbar s) (counter s) v (calls s).

Definition set_calls (v : list call) (s : Sys) : Sys :=
  mkSys (exit_reason s) (main_taskbar s) (taskbars s) (should_show_peek s)
        (is_running s) (peek_active s) (is_normal s) (cached_peek s)
        (cached_taskbar s) (counter s) (trace s) v.

(** ** A state monad with one exception

    [std::unordered_map::at] throws [std::out_of_range] on a missing key and
    [main.cpp] has no handler for it: a computation either returns a value
    and a state, or is unwound with the state it had reached. *)
Inductive outcome (A : Type) : Type :=
| Returned (a : A) (s : Sys)
| Thrown (s : Sys).

Arguments Returned {A} a s.
Arguments Thrown {A} s.

Definition M (A : Type) : Type := Sys -> outcome A.

Definition ret {A : Type} (a : A) : M A := fun s => Returned a s.

Definition bind {A B : Type} (m : M A) (k : A -> M B) : M B :=
  fun s => match m s with
           | Returned a s' => k a s'
           | Thrown s' => Thrown s'
           end.

Definition throw_out_of_range {A : Type} : M A := fun s => Thrown s.

Definition get {A : Type} (field : Sys -> A) : M A := fun s => Returned (field s) s.

Definition modify (f : Sys -> Sys) : M unit := fun s => Returned tt (f s).

Definition emit (e : event) : M unit := modify (fun s => set_trace (trace s ++ [e]) s).

Definition enter (c : call) : M unit := modify (fun s => set_calls (calls s ++ [c]) s).

Definition when (b : bool) (m : M unit) : M unit := if b then m else ret tt.

Declare Scope cpp_scope.
Delimit Scope cpp_scope with cpp.
Notation "x <- m ;; k" := (bind m (fun x => k))
  (at level 100, m at next level, right associativity) : cpp_scope.
Notation "m ;; k" := (bind m (fun _ => k))
  (at level 100, right associativity) : cpp_scope.

(** The state in which a computation stopped, however it stopped. *)
Definition final {A : Type} (o : outcome A) : Sys :=
  match o with
  | Returned _ s => s
  | Thrown s => s
  end.

Definition returned {A : Type} (o : outcome A) : bool :=
  match o with
  | Returned _ _ => true
  | Thrown _ => false
  end.

(** A range-based [for] over a snapshot of a container. *)
Fixpoint for_each {A : Type} (l : list A) (body : A -> M unit) : M unit :=
  match l with
  | [] => ret tt
  | x :: l' => (body x ;; for_each l' body)%cpp
  end.

Local Open Scope cpp_scope.

(** ** The functions of [main.cpp] *)

(** [SetWindowBlur(window, appearance, color)]. *)
Definition SetWindowBlur (os : Desktop) (window : Window) (appearance : ACCENT)
    (color : Z) : M unit :=
  enter (call_SetWindowBlur window appearance color) ;;
  if swca_available os then
    let policy := initial_policy appearance color in
    if decide (nAccentState policy = ACCENT_NORMAL) then
      memo <- get is_normal ;;
      match memo !! window with
      | Some true => ret tt
      | _ =>
          emit (send_message_WM_THEMECHANGED window) ;;
          modify (fun s => set_is_normal (<[window := true]> (is_normal s)) s)
      end
    else
      let policy := fluent_fix policy in
      emit (SetWindowCompositionAttribute window policy) ;;
      modify (fun s => set_is_normal (<[window := false]> (is_normal s)) s)
  else ret tt.

(** The [while] loop of [RefreshHandles]: every secondary taskbar that
    [Window::Find] returns is stored under its monitor, until
    [Window::NullWindow] comes back. *)
Fixpoint store_secondary (os : Desktop) (found : list Window)
    (tb : gmap Z (Z * MONITORSTATE)) : gmap Z (Z * MONITORSTATE) :=
  match found with
  | [] => tb
  | secondtaskbar :: rest =>
      if decide (secondtaskbar = NullWindow) then tb
      else store_secondary os rest (<[monitor os secondtaskbar := (secondtaskbar, Normal)]> tb)
  end.

(** [RefreshHandles()]. *)
Definition RefreshHandles (cfg : Config.t) (os : Desktop) : M unit :=
  enter call_RefreshHandles ;;
  when (Config.VERBOSE cfg) (emit Log_OutputMessage) ;;
  modify (set_taskbars ∅) ;;
  modify (set_main_taskbar (shell_tray os)) ;;
  modify (fun s =>
    set_taskbars (<[monitor os (main_taskbar s) := (main_taskbar s, Normal)]> (taskbars s)) s) ;;
  modify (fun s => set_taskbars (store_secondary os (secondary_trays os) (taskbars s)) s).

(** [TogglePeek(status)]; the first line is the initialisation of the static
    [cached_taskbar] on the first call. *)
Definition TogglePeek (os : Desktop) (status : bool) : M unit :=
  enter (call_TogglePeek status) ;;
  modify (fun s =>
    match cached_taskbar s with
    | None => set_cached_taskbar (Some (main_taskbar s)) s
    | Some _ => s
    end) ;;
  cached <- get cached_peek ;;
  cached_tb <- get cached_taskbar ;;
  main <- get main_taskbar ;;
  if negb (eqb status cached) || negb (bool_decide (cached_tb = Some main)) then
    let _peek := peek_button os main in
    (if negb status then
       emit (SetWindowLong_EXSTYLE _peek true) ;;
       emit (SetLayeredWindowAttributes _peek 0)
     else
       emit (SetWindowLong_EXSTYLE _peek false)) ;;
    modify (set_cached_peek status) ;;
    modify (set_cached_taskbar (Some main))
  else ret tt.

Definition is_dynamic_peek (p : Config.PEEK) : bool :=
  bool_decide (p = Config.Dynamic) || bool_decide (p = Config.DynamicGenerous).

(** [EnumWindowsProcess(hWnd, lParam)], the visitor handed to [EnumWindows].
    The call of [isRealWindow] is answered by the desktop: the visitor is
    described where that call returns. *)
Definition EnumWindowsProcess (cfg : Config.t) (os : Desktop) (hWnd : Window) : M bool :=
  enter (call_EnumWindowsProcess hWnd) ;;
  (if visible os hWnd && negb (cloaked os hWnd) && negb (IsBlacklisted os hWnd) then
     if (state os hWnd =? SW_MAXIMIZE) && on_current_desktop os hWnd then
       tb <- get taskbars ;;
       match tb !! monitor os hWnd with
       | None => throw_out_of_range
       | Some taskbar =>
           when (Config.DYNAMIC_WS cfg)
             (modify (fun s =>
                set_taskbars (<[monitor os hWnd := (fst taskbar, WindowMaximised)]> (taskbars s)) s)) ;;
           main <- get main_taskbar ;;
           when (is_dynamic_peek (Config.PEEK_POLICY cfg) && (fst taskbar =? main))
             (modify (set_should_show_peek true))
       end
     else
       show <- get should_show_peek ;;
       when (bool_decide (Config.PEEK_POLICY cfg = Config.DynamicGenerous)
             && negb show
             && negb (state os hWnd =? SW_SHOWMINIMIZED)
             && isRealWindow os hWnd)
         (modify (set_should_show_peek true))
   else ret tt) ;;
  ret true.

(** [EnumWindows(callback, lParam)]: the callback is called on every
    top-level window in turn, until it returns [FALSE]. *)
Fixpoint EnumWindows_from (callback : Window -> M bool) (windows : list Window) : M unit :=
  match windows with
  | [] => ret tt
  | hWnd :: rest =>
      continue <- callback hWnd ;;
      if continue : bool then EnumWindows_from callback rest else ret tt
  end.

Definition EnumWindows (os : Desktop) (callback : Window -> M bool) : M unit :=
  emit EnumWindows_call ;;
  EnumWindows_from callback (top_level_windows os).

(** [for (auto &taskbar : run.taskbars) taskbar.second.second = Normal]. *)
Definition reset_states (tb : gmap Z (Z * MONITORSTATE)) : gmap Z (Z * MONITORSTATE) :=
  (fun taskbar => (fst taskbar, Normal)) <$> tb.

(** The body of [if (counter >= 10)] in [SetTaskbarBlur]: one
    reconciliation pass. *)
Definition reconcile (cfg : Config.t) (os : Desktop) : M unit :=
  modify (set_should_show_peek (bool_decide (Config.PEEK_POLICY cfg = Config.Enabled))) ;;
  modify (fun s => set_taskbars (reset_states (taskbars s)) s) ;;
  when (Config.DYNAMIC_WS cfg || is_dynamic_peek (Config.PEEK_POLICY cfg))
    (modify (set_counter 0) ;;
     EnumWindows os (EnumWindowsProcess cfg os)) ;;
  show <- get should_show_peek ;;
  TogglePeek os show ;;
  when (Config.DYNAMIC_START cfg && IsStartVisible os)
    (tb <- get taskbars ;;
     match tb !! monitor os (start_window os) with
     | None => throw_out_of_range
     | Some taskbar =>
         modify (fun s =>
           set_taskbars (<[monitor os (start_window os) := (fst taskbar, StartMenuOpen)]> (taskbars s)) s)
     end) ;;
  peeking <- get peek_active ;;
  when (Config.DYNAMIC_WS cfg && Config.DYNAMIC_REGULAR_ON_PEEK cfg && peeking)
    (modify (fun s => set_taskbars (reset_states (taskbars s)) s)) ;;
  modify (set_counter 0).

(** The [switch] of [SetTaskbarBlur]: the accent and the colour that a
    monitor state is displayed with. *)
Definition appearance_of (cfg : Config.t) (st : MONITORSTATE) : ACCENT * Z :=
  match st with
  | StartMenuOpen => (ACCENT_NORMAL, 0)
  | WindowMaximised =>
      (Config.DYNAMIC_APPEARANCE cfg,
       if Config.DYNAMIC_USE_REGULAR_COLOR cfg then Config.TASKBAR_COLOR cfg
       else Config.DYNAMIC_COLOR cfg)
  | Normal => (Config.TASKBAR_APPEARANCE cfg, Config.TASKBAR_COLOR cfg)
  end.

(** The last loop of [SetTaskbarBlur]; the order in which an
    [unordered_map] is walked is unspecified, here it is that of
    [map_to_list], and the theorems on the walk are stated up to that
    order. *)
Definition apply_appearance (cfg : Config.t) (os : Desktop) : M unit :=
  tb <- get taskbars ;;
  for_each (map_to_list tb) (fun taskbar =>
    SetWindowBlur os (fst (snd taskbar))
      (fst (appearance_of cfg (snd (snd taskbar))))
      (snd (appearance_of cfg (snd (snd taskbar))))).

(** [SetTaskbarBlur()]: one tick. *)
Definition SetTaskbarBlur (cfg : Config.t) (os : Desktop) : M unit :=
  c <- get counter ;;
  when (10 <=? c) (reconcile cfg os) ;;
  apply_appearance cfg os ;;
  modify (fun s => set_counter (counter s + 1) s).

(** [HandleAeroPeekEvent]: [run.peek_active = event == 0x21]. *)
Definition HandleAeroPeekEvent (event : Z) : M unit :=
  modify (set_peek_active (event =? 0x21)).

(** The messages whose callbacks [InitializeTray] registers and that touch
    the core; every other message leaves it alone. *)
Inductive message : Set :=
| NEW_TTB_INSTANCE
| WM_DISPLAYCHANGE
| WM_TASKBARCREATED
| WM_CLOSE
| IDM_EXITWITHOUTSAVING
| IDM_EXIT
| other_message.

Definition DispatchMessage (cfg : Config.t) (os : Desktop) (msg : message) : M unit :=
  match msg with
  | NEW_TTB_INSTANCE => modify (set_exit_reason NewInstance) ;; modify (set_is_running false)
  | WM_DISPLAYCHANGE => RefreshHandles cfg os
  | WM_TASKBARCREATED => RefreshHandles cfg os
  | WM_CLOSE => modify (set_exit_reason UserAction) ;; modify (set_is_running false)
  | IDM_EXITWITHOUTSAVING => modify (set_exit_reason UserActionNoSave) ;; modify (set_is_running false)
  | IDM_EXIT => modify (set_exit_reason UserAction) ;; modify (set_is_running false)
  | other_message => ret tt
  end.

(** What one iteration of the message loop meets: the configuration and the
    desktop at that time, and the message that [PeekMessage] finds, if any. *)
Record iteration : Type := mkIteration {
  it_cfg : Config.t;
  it_os : Desktop;
  it_msg : option message
}.

(** [while (run.is_running) { ... }] of [wWinMain], over the iterations that
    the environment supplies. *)
Fixpoint message_loop (its : list iteration) : M unit :=
  match its with
  | [] => ret tt
  | it :: rest =>
      running <- get is_running ;;
      if running : bool then
        match it_msg it with
        | Some msg => DispatchMessage (it_cfg it) (it_os it) msg
        | None => ret tt
        end ;;
        SetTaskbarBlur (it_cfg it) (it_os it) ;;
        message_loop rest
      else ret tt
  end.

(** The end of [wWinMain], after the message loop; the map is walked as in
    [apply_appearance]. *)
Definition restore_on_exit (os : Desktop) : M unit :=
  reason <- get exit_reason ;;
  if negb (bool_decide (reason = NewInstance)) then
    when (negb (bool_decide (reason = UserActionNoSave))) (emit Config_Save) ;;
    TogglePeek os true ;;
    tb <- get taskbars ;;
    for_each (map_to_list tb) (fun taskbar =>
      SetWindowBlur os (fst (snd taskbar)) ACCENT_NORMAL 0)
  else ret tt.

(** ** Observations used in the statements *)

(** What a computation added to the two logs. *)
Definition new_events (s s' : Sys) : list event := drop (length (trace s)) (trace s').

Definition new_calls (s s' : Sys) : list call := drop (length (calls s)) (calls s').

(** The state after the entry into a function of the core was logged. *)
Definition logged_call (c : call) (s : Sys) : Sys := set_calls (calls s ++ [c]) s.

Definition count {A : Type} (p : A -> bool) (l : list A) : nat :=
  length (List.filter p l).

Definition is_theme_changed (e : event) : bool :=
  match e with send_message_WM_THEMECHANGED _ => true | _ => false end.

Definition is_composition_call (e : event) : bool :=
  match e with SetWindowCompositionAttribute _ _ => true | _ => false end.

Definition is_peek_toggle (e : event) : bool :=
  match e with SetWindowLong_EXSTYLE _ _ => true | _ => false end.

(** The events that [SetWindowBlur] can produce. *)
Definition from_blur (e : event) : bool := is_theme_changed e || is_composition_call e.

Definition is_visit (c : call) : bool :=
  match c with call_EnumWindowsProcess _ => true | _ => false end.

Definition is_blur_call (c : call) : bool :=
  match c with call_SetWindowBlur _ _ _ => true | _ => false end.


(** ** The memos of the applier and of the peek toggle *)

(** The memoised flag of [SetWindowBlur] for [window] is present and true. *)
Definition memo_normal (s : Sys) (window : Window) : bool :=
  bool_decide (is_normal s !! window = Some true).

(** Several calls of [SetWindowBlur] in a row on one surface with
    [ACCENT_NORMAL], one per colour of the list. *)
Definition normal_calls (os : Desktop) (window : Window) (colors : list Z) : M unit :=
  for_each colors (fun color => SetWindowBlur os window ACCENT_NORMAL color).

(** [TogglePeek] finds its two statics equal to its argument and to
    [run.main_taskbar]; a static that is not initialised yet takes the value
    of [run.main_taskbar]. *)
Definition peek_cached (status : bool) (s : Sys) : bool :=
  eqb status (cached_peek s)
  && bool_decide (default (main_taskbar s) (cached_taskbar s) = main_taskbar s).

(** What [TogglePeek] sends to the peek button when it does not find its
    cache up to date: the layered style removed to show it, or set with a
    zero alpha to hide it. *)
Definition peek_toggle_events (os : Desktop) (status : bool) (s : Sys) : list event :=
  if status then [SetWindowLong_EXSTYLE (peek_button os (main_taskbar s)) false]
  else [SetWindowLong_EXSTYLE (peek_button os (main_taskbar s)) true;
        SetLayeredWindowAttributes (peek_button os (main_taskbar s)) 0].

(** Successive calls of [TogglePeek], one per status of the list. *)
Definition peek_calls (os : Desktop) (statuses : list bool) : M unit :=
  for_each statuses (TogglePeek os).

(** ** The map of taskbars and the pass *)

(** The secondary taskbars that the loop of [RefreshHandles] gets to see:
    those returned before the first [Window::NullWindow]. *)
Fixpoint until_null (found : list Window) : list Window :=
  match found with
  | [] => []
  | w :: rest => if decide (w = NullWindow) then [] else w :: until_null rest
  end.

(** [taskbar.second = st] through a reference to the entry of display [m],
    when there is one. *)
Definition mark (st : MONITORSTATE) (m : HMONITOR)
    (tb : gmap Z (Z * MONITORSTATE)) : gmap Z (Z * MONITORSTATE) :=
  match tb !! m with
  | Some taskbar => <[m := (fst taskbar, st)]> tb
  | None => tb
  end.

(** The window passes the filter of the visitor and takes its first branch:
    it is a maximised window on the current desktop that the pass observes. *)
Definition observed_maximised (os : Desktop) (hWnd : Window) : bool :=
  visible os hWnd && negb (cloaked os hWnd) && negb (IsBlacklisted os hWnd)
  && (state os hWnd =? SW_MAXIMIZE) && on_current_desktop os hWnd.

(** The pass marks display [m] as hosting the open Start menu. *)
Definition hosts_start (cfg : Config.t) (os : Desktop) (m : HMONITOR) : bool :=
  Config.DYNAMIC_START cfg && IsStartVisible os
  && bool_decide (m = monitor os (start_window os)).

(** The guard in front of [EnumWindows] in [SetTaskbarBlur]. *)
Definition scans_windows (cfg : Config.t) : bool :=
  Config.DYNAMIC_WS cfg || is_dynamic_peek (Config.PEEK_POLICY cfg).

(** Every state of the map is accounted for: a display is [Normal], or
    [WindowMaximised] with the maximised-window tracking on and an observed
    maximised window of [seen] on it, or (when [start] allows it)
    [StartMenuOpen] and marked as hosting the open Start menu. *)
Definition justified (cfg : Config.t) (os : Desktop) (seen : list Window)
    (start : bool) (tb : gmap Z (Z * MONITORSTATE)) : Prop :=
  forall m w st,
    tb !! m = Some (w, st) ->
    st = Normal
    \/ (st = WindowMaximised /\ Config.DYNAMIC_WS cfg = true /\
        exists hWnd, hWnd ∈ seen /\ observed_maximised os hWnd = true /\
                     monitor os hWnd = m)
    \/ (st = StartMenuOpen /\ start = true /\ hosts_start cfg os m = true).

(** The blocks of [reconcile], to speak of the pass in steps: the state
    after the two resets that open it, the guarded enumeration, and the
    rest of the pass. *)
Definition pass_start (cfg : Config.t) (s : Sys) : Sys :=
  set_taskbars (reset_states (taskbars s))
    (set_should_show_peek (bool_decide (Config.PEEK_POLICY cfg = Config.Enabled)) s).

Definition scan (cfg : Config.t) (os : Desktop) : M unit :=
  when (Config.DYNAMIC_WS cfg || is_dynamic_peek (Config.PEEK_POLICY cfg))
    (modify (set_counter 0) ;;
     EnumWindows os (EnumWindowsProcess cfg os)).

Definition after_scan (cfg : Config.t) (os : Desktop) : M unit :=
  show <- get should_show_peek ;;
  TogglePeek os show ;;
  when (Config.DYNAMIC_START cfg && IsStartVisible os)
    (tb <- get taskbars ;;
     match tb !! monitor os (start_window os) with
     | None => throw_out_of_range
     | Some taskbar =>
         modify (fun s =>
           set_taskbars (<[monitor os (start_window os) := (fst taskbar, StartMenuOpen)]> (taskbars s)) s)
     end) ;;
  peeking <- get peek_active ;;
  when (Config.DYNAMIC_WS cfg && Config.DYNAMIC_REGULAR_ON_PEEK cfg && peeking)
    (modify (fun s => set_taskbars (reset_states (taskbars s)) s)) ;;
  modify (set_counter 0).

(** The call of the appearance applier that a tick makes for an entry of
    the map. *)
Definition blur_call (cfg : Config.t) (taskbar : Z * (Z * MONITORSTATE)) : call :=
  call_SetWindowBlur (fst (snd taskbar))
    (fst (appearance_of cfg (snd (snd taskbar))))
    (snd (appearance_of cfg (snd (snd taskbar)))).

(** The static [counter] after a tick that ran to its end. *)
Definition next_counter (c : Z) : Z := if 10 <=? c then 1 else c + 1.

(** ** What each function leaves alone *)

(** The fields that the window visitor never writes. *)
Definition untouched_by_visit (s s' : Sys) : Prop :=
  exit_reason s' = exit_reason s /\ main_taskbar s' = main_taskbar s /\
  is_running s' = is_running s /\ peek_active s' = peek_active s /\
  is_normal s' = is_normal s /\ cached_peek s' = cached_peek s /\
  cached_taskbar s' = cached_taskbar s /\ counter s' = counter s /\
  trace s' = trace s.

(** The fields that [SetWindowBlur] never writes. *)
Definition untouched_by_blur (s s' : Sys) : Prop :=
  exit_reason s' = exit_reason s /\ main_taskbar s' = main_taskbar s /\
  taskbars s' = taskbars s /\ should_show_peek s' = should_show_peek s /\
  is_running s' = is_running s /\ peek_active s' = peek_active s /\
  cached_peek s' = cached_peek s /\ cached_taskbar s' = cached_taskbar s /\
  counter s' = counter s.

(** The fields that no tick writes, and the surfaces of the map. *)
Definition untouched_by_tick (s s' : Sys) : Prop :=
  exit_reason s' = exit_reason s /\ main_taskbar s' = main_taskbar s /\
  is_running s' = is_running s /\ peek_active s' = peek_active s /\
  fst <$> taskbars s' = fst <$> taskbars s.

(** ** Sample desktops, configurations and states *)

(** A desktop with nothing on it, to build examples from. *)
Definition empty_desktop : Desktop :=
  mkDesktop true [] (fun _ => false) (fun _ => false) (fun _ => false)
            (fun _ => 0) (fun _ => false) (fun _ => 0) (fun _ => false)
            false NullWindow NullWindow [] (fun _ => NullWindow).

(** A desktop of a system on which [user32::SetWindowCompositionAttribute]
    could not be resolved. *)
Definition legacy_desktop : Desktop :=
  mkDesktop false [] (fun _ => false) (fun _ => false) (fun _ => false)
            (fun _ => 0) (fun _ => false) (fun _ => 0) (fun _ => false)
            false NullWindow NullWindow [] (fun _ => NullWindow).

(** Two monitors, 1 with the primary taskbar 100 and 2 with the secondary
    taskbar 200. *)
Definition two_monitor_desktop : Desktop :=
  mkDesktop true [] (fun _ => false) (fun _ => false) (fun _ => false)
            (fun _ => 0) (fun _ => false)
            (fun w => if w =? 100 then 1 else if w =? 200 then 2 else 0)
            (fun _ => false) false NullWindow 100 [200] (fun _ => NullWindow).

(** A desktop on which every window is visible, maximised and on the
    current desktop, and window [w] sits on monitor [w / 10]: the primary
    taskbar 10 on monitor 1, the secondary taskbar 20 on monitor 2. *)
Definition sample_desktop (windows : list Window) : Desktop :=
  mkDesktop true windows (fun _ => true) (fun _ => false) (fun _ => false)
            (fun _ => SW_MAXIMIZE) (fun _ => true) (fun w => w / 10)
            (fun _ => true) false NullWindow 10 [20] (fun _ => 5).

Definition default_config : Config.t :=
  Config.mk ACCENT_ENABLE_TRANSPARENTGRADIENT 0 false ACCENT_ENABLE_BLURBEHIND 0
            false false false Config.Enabled false.

(** Maximised windows are tracked, peek is disabled. *)
Definition dynamic_config : Config.t :=
  Config.mk ACCENT_ENABLE_TRANSPARENTGRADIENT 0 true ACCENT_ENABLE_BLURBEHIND 0
            false false false Config.Disabled false.

(** The process after [RefreshHandles] on [sample_desktop], with the second
    display left in state [WindowMaximised] by an earlier pass. *)
Definition sample_Sys : Sys :=
  set_taskbars (<[2 := (20, WindowMaximised)]> (<[1 := (10, Normal)]> ∅))
    (set_main_taskbar 10 initial_Sys).

(** ** Reduction *)

(** The arithmetic on colours is unfolded by name only. *)
Arguments U32.wrap : simpl never.
Arguments U32.add : simpl never.
Arguments U32.shl : simpl never.
Arguments U32.shr : simpl never.
Arguments lane : simpl never.
Arguments packed : simpl never.
Arguments swap_red_blue : simpl never.
Arguments fluent_fix : simpl never.
Arguments wire_policy : simpl never.

Arguments reset_states : simpl never.
Arguments mark : simpl never.

(** Unfolds the monad operations, so that a computation applied to a state
    evaluates. *)
Ltac run_monad :=
  unfold bind, enter, emit, modify, get, ret, when, throw_out_of_range; simpl.

(** ** What a completed pass computes *)

(** Some window of [windows] is observed maximised on display [m]. *)
Definition maximised_on (os : Desktop) (windows : list Window) (m : HMONITOR) : bool :=
  existsb (fun hWnd => observed_maximised os hWnd && (monitor os hWnd =? m)) windows.

(** The state in which a pass that runs to its end leaves display [m]:
    the last write of [SetTaskbarBlur] wins, so the reset while the user
    peeks comes first, then the Start menu, then the maximised windows. *)
Definition expected_state (cfg : Config.t) (os : Desktop) (peeking : bool)
    (m : HMONITOR) : MONITORSTATE :=
  if Config.DYNAMIC_WS cfg && Config.DYNAMIC_REGULAR_ON_PEEK cfg && peeking then Normal
  else if hosts_start cfg os m then StartMenuOpen
  else if Config.DYNAMIC_WS cfg && maximised_on os (top_level_windows os) m
       then WindowMaximised
  else Normal.

(** The visitor sets [run.should_show_peek] on window [hWnd]: in its first
    branch under a dynamic policy when the display of the window holds the
    primary taskbar, in its second branch under the generous policy when the
    window is not minimised and is a real window. *)
Definition votes_peek (cfg : Config.t) (os : Desktop) (s : Sys) (hWnd : Window) : bool :=
  visible os hWnd && negb (cloaked os hWnd) && negb (IsBlacklisted os hWnd)
  && (if (state os hWnd =? SW_MAXIMIZE) && on_current_desktop os hWnd
      then is_dynamic_peek (Config.PEEK_POLICY cfg)
           && match taskbars s !! monitor os hWnd with
              | Some taskbar => fst taskbar =? main_taskbar s
              | None => false
              end
      else bool_decide (Config.PEEK_POLICY cfg = Config.DynamicGenerous)
           && negb (state os hWnd =? SW_SHOWMINIMIZED)
           && isRealWindow os hWnd).

(** The pass of a tick cannot complete: it scans the windows and one of them
    is observed maximised on a display without an entry, or it looks for the
    display of the open Start menu and that display has no entry. *)
Definition pass_fails (cfg : Config.t) (os : Desktop) (s : Sys) : Prop :=
  (scans_windows cfg = true /\
   exists hWnd, hWnd ∈ top_level_windows os /\ observed_maximised os hWnd = true /\
                taskbars s !! monitor os hWnd = None)
  \/ (Config.DYNAMIC_START cfg && IsStartVisible os = true /\
      taskbars s !! monitor os (start_window os) = None).

(** ** Sequences of calls of the applier and of the peek toggle *)

(** Calls of [SetWindowBlur] in a row on one surface with one accent. *)
Definition accent_calls (os : Desktop) (window : Window) (appearance : ACCENT)
    (colors : list Z) : M unit :=
  for_each colors (fun color => SetWindowBlur os window appearance color).

(** Calls of [SetWindowBlur] with [ACCENT_NORMAL] on any surfaces. *)
Definition normal_sweep (os : Desktop) (targets : list (Window * Z)) : M unit :=
  for_each targets (fun target => SetWindowBlur os (fst target) ACCENT_NORMAL (snd target)).

(** ** The appearance that a surface was last given *)




(** ** Iterations of the message loop *)

(** The iteration finds no message, or one whose callback leaves the core
    alone. *)
Definition is_quiet (it : iteration) : bool :=
  match it_msg it with
  | None | Some other_message => true
  | Some _ => false
  end.

(** The call of the applier for an entry of the map in state [Normal]. *)
Definition regular_call (cfg : Config.t) (taskbar : Z * (Z * MONITORSTATE)) : call :=
  call_SetWindowBlur (fst (snd taskbar)) (Config.TASKBAR_APPEARANCE cfg)
    (Config.TASKBAR_COLOR cfg).

(** The number of statuses of the list that differ from the one before,
    [prev] standing before the first. *)
Fixpoint changes (prev : bool) (statuses : list bool) : nat :=
  match statuses with
  | [] => 0
  | status :: rest => (if eqb status prev then 0 else 1) + changes status rest
  end.

Definition is_layered_alpha (e : event) : bool :=
  match e with SetLayeredWindowAttributes _ _ => true | _ => false end.

(** ** Messages that end the loop *)

(** The exit reason that the callback of a message stores, for the messages
    whose callback clears [run.is_running]. *)
Definition exit_reason_of (msg : message) : option EXITREASON :=
  match msg with
  | NEW_TTB_INSTANCE => Some NewInstance
  | WM_CLOSE => Some UserAction
  | IDM_EXIT => Some UserAction
  | IDM_EXITWITHOUTSAVING => Some UserActionNoSave
  | _ => None
  end.

Definition refreshes_handles (msg : message) : bool :=
  match msg with
  | WM_DISPLAYCHANGE | WM_TASKBARCREATED => true
  | _ => false
  end.

Definition keeps_running (it : iteration) : bool :=
  match it_msg it with
  | Some msg => bool_decide (exit_reason_of msg = None)
  | None => true
  end.

Arguments maximised_on : simpl never.

(** ** More sample data *)




(** ** [isRealWindow] *)

Module Real.

(** What the window manager answers to the queries of [isRealWindow]. *)
Record Shell : Type := mkShell {
  IsWindowVisible : Window -> bool;
  (* GetAncestor(hwnd, GA_ROOTOWNER) *)
  GetAncestor_ROOTOWNER : Window -> Window;
  GetLastActivePopup : Window -> Window;
  (* ti.rgstate[0] after GetTitleBarInfo(hwnd, &ti) *)
  rgstate0 : Window -> Z;
  (* GetWindowLong(hwnd, GWL_EXSTYLE) *)
  GetWindowLong_EXSTYLE : Window -> Z
}.

Definition STATE_SYSTEM_INVISIBLE : Z := 0x8000.
Definition WS_EX_TOOLWINDOW : Z := 0x80.

(** The [while] loop of [isRealWindow], from the values of [hwndTry] and
    [hwndWalk] before a test of its condition; the result is the final
    [hwndWalk], and [fuel] bounds the number of iterations. *)
Fixpoint walk (sh : Shell) (fuel : nat) (hwndTry hwndWalk : Window) : option Window :=
  if hwndTry =? hwndWalk then Some hwndWalk
  else match fuel with
       | O => None
       | S fuel' =>
           let hwndWalk := hwndTry in
           let hwndTry := GetLastActivePopup sh hwndWalk in
           if IsWindowVisible sh hwndTry then Some hwndWalk
           else walk sh fuel' hwndTry hwndWalk
       end.

(** [isRealWindow(hwnd)]; [None] when the loop needs more than [fuel]
    iterations. *)
Definition isRealWindow (sh : Shell) (fuel : nat) (hwnd : Window) : option bool :=
  if negb (IsWindowVisible sh hwnd) then Some false
  else
    match walk sh fuel (GetAncestor_ROOTOWNER sh hwnd) NullWindow with
    | None => None
    | Some hwndWalk =>
        if negb (hwndWalk =? hwnd) then Some false
        else if negb (Z.land (rgstate0 sh hwnd) STATE_SYSTEM_INVISIBLE =? 0) then Some false
        else if negb (Z.land (GetWindowLong_EXSTYLE sh hwnd) WS_EX_TOOLWINDOW =? 0)
             then Some false
        else Some true
    end.

(** An owner 1 with a visible popup 2, a hidden window 3, and a tool window
    4; every window but 3 is visible, and 2 is owned by 1. *)
Definition sample_shell : Shell :=
  mkShell (fun w => negb (w =? 3))
          (fun w => if w =? 2 then 1 else w)
          (fun w => if w =? 1 then 2 else w)
          (fun _ => 0)
          (fun w => if w =? 4 then 0x80 else 0).

End Real.

(** Every call of [isRealWindow] that a pass over desktop [os] can make
    returns: on each top-level window the loop of the function ends within
    some number of iterations on shell [sh], with the answer that [os]
    records for the window. *)
Definition isRealWindow_returns (sh : Real.Shell) (os : Desktop) : Prop :=
  forall hWnd,
    hWnd ∈ top_level_windows os ->
    exists fuel, Real.isRealWindow sh fuel hWnd = Some (isRealWindow os hWnd).

(** The top-level window 1 of [Real.sample_shell], maximised on monitor 0,
    where no taskbar is; the taskbars are those of [sample_desktop]. *)
Definition stray_window_desktop : Desktop :=
  mkDesktop true [1] (fun _ => true) (fun _ => false) (fun _ => false)
            (fun _ => SW_MAXIMIZE) (fun _ => true) (fun w => w / 10)
            (fun _ => true) false NullWindow 10 [20] (fun _ => 5).

(** ** The folder of the executable in [ApplyStock] *)

Module Path.

(** A code unit of [std::wstring]: a [wchar_t], 16 bits wide on Windows.
    [find_last_of] and [erase] only compare code units, so a string is a
    list of them, whatever their values. *)
Definition wchar_t : Type := Z.

Definition wstring : Type := list wchar_t.

(** [std::wstring::npos] and the arithmetic of [size_t], 64 bits wide. *)
Definition npos : N := (2 ^ 64 - 1)%N.

Definition size_t_add (x y : N) : N := ((x + y) mod 2 ^ 64)%N.

Definition is_one_of (chars : wstring) (c : wchar_t) : bool :=
  existsb (Z.eqb c) chars.

(** [find_last_of]: the index of the last code unit of [s] that is one of
    [chars], [npos] when there is none; [i] is the index of the head of [s]
    and [found] the answer so far. *)
Fixpoint find_last_of_from (chars s : wstring) (i found : N) : N :=
  match s with
  | [] => found
  | c :: rest =>
      find_last_of_from chars rest (i + 1)%N (if is_one_of chars c then i else found)
  end.

Definition find_last_of (chars s : wstring) : N := find_last_of_from chars s 0%N npos.

(** [erase(pos)]: what is left of [s] before index [pos];
    [std::out_of_range], here [None], when [pos] is beyond the size. *)
Definition erase (s : wstring) (pos : N) : option wstring :=
  if (pos <=? N.of_nat (length s))%N then Some (take (N.to_nat pos) s) else None.

(** The code units of the raw literal of [ApplyStock]: slash and backslash. *)
Definition separators : wstring := [0x2F; 0x5C].

(** [exeFolder_str.erase(exeFolder_str.find_last_of(LR"(/\)") + 1)]. *)
Definition exe_folder (exe : wstring) : option wstring :=
  erase exe (size_t_add (find_last_of separators exe) 1).

(** The index of the last code unit of [s] that is one of [chars], counted
    from the head of [s]. *)
Fixpoint last_index (chars s : wstring) : option nat :=
  match s with
  | [] => None
  | c :: rest =>
      match last_index chars rest with
      | Some k => Some (S k)
      | None => if is_one_of chars c then Some O else None
      end
  end.

(** A path with code units beyond the Latin-1 range: [C:], a backslash, the
    two code units [0x7A0B 0x5E8F], a backslash, and [b.exe]. *)
Definition sample_exe : wstring :=
  [0x43; 0x3A; 0x5C; 0x7A0B; 0x5E8F; 0x5C; 0x62; 0x2E; 0x65; 0x78; 0x65].

End Path.

(** * Properties *)

(** ** Byte lanes of a packed colour *)

Lemma lane_bounds c k : is_byte (lane c k).
Proof. unfold is_byte, lane. apply Z.mod_pos_bound. lia. Qed.

Lemma land_shifted_byte c k :
  0 <= k -> Z.land c (Z.shiftl 255 k) = lane c k * 2 ^ k.
Proof.
  intros Hk.
  assert (Z.land c (Z.shiftl 255 k) = Z.shiftl (Z.land (Z.shiftr c k) 255) k) as ->.
  { apply Z.bits_inj'. intros n Hn.
    rewrite Z.land_spec, !Z.shiftl_spec by lia.
    destruct (Z_lt_le_dec n k) as [Hlt | Hge].
    - rewrite !(Z.testbit_neg_r _ (n - k)) by lia. apply andb_false_r.
    - rewrite Z.land_spec, Z.shiftr_spec by lia.
      replace (n - k + k) with n by lia. reflexivity. }
  change 255 with (Z.ones 8).
  rewrite Z.land_ones, Z.shiftr_div_pow2, Z.shiftl_mul_pow2 by lia.
  reflexivity.
Qed.

Lemma lor_above_below x y k :
  0 <= k -> 0 <= y < 2 ^ k -> Z.lor (x * 2 ^ k) y = x * 2 ^ k + y.
Proof.
  intros Hk Hy.
  assert (Z.land (x * 2 ^ k) y = 0) as Hdisj.
  { apply Z.bits_inj'. intros n Hn.
    rewrite Z.land_spec, Z.bits_0.
    destruct (Z_lt_le_dec n k) as [Hlt | Hge].
    - rewrite Z.mul_pow2_bits_low by lia. reflexivity.
    - destruct (Z.eq_dec y 0) as [-> | Hne].
      + rewrite Z.bits_0. apply andb_false_r.
      + rewrite (Z.bits_above_log2 y n); [apply andb_false_r | lia |].
        apply Z.log2_lt_pow2; [lia |].
        apply Z.lt_le_trans with (2 ^ k); [lia |].
        apply Z.pow_le_mono_r; lia. }
  rewrite <- Z.lxor_lor by exact Hdisj.
  symmetry. apply Z.add_nocarry_lxor. exact Hdisj.
Qed.

Lemma swap_red_blue_lanes c :
  swap_red_blue c = packed (lane c 24) (lane c 0) (lane c 8) (lane c 16).
Proof.
  unfold swap_red_blue, U32.add, U32.shl, U32.shr, U32.wrap, U32.modulus, packed.
  change 0xFF00FF00 with (Z.lor (Z.shiftl 255 24) (Z.shiftl 255 8)).
  change 0x00FF0000 with (Z.shiftl 255 16).
  change 0x000000FF with (Z.shiftl 255 0).
  rewrite Z.land_lor_distr_r, !land_shifted_byte by lia.
  pose proof (lane_bounds c 24) as H3. pose proof (lane_bounds c 16) as H2.
  pose proof (lane_bounds c 8) as H1. pose proof (lane_bounds c 0) as H0.
  unfold is_byte in *.
  rewrite Z.shiftr_div_pow2, Z.shiftl_mul_pow2 by lia.
  rewrite Z.div_mul by lia.
  change (2 ^ 24) with (2 ^ 24) in *.
  rewrite lor_above_below; [| lia | change (2 ^ 24) with 16777216; change (2 ^ 8) with 256; lia].
  change (2 ^ 32) with 4294967296. change (2 ^ 24) with 16777216.
  change (2 ^ 16) with 65536. change (2 ^ 8) with 256. change (2 ^ 0) with 1.
  rewrite (Z.mod_small (lane c 0 * 1 * 65536)) by lia.
  rewrite (Z.mod_small (_ + _ + _)) by lia.
  rewrite Z.mod_small by lia. lia.
Qed.

Lemma lane_packed b3 b2 b1 b0 :
  is_byte b3 -> is_byte b2 -> is_byte b1 -> is_byte b0 ->
  lane (packed b3 b2 b1 b0) 24 = b3 /\ lane (packed b3 b2 b1 b0) 16 = b2 /\
  lane (packed b3 b2 b1 b0) 8 = b1 /\ lane (packed b3 b2 b1 b0) 0 = b0.
Proof.
  unfold is_byte, lane, packed. intros H3 H2 H1 H0.
  change (2 ^ 24) with 16777216. change (2 ^ 16) with 65536.
  change (2 ^ 8) with 256. change (2 ^ 0) with 1.
  repeat split.
  - replace ((b3 * 16777216 + b2 * 65536 + b1 * 256 + b0) / 16777216) with b3
      by (apply Z.div_unique with (b2 * 65536 + b1 * 256 + b0); lia).
    apply Z.mod_small; lia.
  - replace ((b3 * 16777216 + b2 * 65536 + b1 * 256 + b0) / 65536) with (b3 * 256 + b2)
      by (apply Z.div_unique with (b1 * 256 + b0); lia).
    symmetry; apply Z.mod_unique with b3; lia.
  - replace ((b3 * 16777216 + b2 * 65536 + b1 * 256 + b0) / 256)
      with (b3 * 65536 + b2 * 256 + b1)
      by (apply Z.div_unique with b0; lia).
    symmetry; apply Z.mod_unique with (b3 * 256 + b2); lia.
  - rewrite Z.div_1_r.
    symmetry; apply Z.mod_unique with (b3 * 65536 + b2 * 256 + b1); lia.
Qed.

Lemma packed_lanes c :
  U32.in_range c -> packed (lane c 24) (lane c 16) (lane c 8) (lane c 0) = c.
Proof.
  unfold U32.in_range, U32.modulus, lane, packed.
  change (2 ^ 32) with 4294967296. change (2 ^ 24) with 16777216.
  change (2 ^ 16) with 65536. change (2 ^ 8) with 256. change (2 ^ 0) with 1.
  intros Hc.
  pose proof (Z.div_mod c 256 ltac:(lia)) as E0.
  pose proof (Z.div_mod (c / 256) 256 ltac:(lia)) as E1.
  pose proof (Z.div_mod (c / 256 / 256) 256 ltac:(lia)) as E2.
  pose proof (Z.mod_pos_bound c 256 ltac:(lia)) as B0.
  pose proof (Z.mod_pos_bound (c / 256) 256 ltac:(lia)) as B1.
  pose proof (Z.mod_pos_bound (c / 256 / 256) 256 ltac:(lia)) as B2.
  change 65536 with (256 * 256). change 16777216 with (256 * 256 * 256).
  rewrite <- !Z.div_div by lia.
  rewrite Z.div_1_r.
  assert (0 <= c / 256 / 256 / 256 < 256) as B3.
  { split.
    - repeat apply Z.div_pos; lia.
    - repeat (apply Z.div_lt_upper_bound; [lia |]). lia. }
  rewrite (Z.mod_small (c / 256 / 256 / 256)) by lia.
  lia.
Qed.

Lemma packed_in_range b3 b2 b1 b0 :
  is_byte b3 -> is_byte b2 -> is_byte b1 -> is_byte b0 ->
  U32.in_range (packed b3 b2 b1 b0).
Proof.
  unfold is_byte, U32.in_range, U32.modulus, packed.
  change (2 ^ 32) with 4294967296. change (2 ^ 24) with 16777216.
  change (2 ^ 16) with 65536. change (2 ^ 8) with 256. lia.
Qed.

Lemma swap_red_blue_packed a r g b :
  is_byte a -> is_byte r -> is_byte g -> is_byte b ->
  swap_red_blue (packed a r g b) = packed a b g r.
Proof.
  intros Ha Hr Hg Hb. rewrite swap_red_blue_lanes.
  destruct (lane_packed a r g b Ha Hr Hg Hb) as (-> & -> & -> & ->).
  reflexivity.
Qed.

(** ** Equations of [SetWindowBlur] *)

Lemma SetWindowBlur_unavailable os w a c s :
  swca_available os = false ->
  SetWindowBlur os w a c s = Returned tt (logged_call (call_SetWindowBlur w a c) s).
Proof. intros Hna. unfold SetWindowBlur. run_monad. rewrite Hna. reflexivity. Qed.

Lemma SetWindowBlur_normal_hit os w c s :
  swca_available os = true -> memo_normal s w = true ->
  SetWindowBlur os w ACCENT_NORMAL c s
  = Returned tt (logged_call (call_SetWindowBlur w ACCENT_NORMAL c) s).
Proof.
  intros Hav Hm. unfold memo_normal in Hm. apply bool_decide_eq_true in Hm.
  unfold SetWindowBlur. run_monad. rewrite Hav. simpl. rewrite Hm. reflexivity.
Qed.

Lemma SetWindowBlur_normal_miss os w c s :
  swca_available os = true -> memo_normal s w = false ->
  SetWindowBlur os w ACCENT_NORMAL c s
  = Returned tt
      (set_is_normal (<[w := true]> (is_normal s))
         (set_trace (trace s ++ [send_message_WM_THEMECHANGED w])
            (logged_call (call_SetWindowBlur w ACCENT_NORMAL c) s))).
Proof.
  intros Hav Hm. unfold memo_normal in Hm. apply bool_decide_eq_false in Hm.
  unfold SetWindowBlur. run_monad. rewrite Hav. simpl.
  destruct (is_normal s !! w) as [[|]|] eqn:E; [congruence | reflexivity | reflexivity].
Qed.

Lemma SetWindowBlur_accent os w a c s :
  swca_available os = true -> a <> ACCENT_NORMAL ->
  SetWindowBlur os w a c s
  = Returned tt
      (set_is_normal (<[w := false]> (is_normal s))
         (set_trace (trace s ++ [SetWindowCompositionAttribute w (wire_policy a c)])
            (logged_call (call_SetWindowBlur w a c) s))).
Proof.
  intros Hav Ha. unfold SetWindowBlur. run_monad. rewrite Hav.
  destruct (decide (a = ACCENT_NORMAL)) as [E | _]; [contradiction | reflexivity].
Qed.

Lemma new_events_app s s' delta :
  trace s' = trace s ++ delta -> new_events s s' = delta.
Proof. intros E. unfold new_events. rewrite E. apply drop_app_length. Qed.

Lemma new_calls_app s s' delta :
  calls s' = calls s ++ delta -> new_calls s s' = delta.
Proof. intros E. unfold new_calls. rewrite E. apply drop_app_length. Qed.

(** What one call with [ACCENT_NORMAL] adds to the trace and leaves in the
    memo, in every case. *)
Lemma SetWindowBlur_normal_step os w c s :
  exists s',
    SetWindowBlur os w ACCENT_NORMAL c s = Returned tt s' /\
    trace s' = trace s ++
      (if swca_available os && negb (memo_normal s w)
       then [send_message_WM_THEMECHANGED w] else []) /\
    (swca_available os = true -> memo_normal s' w = true).
Proof.
  destruct (swca_available os) eqn:Hav.
  - destruct (memo_normal s w) eqn:Hm.
    + eexists. split; [apply SetWindowBlur_normal_hit; assumption |].
      simpl. rewrite app_nil_r. repeat split. intros _. exact Hm.
    + eexists. split; [apply SetWindowBlur_normal_miss; assumption |].
      simpl. repeat split. intros _. unfold memo_normal. simpl.
      apply bool_decide_eq_true. apply lookup_insert_eq.
  - eexists. split; [apply SetWindowBlur_unavailable; assumption |].
    simpl. rewrite app_nil_r. repeat split. intros; discriminate.
Qed.

(** ** The colour that reaches the compositing call *)

Lemma fluent_fix_other appearance flags color animation :
  appearance <> ACCENT_ENABLE_FLUENT ->
  fluent_fix (mkPolicy appearance flags color animation)
  = mkPolicy appearance flags color animation.
Proof.
  intros Hf. unfold fluent_fix. cbn [nAccentState].
  destruct (decide (appearance = ACCENT_ENABLE_FLUENT)) as [E | _];
    [contradiction | reflexivity].
Qed.

Lemma wire_policy_other appearance a r g b :
  is_byte a -> is_byte r -> is_byte g -> is_byte b ->
  appearance <> ACCENT_ENABLE_FLUENT ->
  wire_policy appearance (packed a r g b) = mkPolicy appearance 2 (packed a b g r) 0.
Proof.
  intros Ha Hr Hg Hb Hf. unfold wire_policy, initial_policy.
  rewrite fluent_fix_other by exact Hf.
  rewrite swap_red_blue_packed by assumption. reflexivity.
Qed.

(** C2. For every colour [0xAARRGGBB], given by its four bytes, the colour
    field of the policy that [SetWindowBlur] builds is [0xAABBGGRR]: alpha and
    green stay in their lanes, red and blue change places. So
    [0xFFFFFFFF] and [0x00000000] are kept, pure blue [0xFF0000FF] becomes
    [0xFFFF0000] and pure red [0xFFFF0000] becomes [0xFF0000FF]. Whenever the
    accent is neither normal nor fluent, that policy is the one handed to the
    compositing call. *)
Theorem SetWindowBlur_swaps_red_and_blue :
  (forall appearance a r g b,
      is_byte a -> is_byte r -> is_byte g -> is_byte b ->
      nColor (initial_policy appearance (packed a r g b)) = packed a b g r) /\
  (forall os window appearance a r g b s,
      is_byte a -> is_byte r -> is_byte g -> is_byte b ->
      swca_available os = true ->
      appearance <> ACCENT_NORMAL -> appearance <> ACCENT_ENABLE_FLUENT ->
      new_events s (final (SetWindowBlur os window appearance (packed a r g b) s))
      = [SetWindowCompositionAttribute window (mkPolicy appearance 2 (packed a b g r) 0)]) /\
  swap_red_blue 0xFFFFFFFF = 0xFFFFFFFF /\
  swap_red_blue 0x00000000 = 0x00000000 /\
  swap_red_blue 0xFF0000FF = 0xFFFF0000 /\
  swap_red_blue 0xFFFF0000 = 0xFF0000FF.
Proof.
  split; [| split].
  - intros appearance a r g b Ha Hr Hg Hb. cbn [initial_policy nColor].
    apply swap_red_blue_packed; assumption.
  - intros os window appearance a r g b s Ha Hr Hg Hb Hav Hn Hf.
    rewrite SetWindowBlur_accent by assumption. simpl.
    apply new_events_app. simpl.
    rewrite wire_policy_other by assumption. reflexivity.
  - repeat split; vm_compute; reflexivity.
Qed.

Lemma SetWindowBlur_swaps_red_and_blue_witness :
  nColor (initial_policy ACCENT_ENABLE_BLURBEHIND (packed 0x12 0x34 0x56 0x78))
  = packed 0x12 0x78 0x56 0x34.
Proof.
  apply (proj1 SetWindowBlur_swaps_red_and_blue); unfold is_byte; lia.
Defined.

(** C10. The reordering of [SetWindowBlur] undoes itself: on every 32-bit
    value, swapping the red and blue lanes twice gives the value back. *)
Theorem swap_red_blue_involutive c :
  U32.in_range c -> swap_red_blue (swap_red_blue c) = c.
Proof.
  intros Hc. rewrite (swap_red_blue_lanes c).
  rewrite swap_red_blue_packed by apply lane_bounds.
  apply packed_lanes. exact Hc.
Qed.

Lemma swap_red_blue_involutive_witness :
  swap_red_blue (swap_red_blue 0x80563412) = 0x80563412.
Proof.
  apply swap_red_blue_involutive.
  unfold U32.in_range, U32.modulus. lia.
Defined.

Lemma fluent_fix_packed a r g b :
  is_byte a -> is_byte r -> is_byte g -> is_byte b ->
  fluent_fix (mkPolicy ACCENT_ENABLE_FLUENT 2 (packed a r g b) 0)
  = mkPolicy ACCENT_ENABLE_FLUENT 2 (if a =? 0 then packed 1 r g b else packed a r g b) 0.
Proof.
  intros Ha Hr Hg Hb. unfold fluent_fix.
  cbn [nAccentState nColor nFlags nAnimationId].
  destruct (decide (ACCENT_ENABLE_FLUENT = ACCENT_ENABLE_FLUENT)) as [_ | N];
    [| contradiction].
  assert (U32.shr (packed a r g b) 24 = a) as ->.
  { unfold U32.shr. rewrite Z.shiftr_div_pow2 by lia.
    pose proof (lane_packed a r g b Ha Hr Hg Hb) as (E & _).
    unfold lane in E. rewrite Z.mod_small in E; [exact E |].
    unfold is_byte, packed in *.
    change (2 ^ 24) with 16777216. change (2 ^ 16) with 65536. change (2 ^ 8) with 256.
    split; [apply Z.div_pos; lia | apply Z.div_lt_upper_bound; lia]. }
  destruct (a =? 0) eqn:E; [| reflexivity].
  apply Z.eqb_eq in E. subst a. f_equal.
  change 0x00FFFFFF with (Z.ones 24). rewrite Z.land_ones by lia.
  unfold U32.add, U32.wrap, U32.modulus, packed, is_byte in *.
  change (Z.shiftl 1 24) with 16777216.
  change (2 ^ 32) with 4294967296. change (2 ^ 24) with 16777216.
  change (2 ^ 16) with 65536. change (2 ^ 8) with 256.
  rewrite (Z.mod_small (0 * 16777216 + r * 65536 + g * 256 + b) 16777216) by lia.
  rewrite Z.mod_small by lia. lia.
Qed.

(** C5. For every colour, given by its four bytes: when the accent is fluent
    and the alpha byte of the reordered colour is [0x00], the colour handed to
    the compositing call has alpha [0x01] and the same low 24 bits; a nonzero
    alpha byte (such as [0x10]) goes through as it is; and an accent other
    than fluent gets the reordered colour with no correction at all (the
    normal accent issues no compositing call). *)
Theorem fluent_zero_alpha_is_forced_to_one :
  forall os window a r g b s,
    is_byte a -> is_byte r -> is_byte g -> is_byte b ->
    swca_available os = true ->
    new_events s (final (SetWindowBlur os window ACCENT_ENABLE_FLUENT (packed a r g b) s))
    = [SetWindowCompositionAttribute window
         (mkPolicy ACCENT_ENABLE_FLUENT 2
            (if a =? 0 then packed 0x01 b g r else packed a b g r) 0)]
    /\ nColor (wire_policy ACCENT_ENABLE_FLUENT (packed 0x10 r g b)) = packed 0x10 b g r
    /\ (forall appearance, appearance <> ACCENT_ENABLE_FLUENT ->
          wire_policy appearance (packed a r g b)
          = mkPolicy appearance 2 (packed a b g r) 0)
    /\ (forall appearance, appearance <> ACCENT_ENABLE_FLUENT ->
          appearance <> ACCENT_NORMAL ->
          new_events s (final (SetWindowBlur os window appearance (packed a r g b) s))
          = [SetWindowCompositionAttribute window (mkPolicy appearance 2 (packed a b g r) 0)])
    /\ count is_composition_call
         (new_events s (final (SetWindowBlur os window ACCENT_NORMAL (packed a r g b) s))) = 0%nat.
Proof.
  intros os window a r g b s Ha Hr Hg Hb Hav.
  assert (forall x, is_byte x ->
            wire_policy ACCENT_ENABLE_FLUENT (packed x r g b)
            = mkPolicy ACCENT_ENABLE_FLUENT 2
                (if x =? 0 then packed 1 b g r else packed x b g r) 0) as Hfluent.
  { intros x Hx. unfold wire_policy, initial_policy.
    rewrite swap_red_blue_packed by assumption.
    apply fluent_fix_packed; assumption. }
  assert (forall appearance, appearance <> ACCENT_ENABLE_FLUENT ->
            wire_policy appearance (packed a r g b)
            = mkPolicy appearance 2 (packed a b g r) 0) as Hother.
  { intros appearance Hf. apply wire_policy_other; assumption. }
  split; [| split; [| split; [| split]]].
  - rewrite SetWindowBlur_accent by (assumption || discriminate). simpl.
    apply new_events_app. simpl. rewrite Hfluent by assumption. reflexivity.
  - rewrite Hfluent by (unfold is_byte; lia). reflexivity.
  - exact Hother.
  - intros appearance Hf Hn.
    rewrite SetWindowBlur_accent by assumption. simpl.
    apply new_events_app. simpl. rewrite Hother by assumption. reflexivity.
  - destruct (SetWindowBlur_normal_step os window (packed a r g b) s)
      as (s' & -> & Htr & _). simpl.
    rewrite (new_events_app _ _ _ Htr).
    destruct (swca_available os && negb (memo_normal s window)); reflexivity.
Qed.

Lemma fluent_zero_alpha_is_forced_to_one_witness :
  new_events initial_Sys
    (final (SetWindowBlur empty_desktop 1 ACCENT_ENABLE_FLUENT
              (packed 0x00 0x11 0x22 0x33) initial_Sys))
  = [SetWindowCompositionAttribute 1
       (mkPolicy ACCENT_ENABLE_FLUENT 2 (packed 0x01 0x33 0x22 0x11) 0)].
Proof.
  apply (fluent_zero_alpha_is_forced_to_one empty_desktop 1 0x00 0x11 0x22 0x33 initial_Sys);
    try (unfold is_byte; lia); reflexivity.
Defined.

(** ** The memo of the normal accent *)

Lemma normal_calls_memoised os w colors s :
  (swca_available os = true -> memo_normal s w = true) ->
  exists s', normal_calls os w colors s = Returned tt s' /\ trace s' = trace s /\
             (swca_available os = true -> memo_normal s' w = true).
Proof.
  revert s. induction colors as [| c colors IH]; intros s Hm.
  - exists s. repeat split; assumption.
  - destruct (SetWindowBlur_normal_step os w c s) as (s1 & E1 & Htr1 & Hm1).
    destruct (IH s1 Hm1) as (s2 & E2 & Htr2 & Hm2).
    exists s2. split; [| split; [| exact Hm2]].
    + unfold normal_calls in *. simpl. unfold bind. rewrite E1. exact E2.
    + rewrite Htr2, Htr1.
      destruct (swca_available os); simpl; [| apply app_nil_r].
      rewrite Hm by reflexivity. apply app_nil_r.
Qed.

(** C3, as the code has it. A call with the normal accent never invokes the
    compositing API. When the compositing entry point is available, the call
    sends the theme-changed notification exactly when the memoised flag of
    the surface is absent or false; any number of further normal calls on the
    surface send nothing more; and after a call with another accent the next
    normal call sends the notification again. When the entry point is not
    available the call sends nothing and leaves the memo as it is. *)
Theorem normal_accent_is_memoised :
  forall os window color s,
    new_events s (final (SetWindowBlur os window ACCENT_NORMAL color s))
    = (if swca_available os && negb (memo_normal s window)
       then [send_message_WM_THEMECHANGED window] else [])
    /\ (forall colors,
          returned (normal_calls os window (color :: colors) s) = true /\
          new_events s (final (normal_calls os window (color :: colors) s))
          = new_events s (final (SetWindowBlur os window ACCENT_NORMAL color s)))
    /\ (forall appearance color',
          swca_available os = true -> appearance <> ACCENT_NORMAL ->
          let s1 := final (SetWindowBlur os window appearance color' s) in
          memo_normal s1 window = false /\
          new_events s1 (final (SetWindowBlur os window ACCENT_NORMAL color s1))
          = [send_message_WM_THEMECHANGED window])
    /\ (swca_available os = false ->
          is_normal (final (SetWindowBlur os window ACCENT_NORMAL color s)) = is_normal s).
Proof.
  intros os window color s.
  destruct (SetWindowBlur_normal_step os window color s) as (s1 & E1 & Htr1 & Hm1).
  split; [| split; [| split]].
  - rewrite E1. simpl. apply new_events_app. exact Htr1.
  - intros colors.
    destruct (normal_calls_memoised os window colors s1 Hm1) as (s2 & E2 & Htr2 & _).
    assert (normal_calls os window (color :: colors) s = Returned tt s2) as ->.
    { unfold normal_calls in *. simpl. unfold bind. rewrite E1. exact E2. }
    rewrite E1. simpl. split; [reflexivity |].
    unfold new_events. rewrite Htr2. reflexivity.
  - intros appearance color' Hav Hn. simpl.
    rewrite (SetWindowBlur_accent os window appearance color' s Hav Hn). simpl.
    assert (memo_normal
              (set_is_normal (<[window:=false]> (is_normal s))
                 (set_trace (trace s ++ [SetWindowCompositionAttribute window
                                           (wire_policy appearance color')])
                    (logged_call (call_SetWindowBlur window appearance color') s)))
              window = false) as Hmiss.
    { unfold memo_normal. simpl. apply bool_decide_eq_false.
      rewrite lookup_insert_eq. discriminate. }
    split; [exact Hmiss |].
    rewrite SetWindowBlur_normal_miss by assumption. simpl.
    apply new_events_app. reflexivity.
  - intros Hna. rewrite SetWindowBlur_unavailable by assumption. reflexivity.
Qed.

Lemma normal_accent_is_memoised_witness :
  let s1 := final (SetWindowBlur empty_desktop 1 ACCENT_ENABLE_BLURBEHIND 0 initial_Sys) in
  memo_normal s1 1 = false /\
  new_events s1 (final (SetWindowBlur empty_desktop 1 ACCENT_NORMAL 0 s1))
  = [send_message_WM_THEMECHANGED 1].
Proof.
  apply (normal_accent_is_memoised empty_desktop 1 0 initial_Sys);
    [reflexivity | discriminate].
Defined.

(** C3 as stated fails where the compositing entry point is missing: the
    flag of the surface is absent, and a normal call sends no notification. *)
Lemma normal_call_without_composition_api_is_silent :
  is_normal initial_Sys !! 1 = None /\
  new_events initial_Sys (final (SetWindowBlur legacy_desktop 1 ACCENT_NORMAL 0 initial_Sys)) = [] /\
  ~ (forall os window color s,
       new_events s (final (SetWindowBlur os window ACCENT_NORMAL color s))
       = if negb (memo_normal s window) then [send_message_WM_THEMECHANGED window] else []).
Proof.
  split; [reflexivity | split; [reflexivity |]].
  intros H. specialize (H legacy_desktop 1 0 initial_Sys). discriminate H.
Qed.

(** ** The peek toggle *)

Lemma TogglePeek_hit os status s :
  peek_cached status s = true ->
  TogglePeek os status s
  = Returned tt (set_cached_taskbar (Some (main_taskbar s))
                   (logged_call (call_TogglePeek status) s)).
Proof.
  unfold peek_cached. intros H. apply andb_true_iff in H as [Hp Ht].
  apply eqb_prop in Hp. apply bool_decide_eq_true in Ht.
  destruct s as [er mt tb ssp ir pa isn cp ct cnt tr cl]. simpl in *. subst cp.
  unfold TogglePeek. run_monad.
  destruct ct as [x |]; simpl in *.
  - subst x. rewrite eqb_reflx. simpl.
    rewrite bool_decide_eq_true_2 by reflexivity. reflexivity.
  - rewrite eqb_reflx. simpl.
    rewrite bool_decide_eq_true_2 by reflexivity. reflexivity.
Qed.

Lemma TogglePeek_miss os status s :
  peek_cached status s = false ->
  TogglePeek os status s
  = Returned tt
      (set_cached_taskbar (Some (main_taskbar s))
         (set_cached_peek status
            (set_trace (trace s ++ peek_toggle_events os status s)
               (logged_call (call_TogglePeek status) s)))).
Proof.
  unfold peek_cached, peek_toggle_events. intros H.
  destruct s as [er mt tb ssp ir pa isn cp ct cnt tr cl]. simpl in *.
  unfold TogglePeek. run_monad.
  destruct ct as [x |]; simpl in *.
  - destruct (eqb status cp) eqn:Ep; simpl in *.
    + apply bool_decide_eq_false in H.
      rewrite bool_decide_eq_false_2 by congruence. simpl.
      destruct status; simpl; rewrite <- ?app_assoc; reflexivity.
    + destruct status; simpl; rewrite <- ?app_assoc; reflexivity.
  - destruct (eqb status cp) eqn:Ep; simpl in *.
    + apply bool_decide_eq_false in H. congruence.
    + destruct status; simpl; rewrite <- ?app_assoc; reflexivity.
Qed.

(** C6. [TogglePeek] touches the layered style of the peek button only when
    the requested visibility differs from the cached one or the cached
    taskbar is not the current primary taskbar, and then it stores both in
    its cache; otherwise it issues nothing. So the calls with status true,
    true, false on an unchanged taskbar, from a cache that holds true, toggle
    the style once, in the third call. *)
Theorem TogglePeek_is_memoised :
  forall os status s,
    let s' := final (TogglePeek os status s) in
    returned (TogglePeek os status s) = true
    /\ new_events s s' = (if peek_cached status s then [] else peek_toggle_events os status s)
    /\ count is_peek_toggle (new_events s s') = (if peek_cached status s then 0%nat else 1%nat)
    /\ (peek_cached status s = true <->
          status = cached_peek s /\
          (cached_taskbar s = None \/ cached_taskbar s = Some (main_taskbar s)))
    /\ (peek_cached status s = false ->
          cached_peek s' = status /\ cached_taskbar s' = Some (main_taskbar s'))
    /\ (cached_peek s = true -> peek_cached true s = true ->
          let s1 := final (TogglePeek os true s) in
          let s2 := final (TogglePeek os true s1) in
          let s3 := final (TogglePeek os false s2) in
          s3 = final (peek_calls os [true; true; false] s)
          /\ new_events s s1 = [] /\ new_events s1 s2 = []
          /\ count is_peek_toggle (new_events s2 s3) = 1%nat
          /\ count is_peek_toggle (new_events s s3) = 1%nat).
Proof.
  intros os status s. simpl.
  assert (forall st x, peek_cached st x = true ->
            final (TogglePeek os st x)
            = set_cached_taskbar (Some (main_taskbar x)) (logged_call (call_TogglePeek st) x))
    as Hhit by (intros st x Hx; rewrite TogglePeek_hit by exact Hx; reflexivity).
  split; [| split; [| split; [| split; [| split]]]].
  - destruct (peek_cached status s) eqn:E;
      [rewrite TogglePeek_hit by exact E | rewrite TogglePeek_miss by exact E]; reflexivity.
  - destruct (peek_cached status s) eqn:E.
    + rewrite Hhit by exact E. apply new_events_app. simpl. symmetry. apply app_nil_r.
    + rewrite TogglePeek_miss by exact E. apply new_events_app. reflexivity.
  - destruct (peek_cached status s) eqn:E.
    + rewrite Hhit by exact E. unfold new_events. simpl. rewrite drop_all. reflexivity.
    + rewrite TogglePeek_miss by exact E. simpl.
      rewrite (new_events_app s _ (peek_toggle_events os status s)) by reflexivity.
      unfold peek_toggle_events. destruct status; reflexivity.
  - unfold peek_cached. rewrite andb_true_iff, bool_decide_eq_true.
    split.
    + intros [Hp Ht]. apply eqb_prop in Hp. split; [exact Hp |].
      destruct (cached_taskbar s) as [x |]; simpl in Ht; [right; congruence | left; reflexivity].
    + intros [Hp [Ht | Ht]]; rewrite Ht, Hp; simpl; split;
        auto using eqb_reflx.
  - intros E. rewrite TogglePeek_miss by exact E. simpl. split; reflexivity.
  - intros Hc Hs.
    set (s1 := final (TogglePeek os true s)).
    assert (TogglePeek os true s = Returned tt s1) as R1
      by (subst s1; rewrite TogglePeek_hit by exact Hs; reflexivity).
    assert (s1 = set_cached_taskbar (Some (main_taskbar s))
                   (logged_call (call_TogglePeek true) s)) as E1
      by (subst s1; apply Hhit; exact Hs).
    assert (peek_cached true s1 = true) as Hs1.
    { rewrite E1. unfold peek_cached. simpl. rewrite Hc. simpl.
      apply bool_decide_eq_true. reflexivity. }
    set (s2 := final (TogglePeek os true s1)).
    assert (TogglePeek os true s1 = Returned tt s2) as R2
      by (subst s2; rewrite TogglePeek_hit by exact Hs1; reflexivity).
    assert (s2 = set_cached_taskbar (Some (main_taskbar s1))
                   (logged_call (call_TogglePeek true) s1)) as E2
      by (subst s2; apply Hhit; exact Hs1).
    assert (peek_cached false s2 = false) as Hs2.
    { rewrite E2, E1. unfold peek_cached. simpl. rewrite Hc. reflexivity. }
    set (s3 := final (TogglePeek os false s2)).
    assert (TogglePeek os false s2 = Returned tt s3) as R3
      by (subst s3; rewrite TogglePeek_miss by exact Hs2; reflexivity).
    assert (trace s1 = trace s) as T1 by (rewrite E1; reflexivity).
    assert (trace s2 = trace s1) as T2 by (rewrite E2; reflexivity).
    assert (trace s3 = trace s2 ++ peek_toggle_events os false s2) as T3
      by (subst s3; rewrite TogglePeek_miss by exact Hs2; reflexivity).
    split; [| split; [| split; [| split]]].
    + unfold peek_calls. simpl. unfold bind. rewrite R1, R2, R3. reflexivity.
    + unfold new_events. rewrite T1. apply drop_all.
    + unfold new_events. rewrite T2. apply drop_all.
    + rewrite (new_events_app _ _ _ T3). reflexivity.
    + rewrite T2, T1 in T3. rewrite (new_events_app _ _ _ T3). reflexivity.
Qed.

Lemma TogglePeek_is_memoised_witness :
  count is_peek_toggle
    (new_events initial_Sys
       (final (TogglePeek empty_desktop false
                 (final (TogglePeek empty_desktop true
                           (final (TogglePeek empty_desktop true initial_Sys))))))) = 1%nat.
Proof.
  apply (TogglePeek_is_memoised empty_desktop true initial_Sys); reflexivity.
Defined.

(** ** Rebuilding the map of taskbars *)

Lemma store_secondary_entries os found tb m w st :
  store_secondary os found tb !! m = Some (w, st) ->
  tb !! m = Some (w, st) \/
  (w ∈ until_null found /\ st = Normal /\ m = monitor os w).
Proof.
  revert tb. induction found as [| x rest IH]; intros tb; simpl.
  - intros H. left. exact H.
  - destruct (decide (x = NullWindow)) as [_ | Hx]; [intros H; left; exact H |].
    intros H. apply IH in H as [H | (Hin & -> & ->)].
    + rewrite lookup_insert in H.
      destruct (decide (monitor os x = m)) as [<- | _]; [| left; exact H].
      injection H as <- <-. right. repeat split. apply list_elem_of_here.
    + right. repeat split. apply list_elem_of_further. exact Hin.
Qed.

Lemma store_secondary_keeps_keys os found tb m :
  is_Some (tb !! m) -> is_Some (store_secondary os found tb !! m).
Proof.
  revert tb. induction found as [| x rest IH]; intros tb H; simpl; [exact H |].
  destruct (decide (x = NullWindow)); [exact H |].
  apply IH. rewrite lookup_insert. destruct (decide (monitor os x = m)); [eauto | exact H].
Qed.

Lemma store_secondary_covers os found tb w :
  w ∈ until_null found -> is_Some (store_secondary os found tb !! monitor os w).
Proof.
  revert tb. induction found as [| x rest IH]; intros tb; simpl.
  - intros H. apply elem_of_nil in H. contradiction.
  - destruct (decide (x = NullWindow)); [intros H; apply elem_of_nil in H; contradiction |].
    intros H. apply elem_of_cons in H as [-> | H].
    + apply store_secondary_keeps_keys. rewrite lookup_insert_eq. eauto.
    + apply IH. exact H.
Qed.

Lemma RefreshHandles_eq cfg os s :
  RefreshHandles cfg os s
  = Returned tt
      (set_taskbars
         (store_secondary os (secondary_trays os)
            (<[monitor os (shell_tray os) := (shell_tray os, Normal)]> ∅))
         (set_main_taskbar (shell_tray os)
            (set_trace (trace s ++ (if Config.VERBOSE cfg then [Log_OutputMessage] else []))
               (logged_call call_RefreshHandles s)))).
Proof.
  unfold RefreshHandles. run_monad.
  destruct (Config.VERBOSE cfg); simpl; [reflexivity |].
  rewrite app_nil_r. destruct s; reflexivity.
Qed.

(** C9. [RefreshHandles] empties the map, then stores the primary taskbar
    under its display and every secondary taskbar that is found under its
    own, each with state [Normal]. Afterwards every entry has state [Normal]
    and holds the primary or a found secondary taskbar under that taskbar's
    display, each of these displays has an entry, and the map is the same
    whatever the map was before: nothing of the old map survives. *)
Theorem RefreshHandles_rebuilds_the_map :
  forall cfg os s,
    let s' := final (RefreshHandles cfg os s) in
    returned (RefreshHandles cfg os s) = true
    /\ main_taskbar s' = shell_tray os
    /\ (forall m w st,
          taskbars s' !! m = Some (w, st) ->
          st = Normal /\ m = monitor os w /\
          (w = shell_tray os \/ w ∈ until_null (secondary_trays os)))
    /\ is_Some (taskbars s' !! monitor os (shell_tray os))
    /\ (forall w, w ∈ until_null (secondary_trays os) ->
          is_Some (taskbars s' !! monitor os w))
    /\ (forall s0, taskbars (final (RefreshHandles cfg os s0)) = taskbars s')
    /\ taskbars s'
       = store_secondary os (secondary_trays os)
           {[monitor os (shell_tray os) := (shell_tray os, Normal)]}.
Proof.
  intros cfg os s. simpl. rewrite RefreshHandles_eq. simpl.
  split; [reflexivity | split; [reflexivity |]].
  split; [| split; [| split; [| split]]].
  - intros m w st H. apply store_secondary_entries in H as [H | (Hin & -> & ->)].
    + rewrite lookup_insert in H.
      destruct (decide (monitor os (shell_tray os) = m)) as [<- | _].
      * injection H as <- <-. repeat split. left. reflexivity.
      * rewrite lookup_empty in H. discriminate.
    + repeat split. right. exact Hin.
  - apply store_secondary_keeps_keys. rewrite lookup_insert_eq. eauto.
  - intros w Hw. apply store_secondary_covers. exact Hw.
  - intros s0. rewrite RefreshHandles_eq. reflexivity.
  - reflexivity.
Qed.

Lemma RefreshHandles_rebuilds_the_map_witness :
  let s := set_taskbars {[ 7 := (700, WindowMaximised) ]} initial_Sys in
  let s' := final (RefreshHandles default_config two_monitor_desktop s) in
  taskbars s' !! 2 = Some (200, Normal) /\
  (Normal = Normal /\ 2 = monitor two_monitor_desktop 200 /\
   (200 = shell_tray two_monitor_desktop \/
    200 ∈ until_null (secondary_trays two_monitor_desktop))) /\
  taskbars s' !! 7 = None.
Proof.
  simpl. split; [reflexivity |]. split; [| reflexivity].
  apply (proj1 (proj2 (proj2
           (RefreshHandles_rebuilds_the_map default_config two_monitor_desktop
              (set_taskbars {[ 7 := (700, WindowMaximised) ]} initial_Sys)))) 2 200 Normal).
  reflexivity.
Defined.

(** ** The window visitor and the enumeration *)

Lemma untouched_by_visit_refl s : untouched_by_visit s s.
Proof. repeat split. Qed.

Lemma untouched_by_visit_trans s1 s2 s3 :
  untouched_by_visit s1 s2 -> untouched_by_visit s2 s3 -> untouched_by_visit s1 s3.
Proof.
  unfold untouched_by_visit.
  intros (A1 & A2 & A3 & A4 & A5 & A6 & A7 & A8 & A9)
         (B1 & B2 & B3 & B4 & B5 & B6 & B7 & B8 & B9).
  repeat split; congruence.
Qed.

Lemma mark_lookup st m tb k :
  mark st m tb !! k
  = if decide (m = k) then (fun taskbar => (fst taskbar, st)) <$> tb !! k else tb !! k.
Proof.
  unfold mark. destruct (decide (m = k)) as [<- | Hne].
  - destruct (tb !! m) as [taskbar |] eqn:E.
    + rewrite lookup_insert_eq. reflexivity.
    + rewrite E. reflexivity.
  - destruct (tb !! m) as [taskbar |] eqn:E; [| reflexivity].
    apply lookup_insert_ne. exact Hne.
Qed.

Lemma mark_surfaces st m tb : fst <$> mark st m tb = fst <$> tb.
Proof.
  apply map_eq. intros k. rewrite !lookup_fmap, mark_lookup.
  destruct (decide (m = k)); [| reflexivity].
  destruct (tb !! k) as [[w st0] |]; reflexivity.
Qed.

Lemma reset_states_lookup tb k :
  reset_states tb !! k = (fun taskbar => (fst taskbar, Normal)) <$> tb !! k.
Proof. unfold reset_states. apply lookup_fmap. Qed.

Lemma reset_states_surfaces tb : fst <$> reset_states tb = fst <$> tb.
Proof.
  apply map_eq. intros k. rewrite !lookup_fmap, reset_states_lookup.
  destruct (tb !! k) as [[w st0] |]; reflexivity.
Qed.

Lemma reset_states_idemp tb : reset_states (reset_states tb) = reset_states tb.
Proof.
  apply map_eq. intros k. rewrite !reset_states_lookup.
  destruct (tb !! k) as [[w st0] |]; reflexivity.
Qed.

Lemma surfaces_same_keys (tb tb' : gmap Z (Z * MONITORSTATE)) k :
  fst <$> tb' = fst <$> tb -> tb' !! k = None <-> tb !! k = None.
Proof.
  intros E. assert ((fst <$> tb') !! k = (fst <$> tb) !! k) as Ek by (rewrite E; reflexivity).
  rewrite !lookup_fmap in Ek.
  destruct (tb' !! k), (tb !! k); simpl in Ek; split; intros; congruence.
Qed.

Lemma EnumWindowsProcess_throws cfg os hWnd s :
  observed_maximised os hWnd = true -> taskbars s !! monitor os hWnd = None ->
  EnumWindowsProcess cfg os hWnd s
  = Thrown (logged_call (call_EnumWindowsProcess hWnd) s).
Proof.
  unfold observed_maximised. intros Ho Hnone.
  repeat (apply andb_true_iff in Ho as [Ho ?]).
  unfold EnumWindowsProcess. run_monad.
  rewrite Ho. simpl.
  match goal with H : negb (cloaked _ _) = true |- _ => rewrite H end.
  match goal with H : negb (IsBlacklisted _ _) = true |- _ => rewrite H end.
  match goal with H : (state _ _ =? _) = true |- _ => rewrite H end.
  match goal with H : on_current_desktop _ _ = true |- _ => rewrite H end.
  simpl. rewrite Hnone. reflexivity.
Qed.

Lemma EnumWindowsProcess_returns cfg os hWnd s :
  observed_maximised os hWnd = false \/ is_Some (taskbars s !! monitor os hWnd) ->
  exists s',
    EnumWindowsProcess cfg os hWnd s = Returned true s' /\
    calls s' = calls s ++ [call_EnumWindowsProcess hWnd] /\
    untouched_by_visit s s' /\
    taskbars s'
    = (if observed_maximised os hWnd && Config.DYNAMIC_WS cfg
       then mark WindowMaximised (monitor os hWnd) (taskbars s) else taskbars s).
Proof.
  unfold observed_maximised. intros H.
  unfold EnumWindowsProcess, mark. run_monad.
  destruct (visible os hWnd); simpl;
    [| eexists; split; [reflexivity | repeat split]].
  destruct (cloaked os hWnd); simpl;
    [eexists; split; [reflexivity | repeat split] |].
  destruct (IsBlacklisted os hWnd); simpl;
    [eexists; split; [reflexivity | repeat split] |].
  destruct (state os hWnd =? SW_MAXIMIZE); simpl.
  - destruct (on_current_desktop os hWnd); simpl.
    + destruct H as [H | [taskbar Htb]]; [discriminate |].
      rewrite Htb.
      destruct (Config.DYNAMIC_WS cfg); simpl;
        destruct (is_dynamic_peek (Config.PEEK_POLICY cfg) && (taskbar.1 =? main_taskbar s));
        simpl; eexists; (split; [reflexivity | repeat split]).
    + destruct (bool_decide (Config.PEEK_POLICY cfg = Config.DynamicGenerous)
                && negb (should_show_peek s) && negb (state os hWnd =? SW_SHOWMINIMIZED)
                && isRealWindow os hWnd);
        simpl; eexists; (split; [reflexivity | repeat split]).
  - destruct (bool_decide (Config.PEEK_POLICY cfg = Config.DynamicGenerous)
              && negb (should_show_peek s) && negb (state os hWnd =? SW_SHOWMINIMIZED)
              && isRealWindow os hWnd);
      simpl; eexists; (split; [reflexivity | repeat split]).
Qed.

Lemma justified_mono cfg os seen seen' start tb :
  (forall h, h ∈ seen -> h ∈ seen') ->
  justified cfg os seen start tb -> justified cfg os seen' start tb.
Proof.
  intros Hsub Hj m w st Hm.
  destruct (Hj m w st Hm) as [H | [(H1 & H2 & h & Hin & Ho & Hmon) | H]].
  - left. exact H.
  - right. left. repeat split; try assumption. exists h. auto.
  - right. right. exact H.
Qed.

Lemma justified_reset cfg os seen start tb :
  justified cfg os seen start (reset_states tb).
Proof.
  intros m w st Hm. rewrite reset_states_lookup in Hm.
  destruct (tb !! m) as [[w0 st0] |]; simpl in Hm; [| discriminate].
  injection Hm as _ <-. left. reflexivity.
Qed.

Lemma justified_mark_maximised cfg os seen start tb hWnd :
  Config.DYNAMIC_WS cfg = true -> observed_maximised os hWnd = true ->
  justified cfg os seen start tb ->
  justified cfg os (seen ++ [hWnd]) start (mark WindowMaximised (monitor os hWnd) tb).
Proof.
  intros Hws Ho Hj m w st Hm. rewrite mark_lookup in Hm.
  destruct (decide (monitor os hWnd = m)) as [E | _].
  - destruct (tb !! m) as [[w0 st0] |]; simpl in Hm; [| discriminate].
    injection Hm as _ <-. right. left. repeat split; [exact Hws |].
    exists hWnd. repeat split; [| exact Ho | exact E].
    apply elem_of_app. right. apply list_elem_of_here.
  - refine (justified_mono cfg os seen (seen ++ [hWnd]) start tb _ Hj m w st Hm).
    intros h Hh. apply elem_of_app. left. exact Hh.
Qed.

(** The enumeration, from any point of the list of windows. *)
Lemma EnumWindows_from_spec cfg os ws :
  forall s seen,
    justified cfg os seen false (taskbars s) ->
    let o := EnumWindows_from (EnumWindowsProcess cfg os) ws s in
    justified cfg os (seen ++ ws) false (taskbars (final o))
    /\ fst <$> taskbars (final o) = fst <$> taskbars s
    /\ untouched_by_visit s (final o)
    /\ (exists visited rest,
          ws = visited ++ rest /\
          calls (final o) = calls s ++ map call_EnumWindowsProcess visited /\
          (returned o = true -> rest = []))
    /\ (returned o = false <->
        exists h, h ∈ ws /\ observed_maximised os h = true /\
                  taskbars s !! monitor os h = None).
Proof.
  induction ws as [| h rest IH]; intros s seen Hj; simpl.
  - rewrite app_nil_r. split; [exact Hj |]. split; [reflexivity |].
    split; [apply untouched_by_visit_refl |]. split.
    + exists [], []. simpl. rewrite app_nil_r. auto.
    + split; [discriminate |]. intros (h & Hin & _). apply elem_of_nil in Hin. contradiction.
  - unfold bind.
    destruct (observed_maximised os h) eqn:Ho.
    + destruct (taskbars s !! monitor os h) as [taskbar |] eqn:Etb.
      * destruct (EnumWindowsProcess_returns cfg os h s) as (s1 & E1 & Hc1 & Hu1 & Ht1);
          [right; eauto |].
        rewrite E1. rewrite Ho in Ht1. simpl in Ht1.
        assert (fst <$> taskbars s1 = fst <$> taskbars s) as Hs1.
        { rewrite Ht1. destruct (Config.DYNAMIC_WS cfg); [apply mark_surfaces | reflexivity]. }
        assert (justified cfg os (seen ++ [h]) false (taskbars s1)) as Hj1.
        { rewrite Ht1. destruct (Config.DYNAMIC_WS cfg) eqn:Hws.
          - apply justified_mark_maximised; assumption.
          - apply (justified_mono cfg os seen); [| exact Hj].
            intros x Hx. apply elem_of_app. left. exact Hx. }
        destruct (IH s1 (seen ++ [h]) Hj1) as (I1 & I2 & I3 & (vis & rst & I4 & I5 & I6) & I7).
        rewrite <- app_assoc in I1. simpl in I1.
        split; [exact I1 |]. split; [congruence |].
        split; [eapply untouched_by_visit_trans; eassumption |]. split.
        -- exists (h :: vis), rst. simpl. split; [congruence |]. split; [| exact I6].
           rewrite I5, Hc1, <- app_assoc. reflexivity.
        -- rewrite I7. split.
           ++ intros (x & Hin & Hox & Hnx). exists x. split; [apply list_elem_of_further; exact Hin |].
              split; [exact Hox |]. apply (surfaces_same_keys _ _ _ Hs1). exact Hnx.
           ++ intros (x & Hin & Hox & Hnx). apply elem_of_cons in Hin as [-> | Hin]; [congruence |].
              exists x. split; [exact Hin |]. split; [exact Hox |].
              apply (surfaces_same_keys _ _ _ Hs1). exact Hnx.
      * rewrite (EnumWindowsProcess_throws cfg os h s Ho Etb). simpl.
        split; [apply (justified_mono cfg os seen); [| exact Hj];
                intros x Hx; apply elem_of_app; left; exact Hx |].
        split; [reflexivity |]. split; [repeat split |]. split.
        -- exists [h], rest. simpl. split; [reflexivity |].
           split; [reflexivity | discriminate].
        -- split; [| reflexivity]. intros _. exists h.
           split; [apply list_elem_of_here | split; assumption].
    + destruct (EnumWindowsProcess_returns cfg os h s) as (s1 & E1 & Hc1 & Hu1 & Ht1);
        [left; exact Ho |].
      rewrite E1. rewrite Ho in Ht1. simpl in Ht1.
      assert (justified cfg os (seen ++ [h]) false (taskbars s1)) as Hj1.
      { rewrite Ht1. apply (justified_mono cfg os seen); [| exact Hj].
        intros x Hx. apply elem_of_app. left. exact Hx. }
      destruct (IH s1 (seen ++ [h]) Hj1) as (I1 & I2 & I3 & (vis & rst & I4 & I5 & I6) & I7).
      rewrite <- app_assoc in I1. simpl in I1.
      split; [exact I1 |]. split; [congruence |].
      split; [eapply untouched_by_visit_trans; eassumption |]. split.
      * exists (h :: vis), rst. simpl. split; [congruence |]. split; [| exact I6].
        rewrite I5, Hc1, <- app_assoc. reflexivity.
      * rewrite I7, Ht1. split.
        -- intros (x & Hin & Hox & Hnx). exists x.
           split; [apply list_elem_of_further; exact Hin | split; assumption].
        -- intros (x & Hin & Hox & Hnx). apply elem_of_cons in Hin as [-> | Hin]; [congruence |].
           exists x. split; [exact Hin | split; assumption].
Qed.

(** ** The reconciliation pass *)

Lemma reconcile_blocks cfg os s :
  reconcile cfg os s = (scan cfg os ;; after_scan cfg os)%cpp (pass_start cfg s).
Proof. reflexivity. Qed.

Lemma pass_start_reset cfg s :
  pass_start cfg (set_taskbars (reset_states (taskbars s)) s) = pass_start cfg s.
Proof.
  unfold pass_start. destruct s. simpl. rewrite reset_states_idemp. reflexivity.
Qed.

Lemma TogglePeek_frame os status s :
  exists s',
    TogglePeek os status s = Returned tt s' /\
    calls s' = calls s ++ [call_TogglePeek status] /\
    trace s' = trace s ++ (if peek_cached status s then [] else peek_toggle_events os status s) /\
    taskbars s' = taskbars s /\ should_show_peek s' = should_show_peek s /\
    exit_reason s' = exit_reason s /\ main_taskbar s' = main_taskbar s /\
    is_running s' = is_running s /\ peek_active s' = peek_active s /\
    is_normal s' = is_normal s /\ counter s' = counter s.
Proof.
  destruct (peek_cached status s) eqn:E.
  - eexists. split; [apply TogglePeek_hit; exact E |].
    simpl. rewrite app_nil_r. repeat split.
  - eexists. split; [apply TogglePeek_miss; exact E |].
    simpl. repeat split.
Qed.

Lemma justified_allow_start cfg os seen tb :
  justified cfg os seen false tb -> justified cfg os seen true tb.
Proof.
  intros Hj m w st Hm.
  destruct (Hj m w st Hm) as [H | [H | (_ & H & _)]]; [left | right; left | discriminate];
    exact H.
Qed.

Lemma justified_mark_start cfg os seen tb :
  Config.DYNAMIC_START cfg && IsStartVisible os = true ->
  justified cfg os seen true tb ->
  justified cfg os seen true (mark StartMenuOpen (monitor os (start_window os)) tb).
Proof.
  intros Hstart Hj m w st Hm. rewrite mark_lookup in Hm.
  destruct (decide (monitor os (start_window os) = m)) as [E | _].
  - destruct (tb !! m) as [[w0 st0] |]; simpl in Hm; [| discriminate].
    injection Hm as _ <-. right. right. repeat split.
    unfold hosts_start. rewrite Hstart. simpl.
    apply bool_decide_eq_true. symmetry. exact E.
  - exact (Hj m w st Hm).
Qed.

Lemma all_Normal_reset tb m w st :
  reset_states tb !! m = Some (w, st) -> st = Normal.
Proof.
  rewrite reset_states_lookup.
  destruct (tb !! m) as [[w0 st0] |]; simpl; [| discriminate].
  intros H. injection H as _ <-. reflexivity.
Qed.

(** The pass after the enumeration. *)
Lemma after_scan_spec cfg os seen s :
  justified cfg os seen false (taskbars s) ->
  let o := after_scan cfg os s in
  justified cfg os seen true (taskbars (final o))
  /\ untouched_by_tick s (final o)
  /\ is_normal (final o) = is_normal s
  /\ should_show_peek (final o) = should_show_peek s
  /\ calls (final o) = calls s ++ [call_TogglePeek (should_show_peek s)]
  /\ trace (final o)
     = trace s ++ (if peek_cached (should_show_peek s) s then []
                   else peek_toggle_events os (should_show_peek s) s)
  /\ (returned o = false <->
      Config.DYNAMIC_START cfg && IsStartVisible os = true /\
      taskbars s !! monitor os (start_window os) = None)
  /\ (returned o = true -> counter (final o) = 0)
  /\ (returned o = true ->
      Config.DYNAMIC_WS cfg && Config.DYNAMIC_REGULAR_ON_PEEK cfg && peek_active s = true ->
      forall m w st, taskbars (final o) !! m = Some (w, st) -> st = Normal).
Proof.
  intros Hj. simpl.
  destruct (TogglePeek_frame os (should_show_peek s) s)
    as (s1 & E1 & Hc1 & Htr1 & Htb1 & Hsp1 & Her1 & Hmt1 & Hir1 & Hpa1 & Hin1 & Hcn1).
  assert (justified cfg os seen true (taskbars s1)) as Hj1
    by (rewrite Htb1; apply justified_allow_start; exact Hj).
  unfold after_scan, untouched_by_tick. run_monad. rewrite E1.
  destruct (Config.DYNAMIC_START cfg && IsStartVisible os) eqn:Hstart; simpl.
  - destruct (taskbars s1 !! monitor os (start_window os)) as [taskbar |] eqn:Etb; simpl.
    + pose proof (justified_mark_start cfg os seen (taskbars s1) Hstart Hj1) as Hj2.
      pose proof (mark_surfaces StartMenuOpen (monitor os (start_window os)) (taskbars s1)) as Hs2.
      unfold mark in Hj2, Hs2. rewrite Etb in Hj2, Hs2.
      rewrite Hpa1.
      destruct (Config.DYNAMIC_WS cfg && Config.DYNAMIC_REGULAR_ON_PEEK cfg && peek_active s)
        eqn:Hpost; simpl.
      * split; [apply justified_reset |].
        split; [rewrite reset_states_surfaces, Hs2, Htb1; repeat split; assumption |].
        repeat (split; [assumption |]).
        split; [split; [discriminate | intros (_ & H); rewrite <- Htb1 in H; congruence] |].
        split; [reflexivity |]. intros _ _ m w st. apply all_Normal_reset.
      * split; [exact Hj2 |].
        split; [rewrite Hs2, Htb1; repeat split; assumption |].
        repeat (split; [assumption |]).
        split; [split; [discriminate | intros (_ & H); rewrite <- Htb1 in H; congruence] |].
        split; [reflexivity |]. intros _ H. discriminate.
    + split; [exact Hj1 |].
      split; [rewrite Htb1; repeat split; assumption |].
      repeat (split; [assumption |]).
      split; [split; [intros _; split; [reflexivity | rewrite <- Htb1; exact Etb]
                     | reflexivity] |].
      split; discriminate.
  - rewrite Hpa1.
    destruct (Config.DYNAMIC_WS cfg && Config.DYNAMIC_REGULAR_ON_PEEK cfg && peek_active s)
      eqn:Hpost; simpl.
    + split; [apply justified_reset |].
      split; [rewrite reset_states_surfaces, Htb1; repeat split; assumption |].
      repeat (split; [assumption |]).
      split; [split; [discriminate | intros (H & _); discriminate] |].
      split; [reflexivity |]. intros _ _ m w st. apply all_Normal_reset.
    + split; [exact Hj1 |].
      split; [rewrite Htb1; repeat split; assumption |].
      repeat (split; [assumption |]).
      split; [split; [discriminate | intros (H & _); discriminate] |].
      split; [reflexivity |]. intros _ H. discriminate.
Qed.

Lemma untouched_by_tick_trans s1 s2 s3 :
  untouched_by_tick s1 s2 -> untouched_by_tick s2 s3 -> untouched_by_tick s1 s3.
Proof.
  unfold untouched_by_tick.
  intros (A1 & A2 & A3 & A4 & A5) (B1 & B2 & B3 & B4 & B5).
  repeat split; congruence.
Qed.

Lemma untouched_by_tick_pass_start cfg s : untouched_by_tick s (pass_start cfg s).
Proof. repeat split. apply reset_states_surfaces. Qed.

(** The guarded enumeration, from a map that the pass has just reset. *)
Lemma scan_spec cfg os s :
  justified cfg os [] false (taskbars s) ->
  let o := scan cfg os s in
  justified cfg os (top_level_windows os) false (taskbars (final o))
  /\ untouched_by_tick s (final o)
  /\ is_normal (final o) = is_normal s
  /\ trace (final o) = trace s ++ (if scans_windows cfg then [EnumWindows_call] else [])
  /\ (exists visited rest,
        top_level_windows os = visited ++ rest /\
        calls (final o)
        = calls s ++ (if scans_windows cfg then map call_EnumWindowsProcess visited else []) /\
        (returned o = true -> rest = []))
  /\ (returned o = false <->
      scans_windows cfg = true /\
      exists h, h ∈ top_level_windows os /\ observed_maximised os h = true /\
                taskbars s !! monitor os h = None)
  /\ (scans_windows cfg = false -> o = Returned tt s).
Proof.
  intros Hj. unfold scan, scans_windows.
  destruct (Config.DYNAMIC_WS cfg || is_dynamic_peek (Config.PEEK_POLICY cfg)) eqn:Hscan.
  - unfold EnumWindows. run_monad.
    set (s1 := set_trace (trace s ++ [EnumWindows_call]) (set_counter 0 s)).
    destruct (EnumWindows_from_spec cfg os (top_level_windows os) s1 [] Hj)
      as (I1 & I2 & (U1 & U2 & U3 & U4 & U5 & U6 & U7 & U8 & U9) & I4 & I5).
    simpl in I1.
    split; [exact I1 |]. split; [repeat split; assumption |].
    split; [exact U5 |]. split; [exact U9 |]. split; [exact I4 |].
    split; [| discriminate].
    rewrite I5. split; [intros H; split; [reflexivity | exact H] | intros (_ & H); exact H].
  - simpl. rewrite !app_nil_r.
    split; [apply (justified_mono cfg os []); [| exact Hj];
            intros h Hh; apply elem_of_nil in Hh; contradiction |].
    split; [repeat split |]. split; [reflexivity |]. split; [reflexivity |].
    split; [exists (top_level_windows os), []; rewrite app_nil_r; repeat split |].
    split; [| reflexivity].
    split; [discriminate | intros (H & _); discriminate].
Qed.

(** One reconciliation pass, whatever the configuration and the desktop. *)
Lemma reconcile_spec cfg os s :
  let o := reconcile cfg os s in
  justified cfg os (top_level_windows os) true (taskbars (final o))
  /\ untouched_by_tick s (final o)
  /\ is_normal (final o) = is_normal s
  /\ (exists visited rest peek toggles,
        top_level_windows os = visited ++ rest /\
        (returned o = true -> rest = []) /\
        (peek = [] \/ peek = [call_TogglePeek (should_show_peek (final o))]) /\
        (returned o = true -> peek <> []) /\
        (toggles = [] \/ exists status x, toggles = peek_toggle_events os status x) /\
        calls (final o)
        = calls s ++ (if scans_windows cfg then map call_EnumWindowsProcess visited else [])
                  ++ peek /\
        trace (final o)
        = trace s ++ (if scans_windows cfg then [EnumWindows_call] else []) ++ toggles)
  /\ (returned o = false <->
      (scans_windows cfg = true /\
       exists h, h ∈ top_level_windows os /\ observed_maximised os h = true /\
                 taskbars s !! monitor os h = None)
      \/ (Config.DYNAMIC_START cfg && IsStartVisible os = true /\
          taskbars s !! monitor os (start_window os) = None))
  /\ (returned o = true -> counter (final o) = 0)
  /\ (returned o = true ->
      Config.DYNAMIC_WS cfg && Config.DYNAMIC_REGULAR_ON_PEEK cfg && peek_active s = true ->
      forall m w st, taskbars (final o) !! m = Some (w, st) -> st = Normal)
  /\ (scans_windows cfg = false ->
      should_show_peek (final o) = bool_decide (Config.PEEK_POLICY cfg = Config.Enabled)).
Proof.
  simpl. rewrite reconcile_blocks.
  set (s0 := pass_start cfg s).
  assert (taskbars s0 = reset_states (taskbars s)) as Htb0 by reflexivity.
  assert (justified cfg os [] false (taskbars s0)) as Hj0
    by (rewrite Htb0; apply justified_reset).
  assert (forall k, taskbars s0 !! k = None <-> taskbars s !! k = None) as Hkeys.
  { intros k. apply surfaces_same_keys. rewrite Htb0. apply reset_states_surfaces. }
  assert (should_show_peek s0 = bool_decide (Config.PEEK_POLICY cfg = Config.Enabled))
    as Hssp by reflexivity.
  pose proof (untouched_by_tick_pass_start cfg s) as U0.
  assert (is_normal s0 = is_normal s) as N0 by reflexivity.
  assert (calls s0 = calls s) as C0 by reflexivity.
  assert (trace s0 = trace s) as Tr0 by reflexivity.
  assert (peek_active s0 = peek_active s) as P0 by reflexivity.
  fold s0 in U0.
  destruct (scan_spec cfg os s0 Hj0)
    as (S1 & T & S3 & S4 & (visited & rest & V1 & V2 & V3) & S6 & S7).
  pose proof T as (_ & _ & _ & T4 & T5).
  clearbody s0. unfold bind.
  destruct (scan cfg os s0) as [[] s1 | s1] eqn:Escan; cbn [final returned] in *.
  - destruct (after_scan_spec cfg os (top_level_windows os) s1 S1)
      as (A1 & B & A3 & A4 & A5 & A6 & A7 & A8 & A9).
    cbv zeta in *.
    assert (forall k, taskbars s1 !! k = None <-> taskbars s !! k = None) as Hkeys1.
    { intros k. rewrite <- Hkeys. apply surfaces_same_keys. exact T5. }
    split; [exact A1 |].
    split; [eapply untouched_by_tick_trans; [exact U0 |];
            eapply untouched_by_tick_trans; eassumption |].
    split; [congruence |].
    split.
    { exists visited, rest, [call_TogglePeek (should_show_peek s1)],
        (if peek_cached (should_show_peek s1) s1 then []
         else peek_toggle_events os (should_show_peek s1) s1).
      split; [exact V1 |]. split; [intros _; apply V3; reflexivity |].
      split; [right; rewrite A4; reflexivity |]. split; [discriminate |].
      split; [destruct (peek_cached (should_show_peek s1) s1); [left | right]; eauto |].
      split; [rewrite A5, V2, C0, <- app_assoc; reflexivity |].
      rewrite A6, S4, Tr0, <- app_assoc. reflexivity. }
    split.
    { rewrite A7. split.
      - intros (H1 & H2). right. split; [exact H1 | apply Hkeys1; exact H2].
      - intros [(Hs & h & Hin & Ho & Hn) | (H1 & H2)].
        + assert (true = false) as F; [| discriminate F].
          apply S6. split; [exact Hs |]. exists h. split; [exact Hin |].
          split; [exact Ho |]. apply Hkeys. exact Hn.
        + split; [exact H1 | apply Hkeys1; exact H2]. }
    split; [exact A8 |].
    split; [intros Hr Hp; apply A9; [exact Hr | rewrite T4, P0; exact Hp] |].
    intros Hns. rewrite A4. apply S7 in Hns. injection Hns as <-. exact Hssp.
  - split; [apply justified_allow_start; exact S1 |].
    split; [eapply untouched_by_tick_trans; eassumption |].
    split; [congruence |].
    split.
    { exists visited, rest, [], [].
      split; [exact V1 |]. split; [discriminate |]. split; [left; reflexivity |].
      split; [discriminate |]. split; [left; reflexivity |].
      rewrite !app_nil_r. split; congruence. }
    split.
    { split; [| reflexivity]. intros _. left.
      destruct S6 as [S6 _]. destruct (S6 eq_refl) as (Hs & h & Hin & Ho & Hn).
      split; [exact Hs |]. exists h. split; [exact Hin |]. split; [exact Ho |].
      apply Hkeys. exact Hn. }
    split; [discriminate |]. split; [discriminate |].
    intros Hns. apply S7 in Hns. discriminate.
Qed.

(** ** The appearance applier over the whole map *)

Lemma SetWindowBlur_frame os w a c s :
  exists s' delta,
    SetWindowBlur os w a c s = Returned tt s' /\
    calls s' = calls s ++ [call_SetWindowBlur w a c] /\
    untouched_by_blur s s' /\
    trace s' = trace s ++ delta /\
    Forall (fun e => from_blur e = true) delta /\
    (a = ACCENT_NORMAL ->
       Forall (fun e => is_theme_changed e = true) delta /\
       (swca_available os = true -> is_normal s' !! w = Some true) /\
       (forall w', is_normal s !! w' = Some true -> is_normal s' !! w' = Some true)).
Proof.
  destruct (swca_available os) eqn:Hav.
  - destruct (decide (a = ACCENT_NORMAL)) as [-> | Hn].
    + destruct (memo_normal s w) eqn:Hm.
      * exists (logged_call (call_SetWindowBlur w ACCENT_NORMAL c) s), [].
        split; [apply SetWindowBlur_normal_hit; assumption |].
        simpl. rewrite app_nil_r. repeat split; auto.
        intros _. apply bool_decide_eq_true in Hm. exact Hm.
      * eexists. exists [send_message_WM_THEMECHANGED w].
        split; [apply SetWindowBlur_normal_miss; assumption |].
        simpl. repeat split; auto.
        -- intros _. apply lookup_insert_eq.
        -- intros w' Hw'. rewrite lookup_insert. destruct (decide (w = w')); [reflexivity | exact Hw'].
    + eexists. exists [SetWindowCompositionAttribute w (wire_policy a c)].
      split; [apply SetWindowBlur_accent; assumption |].
      simpl. repeat split; auto; contradiction.
  - exists (logged_call (call_SetWindowBlur w a c) s), [].
    split; [apply SetWindowBlur_unavailable; assumption |].
    simpl. rewrite app_nil_r. repeat split; auto. discriminate.
Qed.

Lemma untouched_by_blur_trans s1 s2 s3 :
  untouched_by_blur s1 s2 -> untouched_by_blur s2 s3 -> untouched_by_blur s1 s3.
Proof.
  unfold untouched_by_blur.
  intros (A1 & A2 & A3 & A4 & A5 & A6 & A7 & A8 & A9)
         (B1 & B2 & B3 & B4 & B5 & B6 & B7 & B8 & B9).
  repeat split; congruence.
Qed.

Lemma blur_each_spec os (f : Z * (Z * MONITORSTATE) -> ACCENT * Z) l :
  forall s,
  exists s' delta,
    for_each l (fun t => SetWindowBlur os (fst (snd t)) (fst (f t)) (snd (f t))) s
    = Returned tt s' /\
    calls s' = calls s
               ++ map (fun t => call_SetWindowBlur (fst (snd t)) (fst (f t)) (snd (f t))) l /\
    untouched_by_blur s s' /\
    trace s' = trace s ++ delta /\
    Forall (fun e => from_blur e = true) delta /\
    ((forall t, fst (f t) = ACCENT_NORMAL) ->
       Forall (fun e => is_theme_changed e = true) delta /\
       (swca_available os = true ->
        forall t, t ∈ l -> is_normal s' !! fst (snd t) = Some true) /\
       (forall w', is_normal s !! w' = Some true -> is_normal s' !! w' = Some true)).
Proof.
  induction l as [| t l IH]; intros s.
  - exists s, []. simpl. rewrite !app_nil_r. repeat split; auto.
    intros _ x Hx. apply elem_of_nil in Hx. contradiction.
  - destruct (SetWindowBlur_frame os (fst (snd t)) (fst (f t)) (snd (f t)) s)
      as (s1 & d1 & E1 & C1 & U1 & T1 & F1 & N1).
    destruct (IH s1) as (s2 & d2 & E2 & C2 & U2 & T2 & F2 & N2).
    exists s2, (d1 ++ d2). simpl. unfold bind. rewrite E1.
    split; [exact E2 |].
    split; [rewrite C2, C1, <- app_assoc; reflexivity |].
    split; [eapply untouched_by_blur_trans; eassumption |].
    split; [rewrite T2, T1, <- app_assoc; reflexivity |].
    split; [apply Forall_app; split; assumption |].
    intros Hn. destruct (N1 (Hn t)) as (G1 & M1 & K1). destruct (N2 Hn) as (G2 & M2 & K2).
    split; [apply Forall_app; split; assumption |].
    split; [| intros w' Hw'; apply K2, K1; exact Hw'].
    intros Hav x Hx. apply elem_of_cons in Hx as [-> | Hx].
    + apply K2, M1. exact Hav.
    + apply M2; assumption.
Qed.

(** ** One tick *)

Lemma apply_appearance_spec cfg os s :
  exists s' delta,
    apply_appearance cfg os s = Returned tt s' /\
    calls s' = calls s ++ map (blur_call cfg) (map_to_list (taskbars s)) /\
    untouched_by_blur s s' /\
    trace s' = trace s ++ delta /\
    Forall (fun e => from_blur e = true) delta.
Proof.
  destruct (blur_each_spec os (fun t => appearance_of cfg (snd (snd t)))
              (map_to_list (taskbars s)) s)
    as (s' & delta & E & C & U & T & F & _).
  exists s', delta.
  split; [exact E |]. split; [exact C |]. split; [exact U |]. split; [exact T | exact F].
Qed.

Lemma SetTaskbarBlur_blocks cfg os s :
  SetTaskbarBlur cfg os s
  = (when (10 <=? counter s) (reconcile cfg os) ;;
     apply_appearance cfg os ;;
     modify (fun s => set_counter (counter s + 1) s))%cpp s.
Proof. reflexivity. Qed.

(** A tick that finds the counter below 10 only applies the appearances. *)
Lemma SetTaskbarBlur_idle cfg os s :
  counter s < 10 ->
  exists s' delta,
    SetTaskbarBlur cfg os s = Returned tt s' /\
    calls s' = calls s ++ map (blur_call cfg) (map_to_list (taskbars s)) /\
    trace s' = trace s ++ delta /\
    Forall (fun e => from_blur e = true) delta /\
    taskbars s' = taskbars s /\ should_show_peek s' = should_show_peek s /\
    counter s' = counter s + 1.
Proof.
  intros Hc. rewrite SetTaskbarBlur_blocks.
  destruct (apply_appearance_spec cfg os s)
    as (s1 & delta & E & C & (U1 & U2 & U3 & U4 & U5 & U6 & U7 & U8 & U9) & T & F).
  assert ((10 <=? counter s) = false) as -> by (apply Z.leb_gt; exact Hc).
  exists (set_counter (counter s1 + 1) s1), delta.
  unfold when, bind, ret, modify. rewrite E. simpl.
  repeat split; try assumption. rewrite U9. reflexivity.
Qed.

(** A tick that finds the counter at 10 or more runs a pass first; when the
    pass is unwound, so is the tick. *)
Lemma SetTaskbarBlur_pass cfg os s :
  10 <= counter s ->
  match reconcile cfg os s with
  | Thrown s1 => SetTaskbarBlur cfg os s = Thrown s1
  | Returned _ s1 =>
      exists s' delta,
        SetTaskbarBlur cfg os s = Returned tt s' /\
        calls s' = calls s1 ++ map (blur_call cfg) (map_to_list (taskbars s1)) /\
        trace s' = trace s1 ++ delta /\
        Forall (fun e => from_blur e = true) delta /\
        taskbars s' = taskbars s1 /\ should_show_peek s' = should_show_peek s1 /\
        counter s' = counter s1 + 1
  end.
Proof.
  intros Hc. rewrite SetTaskbarBlur_blocks.
  assert ((10 <=? counter s) = true) as -> by (apply Z.leb_le; exact Hc).
  unfold when, bind.
  destruct (reconcile cfg os s) as [[] s1 | s1]; [| reflexivity].
  destruct (apply_appearance_spec cfg os s1)
    as (s2 & delta & E & C & (U1 & U2 & U3 & U4 & U5 & U6 & U7 & U8 & U9) & T & F).
  exists (set_counter (counter s2 + 1) s2), delta.
  unfold modify. rewrite E. simpl.
  repeat split; try assumption. rewrite U9. reflexivity.
Qed.

Lemma reconcile_reset cfg os s :
  reconcile cfg os (set_taskbars (reset_states (taskbars s)) s) = reconcile cfg os s.
Proof. rewrite !reconcile_blocks, pass_start_reset. reflexivity. Qed.

(** ** The states of a pass *)

(** C1. A pass works on a map that it has first reset to [Normal]: its
    outcome is that of the pass on the reset map. It keeps the displays and
    their surfaces. When it ends (or is unwound), a display with no observed
    maximised window on the current desktop that is not marked as hosting
    the open Start menu is [Normal]; a display that is not [Normal] is
    [WindowMaximised] because of such a window, or [StartMenuOpen] because of
    that mark, and nothing else. *)
Theorem reconcile_only_upgrades_from_Normal :
  forall cfg os s,
    let s' := final (reconcile cfg os s) in
    reconcile cfg os s = reconcile cfg os (set_taskbars (reset_states (taskbars s)) s)
    /\ (forall m w st, reset_states (taskbars s) !! m = Some (w, st) -> st = Normal)
    /\ fst <$> taskbars s' = fst <$> taskbars s
    /\ (forall m w st,
          taskbars s' !! m = Some (w, st) ->
          (forall hWnd, hWnd ∈ top_level_windows os ->
                        observed_maximised os hWnd = true -> monitor os hWnd <> m) ->
          hosts_start cfg os m = false ->
          st = Normal)
    /\ (forall m w st,
          taskbars s' !! m = Some (w, st) ->
          st = Normal
          \/ (st = WindowMaximised /\ Config.DYNAMIC_WS cfg = true /\
              exists hWnd, hWnd ∈ top_level_windows os /\
                           observed_maximised os hWnd = true /\ monitor os hWnd = m)
          \/ (st = StartMenuOpen /\ hosts_start cfg os m = true)).
Proof.
  intros cfg os s. simpl.
  destruct (reconcile_spec cfg os s) as (R1 & (_ & _ & _ & _ & R2) & _).
  split; [symmetry; apply reconcile_reset |].
  split; [intros m w st; apply all_Normal_reset |].
  split; [exact R2 |].
  split.
  - intros m w st Hm Hnone Hstart.
    destruct (R1 m w st Hm) as [H | [(_ & _ & h & Hin & Ho & Hmon) | (_ & _ & H)]].
    + exact H.
    + exfalso. exact (Hnone h Hin Ho Hmon).
    + congruence.
  - intros m w st Hm.
    destruct (R1 m w st Hm) as [H | [H | (H1 & _ & H2)]]; auto.
Qed.

Lemma reconcile_only_upgrades_from_Normal_witness :
  let s' := final (reconcile dynamic_config (sample_desktop [11]) sample_Sys) in
  taskbars s' !! 2 = Some (20, Normal) /\ taskbars s' !! 1 = Some (10, WindowMaximised) /\
  Normal = Normal.
Proof.
  simpl. split; [vm_compute; reflexivity |]. split; [vm_compute; reflexivity |].
  apply (proj1 (proj2 (proj2 (proj2
           (reconcile_only_upgrades_from_Normal dynamic_config (sample_desktop [11]) sample_Sys))))
           2 20 Normal).
  - vm_compute. reflexivity.
  - intros hWnd Hin _. apply list_elem_of_singleton in Hin. subst hWnd. vm_compute. discriminate.
  - reflexivity.
Defined.

(** ** The counter along the message loop *)

Lemma SetTaskbarBlur_counter cfg os s s' :
  SetTaskbarBlur cfg os s = Returned tt s' -> counter s' = next_counter (counter s).
Proof.
  intros E. unfold next_counter.
  destruct (Z_lt_le_dec (counter s) 10) as [Hc | Hc].
  - destruct (SetTaskbarBlur_idle cfg os s Hc) as (x & delta & Ex & _ & _ & _ & _ & _ & Cn).
    rewrite Ex in E. injection E as <-. rewrite Cn.
    destruct (Z.leb_spec 10 (counter s)); [lia | reflexivity].
  - pose proof (SetTaskbarBlur_pass cfg os s Hc) as Ht.
    destruct (reconcile_spec cfg os s) as (_ & _ & _ & _ & _ & R5 & _).
    destruct (reconcile cfg os s) as [[] s1 | s1]; simpl in *.
    + destruct Ht as (x & delta & Ex & _ & _ & _ & _ & _ & Cn).
      rewrite Ex in E. injection E as <-. rewrite Cn, (R5 eq_refl).
      destruct (Z.leb_spec 10 (counter s)); [reflexivity | lia].
    + rewrite Ht in E. discriminate.
Qed.

Lemma DispatchMessage_counter cfg os msg s :
  exists s', DispatchMessage cfg os msg s = Returned tt s' /\ counter s' = counter s.
Proof.
  destruct msg; simpl; try (eexists; split; [reflexivity | reflexivity]);
    rewrite RefreshHandles_eq; eexists; split; reflexivity.
Qed.



(** ** A window on a display that the map does not know *)

Lemma EnumWindowsProcess_outcome cfg os hWnd s :
  (observed_maximised os hWnd = true /\ taskbars s !! monitor os hWnd = None /\
   EnumWindowsProcess cfg os hWnd s = Thrown (logged_call (call_EnumWindowsProcess hWnd) s))
  \/ ((observed_maximised os hWnd = false \/ is_Some (taskbars s !! monitor os hWnd)) /\
      exists s', EnumWindowsProcess cfg os hWnd s = Returned true s').
Proof.
  destruct (observed_maximised os hWnd) eqn:Ho.
  - destruct (taskbars s !! monitor os hWnd) as [taskbar |] eqn:Etb.
    + right. split; [right; eauto |].
      destruct (EnumWindowsProcess_returns cfg os hWnd s) as (s' & E & _); [right; eauto |].
      exists s'. exact E.
    + left. repeat split. apply EnumWindowsProcess_throws; assumption.
  - right. split; [left; reflexivity |].
    destruct (EnumWindowsProcess_returns cfg os hWnd s) as (s' & E & _); [left; exact Ho |].
    exists s'. exact E.
Qed.

Lemma EnumWindows_from_app cfg os before rest s0 s :
  EnumWindows_from (EnumWindowsProcess cfg os) before s0 = Returned tt s ->
  EnumWindows_from (EnumWindowsProcess cfg os) (before ++ rest) s0
  = EnumWindows_from (EnumWindowsProcess cfg os) rest s.
Proof.
  revert s0. induction before as [| h before IH]; intros s0; simpl.
  - unfold ret. intros E. injection E as <-. reflexivity.
  - unfold bind.
    destruct (EnumWindowsProcess_outcome cfg os h s0) as [(_ & _ & E) | (_ & s1 & E)];
      rewrite E; [discriminate | apply IH].
Qed.

(** C4, as the code has it. A window that the visitor observes as maximised
    on the current desktop, on a display whose key is absent from the map,
    makes the lookup fail, and nothing catches the failure: the visitor is
    unwound at that window with the per-display states and the peek flag as
    they were, the enumeration stops there whatever windows follow, and a
    pass that enumerates such a window is unwound, and with it the tick,
    before any appearance is applied. The visitor fails on no other window. *)
Theorem missing_display_lookup_is_not_caught :
  forall cfg os hWnd s,
    observed_maximised os hWnd = true ->
    taskbars s !! monitor os hWnd = None ->
    EnumWindowsProcess cfg os hWnd s
    = Thrown (logged_call (call_EnumWindowsProcess hWnd) s)
    /\ (forall before rest s0,
          EnumWindows_from (EnumWindowsProcess cfg os) before s0 = Returned tt s ->
          EnumWindows_from (EnumWindowsProcess cfg os) (before ++ hWnd :: rest) s0
          = Thrown (logged_call (call_EnumWindowsProcess hWnd) s))
    /\ (hWnd ∈ top_level_windows os -> scans_windows cfg = true ->
          returned (reconcile cfg os s) = false /\
          (10 <= counter s ->
             returned (SetTaskbarBlur cfg os s) = false /\
             count is_blur_call (new_calls s (final (SetTaskbarBlur cfg os s))) = 0%nat))
    /\ (forall h s1,
          returned (EnumWindowsProcess cfg os h s1) = false <->
          observed_maximised os h = true /\ taskbars s1 !! monitor os h = None).
Proof.
  intros cfg os hWnd s Ho Hnone.
  pose proof (EnumWindowsProcess_throws cfg os hWnd s Ho Hnone) as Ethrow.
  split; [exact Ethrow |]. split; [| split].
  - intros before rest s0 E.
    rewrite (EnumWindows_from_app cfg os before (hWnd :: rest) s0 s E).
    simpl. unfold bind. rewrite Ethrow. reflexivity.
  - intros Hin Hscan.
    destruct (reconcile_spec cfg os s)
      as (_ & _ & _ & (visited & rest & peek & toggles & V1 & V2 & V3 & V4 & V5 & V6 & V7)
          & R4 & _).
    assert (returned (reconcile cfg os s) = false) as Hthrown.
    { apply R4. left. split; [exact Hscan |]. exists hWnd. auto. }
    split; [exact Hthrown |]. intros Hc.
    pose proof (SetTaskbarBlur_pass cfg os s Hc) as Ht.
    destruct (reconcile cfg os s) as [[] s1 | s1]; [discriminate |].
    rewrite Ht. simpl in *. split; [reflexivity |].
    rewrite (new_calls_app _ _ _ V6). rewrite Hscan.
    unfold count. rewrite List.filter_app.
    assert (List.filter is_blur_call (map call_EnumWindowsProcess visited) = []) as ->.
    { clear. induction visited as [| x l IH]; [reflexivity | exact IH]. }
    destruct V3 as [-> | ->]; reflexivity.
  - intros h s1.
    destruct (EnumWindowsProcess_outcome cfg os h s1)
      as [(H1 & H2 & E) | ([H | [t H]] & s' & E)]; rewrite E; simpl.
    + split; auto.
    + split; [discriminate | intros (H1 & _); congruence].
    + split; [discriminate | intros (_ & H2); congruence].
Qed.

Lemma missing_display_lookup_is_not_caught_witness :
  EnumWindowsProcess dynamic_config (sample_desktop [93; 25]) 93 sample_Sys
  = Thrown (logged_call (call_EnumWindowsProcess 93) sample_Sys).
Proof.
  apply (missing_display_lookup_is_not_caught dynamic_config (sample_desktop [93; 25])
           93 sample_Sys); reflexivity.
Defined.

(** C4 as stated fails: window 93 is maximised on display 9, which has no
    entry. The visitor does not return, the enumeration never reaches window
    25 on display 2, whose state stays [Normal], and the tick is unwound
    without a call of the appearance applier. *)
Lemma missing_display_aborts_the_enumeration :
  let os := sample_desktop [93; 25] in
  taskbars sample_Sys !! monitor os 93 = None /\
  returned (EnumWindowsProcess dynamic_config os 93 sample_Sys) = false /\
  returned (EnumWindows os (EnumWindowsProcess dynamic_config os) sample_Sys) = false /\
  new_calls sample_Sys (final (EnumWindows os (EnumWindowsProcess dynamic_config os) sample_Sys))
  = [call_EnumWindowsProcess 93] /\
  taskbars (final (reconcile dynamic_config os sample_Sys)) !! 2 = Some (20, Normal) /\
  taskbars (final (reconcile dynamic_config (sample_desktop [25]) sample_Sys)) !! 2
  = Some (20, WindowMaximised) /\
  returned (SetTaskbarBlur dynamic_config os sample_Sys) = false /\
  new_calls sample_Sys (final (SetTaskbarBlur dynamic_config os sample_Sys))
  = [call_EnumWindowsProcess 93].
Proof. vm_compute. repeat split. Qed.

(** ** The exact outcome of a pass *)

Lemma maximised_on_cons os h rest m :
  maximised_on os (h :: rest) m
  = observed_maximised os h && (monitor os h =? m) || maximised_on os rest m.
Proof. reflexivity. Qed.

(** The map after an enumeration that returned. *)
Lemma EnumWindows_from_states cfg os ws :
  forall s s',
    EnumWindows_from (EnumWindowsProcess cfg os) ws s = Returned tt s' ->
    forall m,
      taskbars s' !! m
      = (fun taskbar =>
           (fst taskbar,
            if Config.DYNAMIC_WS cfg && maximised_on os ws m then WindowMaximised
            else snd taskbar)) <$> taskbars s !! m.
Proof.
  induction ws as [| h rest IH]; intros s s' E m.
  - injection E as <-. unfold maximised_on. simpl. rewrite andb_false_r.
    destruct (taskbars s !! m) as [[w st] |]; reflexivity.
  - cbn [EnumWindows_from] in E. unfold bind in E.
    destruct (EnumWindowsProcess_outcome cfg os h s) as [(_ & _ & Eh) | (Hok & s1 & Eh)];
      rewrite Eh in E; [discriminate |].
    destruct (EnumWindowsProcess_returns cfg os h s Hok) as (s1' & Eh' & _ & _ & Ht).
    rewrite Eh in Eh'. injection Eh' as <-.
    rewrite (IH s1 s' E m), Ht, maximised_on_cons.
    destruct (observed_maximised os h) eqn:Ho; simpl.
    + destruct (Config.DYNAMIC_WS cfg) eqn:Hws; simpl.
      * rewrite mark_lookup. destruct (decide (monitor os h = m)) as [Em | Em].
        -- assert ((monitor os h =? m) = true) as -> by (apply Z.eqb_eq; exact Em).
           destruct (taskbars s !! m) as [[w st] |]; simpl; [| reflexivity].
           destruct (maximised_on os rest m); reflexivity.
        -- assert ((monitor os h =? m) = false) as -> by (apply Z.eqb_neq; exact Em).
           reflexivity.
      * destruct (taskbars s !! m) as [[w st] |]; reflexivity.
    + reflexivity.
Qed.

(** What the visitor does to the peek flag. *)
Lemma EnumWindowsProcess_peek cfg os hWnd s s' :
  EnumWindowsProcess cfg os hWnd s = Returned true s' ->
  should_show_peek s' = should_show_peek s || votes_peek cfg os s hWnd.
Proof.
  unfold EnumWindowsProcess, votes_peek. run_monad.
  destruct (visible os hWnd); simpl;
    [| intros E; injection E as <-; simpl; symmetry; apply orb_false_r].
  destruct (cloaked os hWnd); simpl;
    [intros E; injection E as <-; simpl; symmetry; apply orb_false_r |].
  destruct (IsBlacklisted os hWnd); simpl;
    [intros E; injection E as <-; simpl; symmetry; apply orb_false_r |].
  destruct ((state os hWnd =? SW_MAXIMIZE) && on_current_desktop os hWnd); simpl.
  - destruct (taskbars s !! monitor os hWnd) as [taskbar |]; [| discriminate].
    destruct (Config.DYNAMIC_WS cfg); simpl;
      destruct (is_dynamic_peek (Config.PEEK_POLICY cfg)); simpl;
      destruct (taskbar.1 =? main_taskbar s); simpl;
      intros E; injection E as <-; simpl;
      destruct (should_show_peek s); reflexivity.
  - destruct (bool_decide (Config.PEEK_POLICY cfg = Config.DynamicGenerous)); simpl;
      destruct (should_show_peek s) eqn:Hs; simpl;
      destruct (negb (state os hWnd =? SW_SHOWMINIMIZED)); simpl;
      destruct (isRealWindow os hWnd); simpl;
      intros E; injection E as <-; simpl; rewrite ?Hs; reflexivity.
Qed.

Lemma votes_peek_same cfg os s s' hWnd :
  main_taskbar s' = main_taskbar s -> fst <$> taskbars s' = fst <$> taskbars s ->
  votes_peek cfg os s' hWnd = votes_peek cfg os s hWnd.
Proof.
  intros Hm Hs. unfold votes_peek. rewrite Hm.
  assert ((fst <$> taskbars s') !! monitor os hWnd = (fst <$> taskbars s) !! monitor os hWnd)
    as E by (rewrite Hs; reflexivity).
  rewrite !lookup_fmap in E.
  destruct (taskbars s' !! monitor os hWnd) as [[w1 st1] |],
           (taskbars s !! monitor os hWnd) as [[w2 st2] |]; simpl in E;
    try discriminate; [injection E as -> |]; reflexivity.
Qed.

Lemma EnumWindows_from_peek cfg os ws :
  forall s s',
    EnumWindows_from (EnumWindowsProcess cfg os) ws s = Returned tt s' ->
    should_show_peek s' = should_show_peek s || existsb (votes_peek cfg os s) ws.
Proof.
  induction ws as [| h rest IH]; intros s s' E.
  - injection E as <-. simpl. symmetry. apply orb_false_r.
  - cbn [EnumWindows_from] in E. unfold bind in E.
    destruct (EnumWindowsProcess_outcome cfg os h s) as [(_ & _ & Eh) | (Hok & s1 & Eh)];
      rewrite Eh in E; [discriminate |].
    destruct (EnumWindowsProcess_returns cfg os h s Hok)
      as (s1' & Eh' & _ & (_ & Hmt & _) & Ht).
    rewrite Eh in Eh'. injection Eh' as <-.
    assert (fst <$> taskbars s1 = fst <$> taskbars s) as Hs1.
    { rewrite Ht. destruct (observed_maximised os h && Config.DYNAMIC_WS cfg);
        [apply mark_surfaces | reflexivity]. }
    rewrite (IH s1 s' E), (EnumWindowsProcess_peek cfg os h s s1 Eh).
    simpl. rewrite <- orb_assoc. f_equal. f_equal.
    clear -Hmt Hs1. induction rest as [| x rest IHr]; [reflexivity |].
    simpl. rewrite IHr, (votes_peek_same cfg os s s1 x Hmt Hs1). reflexivity.
Qed.

Lemma votes_peek_static cfg os s hWnd :
  is_dynamic_peek (Config.PEEK_POLICY cfg) = false -> votes_peek cfg os s hWnd = false.
Proof.
  unfold votes_peek, is_dynamic_peek. intros H.
  apply orb_false_iff in H as [Hd Hg]. rewrite Hd, Hg. simpl.
  destruct ((state os hWnd =? SW_MAXIMIZE) && on_current_desktop os hWnd);
    apply andb_false_r.
Qed.

Lemma returned_final {A : Type} (o : outcome A) :
  returned o = true -> exists a, o = Returned a (final o).
Proof. destruct o as [a s | s]; [eauto | discriminate]. Qed.

Lemma existsb_votes_static cfg os s ws :
  is_dynamic_peek (Config.PEEK_POLICY cfg) = false ->
  existsb (votes_peek cfg os s) ws = false.
Proof.
  intros H. induction ws as [| h ws IH]; [reflexivity |].
  simpl. rewrite IH, (votes_peek_static cfg os s h H). reflexivity.
Qed.

Lemma existsb_votes_same cfg os s s' ws :
  main_taskbar s' = main_taskbar s -> fst <$> taskbars s' = fst <$> taskbars s ->
  existsb (votes_peek cfg os s') ws = existsb (votes_peek cfg os s) ws.
Proof.
  intros Hm Hs. induction ws as [| h ws IH]; [reflexivity |].
  simpl. rewrite IH, (votes_peek_same cfg os s s' h Hm Hs). reflexivity.
Qed.

Lemma EnumWindows_from_untouched cfg os ws :
  forall s s',
    EnumWindows_from (EnumWindowsProcess cfg os) ws s = Returned tt s' ->
    untouched_by_visit s s'.
Proof.
  induction ws as [| h rest IH]; intros s s' E.
  - injection E as <-. apply untouched_by_visit_refl.
  - cbn [EnumWindows_from] in E. unfold bind in E.
    destruct (EnumWindowsProcess_outcome cfg os h s) as [(_ & _ & Eh) | (Hok & s1 & Eh)];
      rewrite Eh in E; [discriminate |].
    destruct (EnumWindowsProcess_returns cfg os h s Hok) as (s1' & Eh' & _ & U & _).
    rewrite Eh in Eh'. injection Eh' as <-.
    eapply untouched_by_visit_trans; [exact U | apply IH; exact E].
Qed.

(** The guarded enumeration, when it returns. *)
Lemma scan_returned cfg os s s' :
  scan cfg os s = Returned tt s' ->
  (forall m,
     taskbars s' !! m
     = (fun taskbar =>
          (fst taskbar,
           if Config.DYNAMIC_WS cfg && maximised_on os (top_level_windows os) m
           then WindowMaximised else snd taskbar)) <$> taskbars s !! m)
  /\ should_show_peek s'
     = should_show_peek s || existsb (votes_peek cfg os s) (top_level_windows os)
  /\ peek_active s' = peek_active s /\ main_taskbar s' = main_taskbar s.
Proof.
  unfold scan.
  destruct (Config.DYNAMIC_WS cfg || is_dynamic_peek (Config.PEEK_POLICY cfg)) eqn:Hscan.
  - unfold EnumWindows. run_monad.
    set (s1 := set_trace (trace s ++ [EnumWindows_call]) (set_counter 0 s)).
    intros E.
    pose proof (EnumWindows_from_states cfg os _ s1 s' E) as Hst.
    pose proof (EnumWindows_from_peek cfg os _ s1 s' E) as Hpk.
    destruct (EnumWindows_from_untouched cfg os _ s1 s' E) as (_ & U2 & _ & U4 & _).
    split; [exact Hst |]. split; [exact Hpk |]. split; assumption.
  - simpl. intros E. injection E as <-.
    apply orb_false_iff in Hscan as [Hws Hdyn]. rewrite Hws. simpl.
    split; [| split; [| split; reflexivity]].
    + intros m. destruct (taskbars s !! m) as [[w st] |]; reflexivity.
    + rewrite (existsb_votes_static cfg os s _ Hdyn). symmetry. apply orb_false_r.
Qed.

(** The rest of the pass, when it returns. *)
Lemma after_scan_returned cfg os s s' :
  after_scan cfg os s = Returned tt s' ->
  (forall m,
     taskbars s' !! m
     = (fun taskbar =>
          (fst taskbar,
           if Config.DYNAMIC_WS cfg && Config.DYNAMIC_REGULAR_ON_PEEK cfg && peek_active s
           then Normal
           else if hosts_start cfg os m then StartMenuOpen else snd taskbar))
         <$> taskbars s !! m)
  /\ should_show_peek s' = should_show_peek s.
Proof.
  destruct (TogglePeek_frame os (should_show_peek s) s)
    as (s1 & E1 & _ & _ & Htb1 & Hsp1 & _ & _ & _ & Hpa1 & _ & _).
  unfold after_scan, hosts_start. run_monad. rewrite E1.
  destruct (Config.DYNAMIC_START cfg && IsStartVisible os) eqn:Hstart; simpl.
  - destruct (taskbars s1 !! monitor os (start_window os)) as [taskbar |] eqn:Etb; simpl;
      [| discriminate].
    rewrite Hpa1.
    destruct (Config.DYNAMIC_WS cfg && Config.DYNAMIC_REGULAR_ON_PEEK cfg && peek_active s);
      simpl; intros E; injection E as <-; simpl; (split; [| exact Hsp1]); intros m.
    + rewrite reset_states_lookup, lookup_insert.
      destruct (decide (monitor os (start_window os) = m)) as [<- | Hne].
      * rewrite <- Htb1, Etb. reflexivity.
      * rewrite Htb1. destruct (taskbars s !! m) as [[w st] |]; reflexivity.
    + rewrite lookup_insert.
      destruct (decide (monitor os (start_window os) = m)) as [<- | Hne].
      * rewrite bool_decide_eq_true_2 by reflexivity. rewrite <- Htb1, Etb. reflexivity.
      * rewrite bool_decide_eq_false_2 by congruence. rewrite Htb1.
        destruct (taskbars s !! m) as [[w st] |]; reflexivity.
  - rewrite Hpa1.
    destruct (Config.DYNAMIC_WS cfg && Config.DYNAMIC_REGULAR_ON_PEEK cfg && peek_active s);
      simpl; intros E; injection E as <-; simpl; (split; [| exact Hsp1]); intros m.
    + rewrite reset_states_lookup, Htb1.
      destruct (taskbars s !! m) as [[w st] |]; reflexivity.
    + rewrite Htb1. destruct (taskbars s !! m) as [[w st] |]; reflexivity.
Qed.

(** The whole pass, when it returns. *)
Lemma reconcile_returned cfg os s s' :
  reconcile cfg os s = Returned tt s' ->
  (forall m,
     taskbars s' !! m
     = (fun taskbar => (fst taskbar, expected_state cfg os (peek_active s) m))
         <$> taskbars s !! m)
  /\ should_show_peek s'
     = bool_decide (Config.PEEK_POLICY cfg = Config.Enabled)
       || existsb (votes_peek cfg os s) (top_level_windows os).
Proof.
  rewrite reconcile_blocks. unfold bind.
  destruct (scan cfg os (pass_start cfg s)) as [[] s1 | s1] eqn:Escan; [| discriminate].
  intros Eafter.
  destruct (scan_returned cfg os _ s1 Escan) as (S1 & S2 & S3 & S4).
  destruct (after_scan_returned cfg os s1 s' Eafter) as (A1 & A2).
  split.
  - intros m. rewrite A1, S1, S3. unfold pass_start. simpl.
    rewrite reset_states_lookup. unfold expected_state.
    destruct (taskbars s !! m) as [[w st] |]; simpl; [| reflexivity].
    destruct (Config.DYNAMIC_WS cfg && Config.DYNAMIC_REGULAR_ON_PEEK cfg && peek_active s);
      [reflexivity |].
    destruct (hosts_start cfg os m); [reflexivity |].
    destruct (Config.DYNAMIC_WS cfg && maximised_on os (top_level_windows os) m); reflexivity.
  - rewrite A2, S2. f_equal.
    apply existsb_votes_same; [reflexivity |].
    unfold pass_start. simpl. apply reset_states_surfaces.
Qed.

(** ** Sweeps of the applier with the normal accent *)

Lemma memo_normal_insert s w b x :
  memo_normal (set_is_normal (<[w := b]> (is_normal s)) s) x
  = if decide (w = x) then b else memo_normal s x.
Proof.
  unfold memo_normal. simpl. rewrite lookup_insert.
  destruct (decide (w = x)); [| reflexivity].
  destruct b; [apply bool_decide_eq_true_2 | apply bool_decide_eq_false_2]; congruence.
Qed.


(** With the entry point: each surface is notified when its call finds its
    memo not true, which happens at most once. *)
Lemma normal_sweep_available os targets :
  swca_available os = true ->
  forall s0,
  exists s1 surfaces,
    normal_sweep os targets s0 = Returned tt s1 /\
    trace s1 = trace s0 ++ map send_message_WM_THEMECHANGED surfaces /\
    NoDup surfaces /\
    (forall w, w ∈ surfaces <-> w ∈ map fst targets /\ memo_normal s0 w = false) /\
    (forall w, memo_normal s1 w = true <->
               w ∈ map fst targets \/ memo_normal s0 w = true).
Proof.
  intros Hav. induction targets as [| [w c] targets IH]; intros s0.
  - exists s0, []. simpl. rewrite app_nil_r.
    split; [reflexivity |]. split; [reflexivity |]. split; [apply NoDup_nil_2 |].
    split; intros x; split.
    + intros Hx. apply elem_of_nil in Hx. contradiction.
    + intros (Hx & _). apply elem_of_nil in Hx. contradiction.
    + auto.
    + intros [Hx | Hx]; [apply elem_of_nil in Hx; contradiction | exact Hx].
  - unfold normal_sweep in *. cbn [for_each fst snd]. unfold bind.
    destruct (memo_normal s0 w) eqn:Hm.
    + rewrite (SetWindowBlur_normal_hit os w c s0 Hav Hm).
      destruct (IH (logged_call (call_SetWindowBlur w ACCENT_NORMAL c) s0))
        as (s1 & l & E & T & N & Hin & Hmemo).
      exists s1, l. split; [exact E |]. split; [exact T |]. split; [exact N |].
      change (memo_normal (logged_call (call_SetWindowBlur w ACCENT_NORMAL c) s0))
        with (memo_normal s0) in *.
      split.
      * intros x. rewrite Hin. simpl. rewrite elem_of_cons. split.
        -- intros (H1 & H2). auto.
        -- intros ([-> | H1] & H2); [congruence | auto].
      * intros x. rewrite Hmemo. simpl. rewrite elem_of_cons. split.
        -- intros [H | H]; auto.
        -- intros [[-> | H] | H]; auto.
    + rewrite (SetWindowBlur_normal_miss os w c s0 Hav Hm).
      match goal with |- context [for_each targets _ ?x] =>
        destruct (IH x) as (s1 & l & E & T & N & Hin & Hmemo);
        assert (forall y, memo_normal x y = if decide (w = y) then true else memo_normal s0 y)
          as Hx by (intros y; apply (memo_normal_insert
                      (set_trace (trace s0 ++ [send_message_WM_THEMECHANGED w])
                         (logged_call (call_SetWindowBlur w ACCENT_NORMAL c) s0)) w true y))
      end.
      exists s1, (w :: l). split; [exact E |].
      split; [rewrite T; simpl; rewrite <- app_assoc; reflexivity |].
      split; [apply NoDup_cons; split; [| exact N];
              intros Hw; apply Hin in Hw as (_ & Hw); rewrite Hx in Hw;
              destruct (decide (w = w)); [discriminate | contradiction] |].
      split.
      * intros x. simpl. rewrite !elem_of_cons, Hin, Hx. split.
        -- intros [-> | (H1 & H2)]; [auto |].
           destruct (decide (w = x)); [discriminate | auto].
        -- intros ([-> | H1] & H2); [auto |].
           destruct (decide (w = x)) as [-> | Hne]; auto.
      * intros x. rewrite Hmemo, Hx. simpl. rewrite elem_of_cons.
        destruct (decide (w = x)) as [-> | Hne].
        -- split; [intros _; left; left; reflexivity | intros _; right; reflexivity].
        -- split.
           ++ intros [H1 | H1]; [left; right; exact H1 | right; exact H1].
           ++ intros [[-> | H1] | H1]; [contradiction | left; exact H1 | right; exact H1].
Qed.

(** Without the entry point: nothing is sent and nothing is memoised. *)
Lemma normal_sweep_unavailable os targets :
  swca_available os = false ->
  forall s0,
  exists s1,
    normal_sweep os targets s0 = Returned tt s1 /\
    trace s1 = trace s0 /\ is_normal s1 = is_normal s0.
Proof.
  intros Hna. induction targets as [| [w c] targets IH]; intros s0.
  - exists s0. repeat split.
  - unfold normal_sweep in *. cbn [for_each fst snd]. unfold bind.
    rewrite SetWindowBlur_unavailable by exact Hna.
    match goal with |- context [for_each targets _ ?x] => destruct (IH x) as (s1 & E & T & N) end.
    exists s1. split; [exact E |]. split; assumption.
Qed.



(** ** The memo of the applier tells the truth *)








Lemma filter_blur_peek_toggles os toggles :
  (toggles = [] \/ exists status x, toggles = peek_toggle_events os status x) ->
  List.filter from_blur toggles = [].
Proof.
  intros [-> | (status & x & ->)]; [reflexivity |]. destruct status; reflexivity.
Qed.





(** ** Leaving the message loop *)


Lemma not_elem_of_Forall {A : Type} (p : A -> bool) (l : list A) (x : A) :
  Forall (fun y => p y = true) l -> p x = false -> x ∉ l.
Proof.
  intros Hall Hx Hin. rewrite Forall_forall in Hall.
  specialize (Hall x Hin). congruence.
Qed.


Lemma restore_on_exit_blocks os s :
  restore_on_exit os s
  = if bool_decide (exit_reason s = NewInstance) then Returned tt s
    else (TogglePeek os true ;;
          tb <- get taskbars ;;
          for_each (map_to_list tb) (fun taskbar =>
            SetWindowBlur os (fst (snd taskbar)) ACCENT_NORMAL 0))%cpp
           (if bool_decide (exit_reason s = UserActionNoSave) then s
            else set_trace (trace s ++ [Config_Save]) s).
Proof.
  unfold restore_on_exit. run_monad.
  destruct (bool_decide (exit_reason s = NewInstance)); simpl; [reflexivity |].
  destruct (bool_decide (exit_reason s = UserActionNoSave)); reflexivity.
Qed.






(** ** What every tick does *)











(** * Further properties of the code *)

(** X1. A pass that runs to its end leaves every display of the map in the
    state that the configuration and the desktop call for, and no other:
    [Normal] everywhere while the user peeks (with the tracking of maximised
    windows and regular-on-peek on), else [StartMenuOpen] on the display of
    the open Start menu, else [WindowMaximised] where an observed maximised
    window sits and the tracking is on, else [Normal]. The peek flag is the
    one that the last event handed to [HandleAeroPeekEvent] left: active
    after event [0x21] only. The tick of that pass calls the applier with
    the appearance of that state for each display. *)
Theorem pass_outcome_per_display :
  forall cfg os s,
    returned (reconcile cfg os s) = true ->
    (forall m,
       taskbars (final (reconcile cfg os s)) !! m
       = (fun taskbar => (fst taskbar, expected_state cfg os (peek_active s) m))
           <$> taskbars s !! m)
    /\ (forall event,
          let s1 := final (HandleAeroPeekEvent event s) in
          returned (reconcile cfg os s1) = true ->
          forall m w st,
            taskbars (final (reconcile cfg os s1)) !! m = Some (w, st) ->
            st = expected_state cfg os (event =? 0x21) m)
    /\ (10 <= counter s ->
          returned (SetTaskbarBlur cfg os s) = true /\
          forall m w st,
            taskbars s !! m = Some (w, st) ->
            call_SetWindowBlur w
              (fst (appearance_of cfg (expected_state cfg os (peek_active s) m)))
              (snd (appearance_of cfg (expected_state cfg os (peek_active s) m)))
            ∈ new_calls s (final (SetTaskbarBlur cfg os s))).
Proof.
  intros cfg os s Hret.
  destruct (returned_final _ Hret) as ([] & E).
  destruct (reconcile_returned cfg os s _ E) as (Hst & _).
  split; [exact Hst |]. split.
  - intros event s1 Hret1 m w st Hm.
    destruct (returned_final _ Hret1) as ([] & E1).
    destruct (reconcile_returned cfg os s1 _ E1) as (Hst1 & _).
    rewrite Hst1 in Hm. subst s1. simpl in Hm.
    destruct (taskbars s !! m) as [[w0 st0] |]; simpl in Hm; [| discriminate].
    injection Hm as _ <-. reflexivity.
  - intros Hc. pose proof (SetTaskbarBlur_pass cfg os s Hc) as Ht.
    destruct (reconcile_spec cfg os s)
      as (_ & _ & _ & (visited & rest & peek & toggles & _ & _ & _ & _ & _ & V6 & _) & _).
    rewrite E in Ht, V6. simpl in V6.
    destruct Ht as (s' & delta & Et & C & _ & _ & Tb & _).
    rewrite Et. simpl. split; [reflexivity |].
    intros m w st Hm.
    assert (calls s' = calls s
              ++ ((if scans_windows cfg then map call_EnumWindowsProcess visited else [])
                  ++ peek)
              ++ map (blur_call cfg) (map_to_list (taskbars (final (reconcile cfg os s)))))
      as Cl by (rewrite C, V6, <- !app_assoc; reflexivity).
    rewrite (new_calls_app _ _ _ Cl). apply elem_of_app. right.
    apply (list_elem_of_fmap_2 (blur_call cfg) _
             (m, (w, expected_state cfg os (peek_active s) m))).
    apply elem_of_map_to_list. rewrite Hst, Hm. reflexivity.
Qed.

Lemma pass_outcome_per_display_witness :
  taskbars (final (reconcile dynamic_config (sample_desktop [11]) sample_Sys)) !! 1
  = (fun taskbar =>
       (fst taskbar,
        expected_state dynamic_config (sample_desktop [11]) (peek_active sample_Sys) 1))
      <$> taskbars sample_Sys !! 1.
Proof.
  apply (pass_outcome_per_display dynamic_config (sample_desktop [11]) sample_Sys).
  vm_compute. reflexivity.
Defined.

(** X2. After a pass that runs to its end, [run.should_show_peek] is true
    exactly when the peek policy is Enabled or some top-level window voted
    for it: under a dynamic policy a window observed maximised on the
    display that holds the primary taskbar, under the generous policy also
    any filtered-in window that is neither maximised on the current desktop
    nor minimised and is a real window. So it is always true under Enabled
    and always false under Disabled, whatever the windows; and the pass hands
    this value to [TogglePeek]. *)
Theorem peek_flag_after_pass :
  forall cfg os s,
    returned (reconcile cfg os s) = true ->
    let s' := final (reconcile cfg os s) in
    should_show_peek s'
    = bool_decide (Config.PEEK_POLICY cfg = Config.Enabled)
      || existsb (votes_peek cfg os s) (top_level_windows os)
    /\ (Config.PEEK_POLICY cfg = Config.Enabled -> should_show_peek s' = true)
    /\ (Config.PEEK_POLICY cfg = Config.Disabled -> should_show_peek s' = false)
    /\ call_TogglePeek (should_show_peek s') ∈ new_calls s s'.
Proof.
  intros cfg os s Hret. cbv zeta.
  destruct (returned_final _ Hret) as ([] & E).
  destruct (reconcile_returned cfg os s _ E) as (_ & Hpk).
  split; [exact Hpk |]. split; [| split].
  - intros Hp. rewrite Hpk, Hp. reflexivity.
  - intros Hp. rewrite Hpk, Hp.
    rewrite existsb_votes_static by (rewrite Hp; reflexivity). reflexivity.
  - destruct (reconcile_spec cfg os s)
      as (_ & _ & _ & (visited & rest & peek & toggles & _ & _ & V3 & V4 & _ & V6 & _) & _).
    rewrite (new_calls_app _ _ _ V6).
    destruct V3 as [-> | ->]; [exfalso; apply (V4 Hret); reflexivity |].
    rewrite !elem_of_app. right. apply list_elem_of_here.
Qed.

Lemma peek_flag_after_pass_witness :
  should_show_peek (final (reconcile dynamic_config (sample_desktop [11]) sample_Sys)) = false.
Proof.
  apply (peek_flag_after_pass dynamic_config (sample_desktop [11]) sample_Sys);
    [vm_compute |]; reflexivity.
Defined.

(** X3. Provided every call of [isRealWindow] that the visitor makes
    returns (the loop of that function has no bound of its own), a tick is
    unwound by [std::out_of_range] in one case only: it runs a pass (the
    counter is at 10 or more) and the pass meets a display without an entry,
    either for an observed maximised window while it scans the windows, or
    for the open Start menu when the dynamic Start option is on. Every other
    tick returns. *)
Theorem tick_fails_iff :
  forall cfg os sh s,
    isRealWindow_returns sh os ->
    (returned (SetTaskbarBlur cfg os s) = false <-> 10 <= counter s /\ pass_fails cfg os s)
    /\ (returned (reconcile cfg os s) = false <-> pass_fails cfg os s)
    /\ (counter s < 10 -> returned (SetTaskbarBlur cfg os s) = true).
Proof.
  intros cfg os sh s _.
  destruct (reconcile_spec cfg os s) as (_ & _ & _ & _ & R4 & _).
  assert (returned (SetTaskbarBlur cfg os s) = false <-> 10 <= counter s /\ pass_fails cfg os s)
    as Hiff.
  { destruct (Z_lt_le_dec (counter s) 10) as [Hc | Hc].
    - destruct (SetTaskbarBlur_idle cfg os s Hc) as (s' & delta & -> & _).
      simpl. split; [discriminate | intros (H & _); lia].
    - pose proof (SetTaskbarBlur_pass cfg os s Hc) as Ht.
      unfold pass_fails. rewrite <- R4.
      destruct (reconcile cfg os s) as [[] s1 | s1]; simpl in *.
      + destruct Ht as (s' & delta & -> & _). simpl.
        split; [discriminate | intros (_ & H); discriminate].
      + rewrite Ht. simpl. split; auto. }
  split; [exact Hiff |]. split; [exact R4 |].
  intros Hc. destruct (returned (SetTaskbarBlur cfg os s)) eqn:E; [reflexivity |].
  destruct (proj1 Hiff eq_refl) as (H & _). lia.
Qed.

Lemma tick_fails_iff_witness :
  returned (SetTaskbarBlur dynamic_config stray_window_desktop sample_Sys) = false
  /\ returned (SetTaskbarBlur dynamic_config stray_window_desktop (set_counter 3 sample_Sys))
     = true.
Proof.
  assert (isRealWindow_returns Real.sample_shell stray_window_desktop) as Hreal.
  { intros hWnd Hin. apply list_elem_of_singleton in Hin. subst hWnd.
    exists 1%nat. reflexivity. }
  split.
  - apply (proj1 (tick_fails_iff dynamic_config stray_window_desktop Real.sample_shell
                    sample_Sys Hreal)).
    split; [vm_compute; discriminate |].
    left. split; [reflexivity |]. exists 1.
    split; [apply list_elem_of_here |]. split; reflexivity.
  - apply (proj2 (proj2 (tick_fails_iff dynamic_config stray_window_desktop Real.sample_shell
                           (set_counter 3 sample_Sys) Hreal))).
    vm_compute. reflexivity.
Defined.

(** ** More on the appearance applier *)

(** X4. An accent other than normal is never memoised: with the compositing
    entry point available, calls in a row on one surface each issue one
    compositing call, in order, with the colour of that call reordered (and
    corrected for the fluent accent), and no notification; the memo of the
    surface is then false. *)
Theorem other_accents_are_applied_every_time :
  forall os window appearance colors s,
    swca_available os = true -> appearance <> ACCENT_NORMAL ->
    let o := accent_calls os window appearance colors s in
    returned o = true
    /\ new_events s (final o)
       = map (fun color => SetWindowCompositionAttribute window (wire_policy appearance color))
           colors
    /\ (colors <> [] -> is_normal (final o) !! window = Some false).
Proof.
  intros os window appearance colors s Hav Hn. cbv zeta.
  assert (forall s0,
            exists s1, accent_calls os window appearance colors s0 = Returned tt s1 /\
                       trace s1 = trace s0
                         ++ map (fun color => SetWindowCompositionAttribute window
                                                (wire_policy appearance color)) colors /\
                       (colors <> [] -> is_normal s1 !! window = Some false)) as H.
  { induction colors as [| c colors IH]; intros s0.
    - exists s0. simpl. rewrite app_nil_r. repeat split. intros H. contradiction.
    - unfold accent_calls in *. simpl. unfold bind.
      rewrite (SetWindowBlur_accent os window appearance c s0 Hav Hn).
      match goal with |- context [for_each colors _ ?x] => destruct (IH x) as (s1 & E & T & M) end.
      exists s1. split; [exact E |]. split; [rewrite T; simpl; rewrite <- app_assoc; reflexivity |].
      intros _. destruct colors as [| c' colors'].
      + simpl in E. injection E as <-. simpl. apply lookup_insert_eq.
      + apply M. discriminate. }
  destruct (H s) as (s1 & E & T & M). rewrite E. simpl.
  split; [reflexivity |]. split; [apply new_events_app; exact T | exact M].
Qed.

Lemma other_accents_are_applied_every_time_witness :
  new_events initial_Sys
    (final (accent_calls empty_desktop 1 ACCENT_ENABLE_BLURBEHIND [0; 0] initial_Sys))
  = map (fun color => SetWindowCompositionAttribute 1 (wire_policy ACCENT_ENABLE_BLURBEHIND color))
      [0; 0].
Proof.
  apply (other_accents_are_applied_every_time empty_desktop 1 ACCENT_ENABLE_BLURBEHIND [0; 0]
           initial_Sys); [reflexivity | discriminate].
Defined.

(** X5. Calls with the normal accent on any surfaces, in any order and with
    repetitions, never fail. With the compositing entry point available they
    send the theme-changed notification at most once to each surface and
    nothing else: the surfaces notified are, without repetition, those among
    the targets whose memo was not true before, and every target is memoised
    as normal afterwards. Without the entry point they send nothing and
    leave the memo as it was. *)
Theorem normal_sweep_notifies_once :
  forall os targets s,
    let o := normal_sweep os targets s in
    returned o = true
    /\ (swca_available os = true ->
        exists surfaces,
          new_events s (final o) = map send_message_WM_THEMECHANGED surfaces
          /\ NoDup surfaces
          /\ (forall w, w ∈ surfaces <-> w ∈ map fst targets /\ memo_normal s w = false)
          /\ (forall w, w ∈ map fst targets -> memo_normal (final o) w = true))
    /\ (swca_available os = false ->
        new_events s (final o) = [] /\ is_normal (final o) = is_normal s).
Proof.
  intros os targets s. cbv zeta.
  destruct (swca_available os) eqn:Hav.
  - destruct (normal_sweep_available os targets Hav s) as (s1 & l & E & T & N & Hin & Hmemo).
    rewrite E. simpl. split; [reflexivity |]. split; [| discriminate].
    intros _. exists l.
    split; [apply new_events_app; exact T |]. split; [exact N |]. split; [exact Hin |].
    intros w Hw. apply Hmemo. left. exact Hw.
  - destruct (normal_sweep_unavailable os targets Hav s) as (s1 & E & T & N).
    rewrite E. simpl. split; [reflexivity |]. split; [discriminate |].
    intros _. split; [| exact N].
    apply new_events_app. rewrite app_nil_r. exact T.
Qed.

Lemma normal_sweep_notifies_once_witness :
  (exists surfaces,
     new_events initial_Sys
       (final (normal_sweep empty_desktop [(1, 0); (2, 0); (1, 0)] initial_Sys))
     = map send_message_WM_THEMECHANGED surfaces
     /\ NoDup surfaces
     /\ (forall w, w ∈ surfaces <->
                   w ∈ map fst [(1, 0); (2, 0); (1, 0)] /\ memo_normal initial_Sys w = false)
     /\ (forall w, w ∈ map fst [(1, 0); (2, 0); (1, 0)] ->
                   memo_normal
                     (final (normal_sweep empty_desktop [(1, 0); (2, 0); (1, 0)] initial_Sys))
                     w = true))
  /\ new_events initial_Sys
       (final (normal_sweep legacy_desktop [(1, 0); (2, 0)] initial_Sys)) = [].
Proof.
  split.
  - apply (normal_sweep_notifies_once empty_desktop [(1, 0); (2, 0); (1, 0)] initial_Sys).
    reflexivity.
  - apply (normal_sweep_notifies_once legacy_desktop [(1, 0); (2, 0)] initial_Sys).
    reflexivity.
Defined.

Lemma blur_each_unavailable os (f : Z * (Z * MONITORSTATE) -> ACCENT * Z) l :
  swca_available os = false ->
  forall s,
  exists s',
    for_each l (fun t => SetWindowBlur os (fst (snd t)) (fst (f t)) (snd (f t))) s
    = Returned tt s' /\
    trace s' = trace s /\ is_normal s' = is_normal s.
Proof.
  intros Hna. induction l as [| t l IH]; intros s.
  - exists s. repeat split.
  - simpl. unfold bind. rewrite SetWindowBlur_unavailable by exact Hna.
    match goal with |- context [for_each l _ ?x] => destruct (IH x) as (s' & E & T & N) end.
    exists s'. split; [exact E |]. split; assumption.
Qed.

(** X6. Where the compositing entry point is missing, no tick and no exit
    sends anything to a taskbar: neither a theme-changed notification nor a
    compositing call is issued, and the memo of the applier is never
    written. *)
Theorem no_composition_api_no_appearance :
  forall cfg os s,
    swca_available os = false ->
    List.filter from_blur (new_events s (final (SetTaskbarBlur cfg os s))) = []
    /\ is_normal (final (SetTaskbarBlur cfg os s)) = is_normal s
    /\ List.filter from_blur (new_events s (final (restore_on_exit os s))) = []
    /\ is_normal (final (restore_on_exit os s)) = is_normal s.
Proof.
  intros cfg os s Hna.
  assert (forall x, exists x', apply_appearance cfg os x = Returned tt x' /\
                               trace x' = trace x /\ is_normal x' = is_normal x) as Happ.
  { intros x.
    exact (blur_each_unavailable os (fun t => appearance_of cfg (snd (snd t)))
             (map_to_list (taskbars x)) Hna x). }
  split; [| split].
  - rewrite SetTaskbarBlur_blocks. unfold when, bind.
    destruct (10 <=? counter s).
    + destruct (reconcile_spec cfg os s)
        as (_ & _ & _ & (visited & rest & peek & toggles & _ & _ & _ & _ & V5 & _ & V7) & _).
      assert (List.filter from_blur
                ((if scans_windows cfg then [EnumWindows_call] else []) ++ toggles) = []) as F.
      { rewrite List.filter_app, (filter_blur_peek_toggles os toggles V5).
        destruct (scans_windows cfg); reflexivity. }
      destruct (reconcile cfg os s) as [[] s1 | s1]; simpl in *.
      * destruct (Happ s1) as (s2 & -> & T & _). simpl.
        rewrite (new_events_app s _ ((if scans_windows cfg then [EnumWindows_call] else [])
                                     ++ toggles)) by (simpl; congruence).
        exact F.
      * rewrite (new_events_app _ _ _ V7). exact F.
    + unfold ret. destruct (Happ s) as (s2 & -> & T & _).
      unfold new_events. simpl. rewrite T, drop_all. reflexivity.
  - rewrite SetTaskbarBlur_blocks. unfold when, bind.
    destruct (10 <=? counter s).
    + destruct (reconcile_spec cfg os s) as (_ & _ & N & _).
      destruct (reconcile cfg os s) as [[] s1 | s1]; simpl in *; [| exact N].
      destruct (Happ s1) as (s2 & -> & _ & N2). simpl. congruence.
    + unfold ret. destruct (Happ s) as (s2 & -> & _ & N2). simpl. exact N2.
  - rewrite restore_on_exit_blocks.
    destruct (bool_decide (exit_reason s = NewInstance));
      [simpl; unfold new_events; rewrite drop_all; auto |].
    set (s1 := if bool_decide (exit_reason s = UserActionNoSave) then s
               else set_trace (trace s ++ [Config_Save]) s).
    assert (exists save, trace s1 = trace s ++ save /\ List.filter from_blur save = [] /\
                         is_normal s1 = is_normal s) as (save & T1 & F1 & N1).
    { subst s1. destruct (bool_decide (exit_reason s = UserActionNoSave)).
      - exists []. rewrite app_nil_r. auto.
      - exists [Config_Save]. auto. }
    clearbody s1.
    destruct (TogglePeek_frame os true s1)
      as (s2 & E2 & _ & T2 & _ & _ & _ & _ & _ & _ & N2 & _).
    unfold bind, get. rewrite E2.
    destruct (blur_each_unavailable os (fun _ => (ACCENT_NORMAL, 0))
                (map_to_list (taskbars s2)) Hna s2) as (s3 & E3 & T3 & N3).
    simpl in E3. rewrite E3. simpl.
    split; [| congruence].
    rewrite (new_events_app s _ (save ++ (if peek_cached true s1 then []
                                          else peek_toggle_events os true s1)))
      by (rewrite T3, T2, T1, <- app_assoc; reflexivity).
    rewrite List.filter_app, F1. simpl.
    destruct (peek_cached true s1); reflexivity.
Qed.

Lemma no_composition_api_no_appearance_witness :
  List.filter from_blur
    (new_events sample_Sys (final (SetTaskbarBlur default_config legacy_desktop sample_Sys))) = [].
Proof.
  apply (no_composition_api_no_appearance default_config legacy_desktop sample_Sys).
  reflexivity.
Defined.

Lemma filter_blur_visits l : List.filter is_blur_call (map call_EnumWindowsProcess l) = [].
Proof. induction l as [| x l IH]; [reflexivity | exact IH]. Qed.

Lemma filter_blur_blur cfg l :
  List.filter is_blur_call (map (blur_call cfg) l) = map (blur_call cfg) l.
Proof. induction l as [| x l IH]; [reflexivity |]. simpl. rewrite IH. reflexivity. Qed.

(** X7. In a tick that returns, the applier is called once for each entry
    of the map, in whatever order the map is walked: the calls of the
    applier are, up to their order, those of the entries with the accent and
    the colour of their state, so their number is the size of the map; and
    when no two displays share a surface, no surface is called twice. *)
Theorem applier_called_once_per_display :
  forall cfg os s,
    returned (SetTaskbarBlur cfg os s) = true ->
    let s' := final (SetTaskbarBlur cfg os s) in
    List.filter is_blur_call (new_calls s s')
    ≡ₚ map (blur_call cfg) (map_to_list (taskbars s'))
    /\ count is_blur_call (new_calls s s') = size (taskbars s')
    /\ (forall w a c,
          count (fun x => bool_decide (x = call_SetWindowBlur w a c)) (new_calls s s')
          = count (fun t => bool_decide (blur_call cfg t = call_SetWindowBlur w a c))
              (map_to_list (taskbars s')))
    /\ (NoDup (map (fun t => fst (snd t)) (map_to_list (taskbars s'))) ->
        NoDup (List.filter is_blur_call (new_calls s s'))).
Proof.
  intros cfg os s Hret. cbv zeta.
  assert (exists before,
            new_calls s (final (SetTaskbarBlur cfg os s))
            = before ++ map (blur_call cfg)
                          (map_to_list (taskbars (final (SetTaskbarBlur cfg os s))))
            /\ List.filter is_blur_call before = [])
    as (before & Hcalls & Hbefore).
  { destruct (Z_lt_le_dec (counter s) 10) as [Hc | Hc].
    - destruct (SetTaskbarBlur_idle cfg os s Hc) as (s' & delta & -> & C & _ & _ & Tb & _).
      simpl. exists []. rewrite (new_calls_app _ _ _ C), Tb. split; reflexivity.
    - pose proof (SetTaskbarBlur_pass cfg os s Hc) as Ht.
      destruct (reconcile_spec cfg os s)
        as (_ & _ & _ & (visited & rest & peek & toggles & _ & _ & V3 & _ & _ & V6 & _) & _).
      destruct (reconcile cfg os s) as [[] s1 | s1]; simpl in *.
      + destruct Ht as (s' & delta & Et & C & _ & _ & Tb & _).
        rewrite Et in *. simpl.
        exists ((if scans_windows cfg then map call_EnumWindowsProcess visited else [])
                ++ peek).
        split.
        * apply new_calls_app. rewrite C, V6, Tb, <- !app_assoc. reflexivity.
        * rewrite List.filter_app.
          assert (List.filter is_blur_call
                    (if scans_windows cfg then map call_EnumWindowsProcess visited else [])
                  = []) as ->
            by (destruct (scans_windows cfg); [apply filter_blur_visits | reflexivity]).
          destruct V3 as [-> | ->]; reflexivity.
      + rewrite Ht in Hret. discriminate. }
  set (entries := map_to_list (taskbars (final (SetTaskbarBlur cfg os s)))) in *.
  assert (List.filter is_blur_call (new_calls s (final (SetTaskbarBlur cfg os s)))
          = map (blur_call cfg) entries) as Hfilter
    by (rewrite Hcalls, List.filter_app, Hbefore, filter_blur_blur; reflexivity).
  split; [rewrite Hfilter; reflexivity |]. split; [| split].
  - unfold count. rewrite Hfilter, length_map. apply length_map_to_list.
  - intros w a c. unfold count. rewrite Hcalls, List.filter_app, length_app.
    assert (List.filter (fun x => bool_decide (x = call_SetWindowBlur w a c)) before = [])
      as ->.
    { clear -Hbefore. induction before as [| x l IH]; [reflexivity |].
      simpl in *. destruct (is_blur_call x) eqn:E; [discriminate |].
      rewrite (IH Hbefore). rewrite bool_decide_eq_false_2; [reflexivity |].
      intros ->. discriminate. }
    simpl. clear. induction entries as [| t l IH]; [reflexivity |].
    simpl. destruct (bool_decide (blur_call cfg t = call_SetWindowBlur w a c)); simpl;
      rewrite IH; reflexivity.
  - intros Hnd. rewrite Hfilter. clear -Hnd.
    induction entries as [| t l IH]; [apply NoDup_nil_2 |].
    simpl in *. apply NoDup_cons in Hnd as (Hnot & Hnd).
    apply NoDup_cons. split; [| exact (IH Hnd)].
    intros Hin. apply Hnot.
    apply list_elem_of_fmap in Hin as (t' & E & Hin').
    unfold blur_call in E. injection E as E _ _. rewrite E.
    apply (list_elem_of_fmap_2 (fun x : Z * (Z * MONITORSTATE) => fst (snd x)) l t' Hin').
Qed.

Lemma applier_called_once_per_display_witness :
  let s' := final (SetTaskbarBlur dynamic_config (sample_desktop [11]) sample_Sys) in
  count is_blur_call (new_calls sample_Sys s') = size (taskbars s')
  /\ count (fun x => bool_decide (x = call_SetWindowBlur 10 ACCENT_ENABLE_BLURBEHIND 0))
       (new_calls sample_Sys s') = 1%nat.
Proof.
  pose proof (applier_called_once_per_display dynamic_config (sample_desktop [11]) sample_Sys
                eq_refl) as (_ & Hcount & Heach & _).
  split; [exact Hcount |].
  rewrite (Heach 10 ACCENT_ENABLE_BLURBEHIND 0). vm_compute. reflexivity.
Defined.

Lemma DispatchMessage_frame cfg os msg s :
  exists s', DispatchMessage cfg os msg s = Returned tt s' /\ counter s' = counter s /\
             is_normal s' = is_normal s /\ cached_peek s' = cached_peek s /\
             cached_taskbar s' = cached_taskbar s /\
             (exit_reason_of msg = None ->
              is_running s' = is_running s /\ exit_reason s' = exit_reason s) /\
             (forall r, exit_reason_of msg = Some r ->
              is_running s' = false /\ exit_reason s' = r /\ taskbars s' = taskbars s /\
              main_taskbar s' = main_taskbar s).
Proof.
  destruct msg; simpl; try rewrite RefreshHandles_eq; eexists;
    (split; [reflexivity |]); simpl;
    do 4 (split; [reflexivity |]);
    (split;
     [intros H; try discriminate H; split; reflexivity
     | intros r Hr; try discriminate Hr; injection Hr as <-; repeat split]).
Qed.

(** X8. The counter of [SetTaskbarBlur] stays between 1 and 10 along the
    message loop: a tick that returns takes a counter between 0 and 10 to a
    counter between 1 and 10, and no message writes it. So the [int] never
    overflows. *)
Theorem counter_stays_in_range :
  forall its s s',
    1 <= counter s <= 10 ->
    message_loop its s = Returned tt s' ->
    1 <= counter s' <= 10.
Proof.
  induction its as [| it rest IH]; intros s s' Hc E.
  - injection E as <-. exact Hc.
  - cbn [message_loop] in E. unfold bind, get in E.
    destruct (is_running s); [| injection E as <-; exact Hc].
    assert (exists s1, match it_msg it with
                       | Some msg => DispatchMessage (it_cfg it) (it_os it) msg
                       | None => ret tt
                       end s = Returned tt s1 /\ counter s1 = counter s) as (s1 & E1 & C1).
    { destruct (it_msg it) as [msg |]; [apply DispatchMessage_counter |].
      exists s. split; reflexivity. }
    rewrite E1 in E.
    destruct (SetTaskbarBlur (it_cfg it) (it_os it) s1) as [[] s2 | s2] eqn:E2; [| discriminate].
    apply SetTaskbarBlur_counter in E2.
    apply (IH s2 s'); [| exact E].
    rewrite E2, C1. unfold next_counter.
    destruct (Z.leb_spec 10 (counter s)); lia.
Qed.

Lemma counter_stays_in_range_witness :
  1 <= counter (final (message_loop
                         [mkIteration default_config (sample_desktop []) None;
                          mkIteration default_config (sample_desktop []) (Some WM_DISPLAYCHANGE)]
                         sample_Sys)) <= 10.
Proof.
  apply (counter_stays_in_range
           [mkIteration default_config (sample_desktop []) None;
            mkIteration default_config (sample_desktop []) (Some WM_DISPLAYCHANGE)]
           sample_Sys).
  - vm_compute. split; discriminate.
  - vm_compute. reflexivity.
Defined.

(** ** The colour on the wire *)

Lemma wire_policy_fluent x r g b :
  is_byte x -> is_byte r -> is_byte g -> is_byte b ->
  wire_policy ACCENT_ENABLE_FLUENT (packed x r g b)
  = mkPolicy ACCENT_ENABLE_FLUENT 2 (if x =? 0 then packed 1 b g r else packed x b g r) 0.
Proof.
  intros Hx Hr Hg Hb. unfold wire_policy, initial_policy.
  rewrite swap_red_blue_packed by assumption.
  apply fluent_fix_packed; assumption.
Qed.

Lemma wire_policy_packed appearance a r g b :
  is_byte a -> is_byte r -> is_byte g -> is_byte b ->
  let policy := wire_policy appearance (packed a r g b) in
  U32.in_range (nColor policy)
  /\ lane (nColor policy) 16 = b
  /\ lane (nColor policy) 8 = g
  /\ lane (nColor policy) 0 = r
  /\ (appearance = ACCENT_ENABLE_FLUENT -> lane (nColor policy) 24 <> 0)
  /\ (lane (nColor policy) 24 <> a -> appearance = ACCENT_ENABLE_FLUENT /\ a = 0)
  /\ fluent_fix policy = policy.
Proof.
  intros H3 H2 H1 H0. cbv zeta.
  assert (is_byte 1) as Hone by (unfold is_byte; lia).
  destruct (decide (appearance = ACCENT_ENABLE_FLUENT)) as [-> | Hf].
  - rewrite wire_policy_fluent by assumption. cbn [nColor].
    destruct (Z.eqb_spec a 0) as [Ea | Ea].
    + destruct (lane_packed 1 b g r Hone H0 H1 H2) as (L3 & L2 & L1 & L0).
      rewrite L3, L2, L1, L0.
      split; [apply packed_in_range; assumption |].
      repeat (split; [reflexivity |]).
      split; [intros _; discriminate |]. split; [intros _; auto |].
      exact (fluent_fix_packed 1 b g r Hone H0 H1 H2).
    + destruct (lane_packed a b g r H3 H0 H1 H2) as (L3 & L2 & L1 & L0).
      rewrite L3, L2, L1, L0.
      split; [apply packed_in_range; assumption |].
      repeat (split; [reflexivity |]).
      split; [intros _; exact Ea |]. split; [intros H; contradiction |].
      pose proof (fluent_fix_packed a b g r H3 H0 H1 H2) as E.
      destruct (Z.eqb_spec a 0); [contradiction | exact E].
  - rewrite wire_policy_other by assumption. cbn [nColor].
    destruct (lane_packed a b g r H3 H0 H1 H2) as (L3 & L2 & L1 & L0).
    rewrite L3, L2, L1, L0.
    split; [apply packed_in_range; assumption |].
    repeat (split; [reflexivity |]).
    split; [intros H; contradiction |]. split; [intros H; contradiction |].
    apply fluent_fix_other. exact Hf.
Qed.

(** X9. For every 32-bit colour and every accent, the colour of the policy
    handed to the compositing call is a 32-bit value whose three low bytes
    are those of the input with red and blue exchanged; with the fluent
    accent its alpha byte is never zero, and the alpha byte differs from the
    input's only for the fluent accent on a zero alpha; and the correction
    of [SetWindowBlur] applied to that policy again changes nothing. *)
Theorem wire_colour_is_32_bit_and_fluent_alpha_positive :
  forall appearance color,
    U32.in_range color ->
    let policy := wire_policy appearance color in
    U32.in_range (nColor policy)
    /\ lane (nColor policy) 16 = lane color 0
    /\ lane (nColor policy) 8 = lane color 8
    /\ lane (nColor policy) 0 = lane color 16
    /\ (appearance = ACCENT_ENABLE_FLUENT -> lane (nColor policy) 24 <> 0)
    /\ (lane (nColor policy) 24 <> lane color 24 ->
        appearance = ACCENT_ENABLE_FLUENT /\ lane color 24 = 0)
    /\ fluent_fix policy = policy.
Proof.
  intros appearance color Hc.
  pose proof (wire_policy_packed appearance (lane color 24) (lane color 16) (lane color 8)
                (lane color 0) (lane_bounds color 24) (lane_bounds color 16)
                (lane_bounds color 8) (lane_bounds color 0)) as H.
  rewrite (packed_lanes color Hc) in H. exact H.
Qed.

Lemma wire_colour_is_32_bit_and_fluent_alpha_positive_witness :
  lane (nColor (wire_policy ACCENT_ENABLE_FLUENT 0x00102030)) 24 <> 0.
Proof.
  apply (wire_colour_is_32_bit_and_fluent_alpha_positive ACCENT_ENABLE_FLUENT 0x00102030);
    [unfold U32.in_range, U32.modulus; lia | reflexivity].
Defined.

(** ** More on the peek toggle *)

Lemma last_cons_default {A : Type} (x d : A) (l : list A) :
  List.last (x :: l) d = List.last l x.
Proof.
  revert x d. induction l as [| y l IH]; intros x d; [reflexivity |].
  change (List.last (x :: y :: l) d) with (List.last (y :: l) d).
  rewrite (IH y d), (IH y x). reflexivity.
Qed.

(** X10. As long as the primary taskbar is the cached one, successive calls
    of [TogglePeek] touch the layered style once for every status that
    differs from the one before it (the cached one, for the first), and not
    otherwise; the cache ends on the last status. *)
Theorem peek_toggles_once_per_change :
  forall os statuses s,
    cached_taskbar s = None \/ cached_taskbar s = Some (main_taskbar s) ->
    let o := peek_calls os statuses s in
    returned o = true
    /\ count is_peek_toggle (new_events s (final o)) = changes (cached_peek s) statuses
    /\ cached_peek (final o) = List.last statuses (cached_peek s)
    /\ (count is_layered_alpha (new_events s (final o))
        <= count is_peek_toggle (new_events s (final o)))%nat.
Proof.
  intros os statuses s Hvalid. cbv zeta.
  assert (forall s0,
            cached_taskbar s0 = None \/ cached_taskbar s0 = Some (main_taskbar s0) ->
            exists s1 delta,
              peek_calls os statuses s0 = Returned tt s1 /\
              trace s1 = trace s0 ++ delta /\
              count is_peek_toggle delta = changes (cached_peek s0) statuses /\
              cached_peek s1 = List.last statuses (cached_peek s0) /\
              (count is_layered_alpha delta <= count is_peek_toggle delta)%nat) as H.
  { induction statuses as [| st statuses IH]; intros s0 Hv.
    - exists s0, []. simpl. rewrite app_nil_r. repeat split. unfold count. simpl. lia.
    - assert (bool_decide (default (main_taskbar s0) (cached_taskbar s0) = main_taskbar s0) = true)
        as Htb by (apply bool_decide_eq_true; destruct Hv as [-> | ->]; reflexivity).
      unfold peek_calls in *. cbn [for_each]. unfold bind.
      destruct (eqb st (cached_peek s0)) eqn:Est.
      + assert (peek_cached st s0 = true) as Hhit by (unfold peek_cached; rewrite Est, Htb; reflexivity).
        rewrite (TogglePeek_hit os st s0 Hhit).
        match goal with |- context [for_each statuses _ ?x] =>
          destruct (IH x) as (s1 & delta & E & T & Cn & Cp & Le); [right; reflexivity |]
        end.
        exists s1, delta. split; [exact E |]. split; [exact T |].
        cbn [changes]. rewrite Est. simpl in Cn, Cp.
        apply eqb_prop in Est. subst st.
        split; [exact Cn |]. split; [| exact Le].
        rewrite Cp. symmetry. apply last_cons_default.
      + assert (peek_cached st s0 = false) as Hmiss by (unfold peek_cached; rewrite Est; reflexivity).
        rewrite (TogglePeek_miss os st s0 Hmiss).
        match goal with |- context [for_each statuses _ ?x] =>
          destruct (IH x) as (s1 & delta & E & T & Cn & Cp & Le); [right; reflexivity |]
        end.
        exists s1, (peek_toggle_events os st s0 ++ delta).
        split; [exact E |].
        split; [rewrite T; simpl; rewrite <- app_assoc; reflexivity |].
        cbn [changes]. rewrite Est. simpl in Cn, Cp.
        unfold count in *. rewrite !List.filter_app, !length_app, Cn.
        split; [unfold peek_toggle_events; destruct st; reflexivity |].
        split; [rewrite Cp; symmetry; apply last_cons_default |].
        unfold peek_toggle_events. destruct st; simpl; lia. }
  destruct (H s Hvalid) as (s1 & delta & E & T & Cn & Cp & Le).
  rewrite E. simpl. rewrite (new_events_app _ _ _ T). auto.
Qed.

Lemma peek_toggles_once_per_change_witness :
  count is_peek_toggle
    (new_events initial_Sys
       (final (peek_calls empty_desktop [true; false; false; true; false] initial_Sys)))
  = changes (cached_peek initial_Sys) [true; false; false; true; false].
Proof.
  apply (peek_toggles_once_per_change empty_desktop [true; false; false; true; false]
           initial_Sys).
  left. reflexivity.
Defined.

(** X11. When [RefreshHandles] finds a primary taskbar other than the one
    that [TogglePeek] has cached, the next call of [TogglePeek] touches the
    peek button of the new taskbar whatever the status, also an unchanged
    one; when it finds the cached taskbar again, a call with the cached
    status touches nothing. *)
Theorem new_primary_taskbar_retoggles_peek :
  forall cfg os status s cached,
    cached_taskbar s = Some cached ->
    let s1 := final (RefreshHandles cfg os s) in
    let s2 := final (TogglePeek os status s1) in
    (shell_tray os <> cached ->
       new_events s1 s2
       = (if status then [SetWindowLong_EXSTYLE (peek_button os (shell_tray os)) false]
          else [SetWindowLong_EXSTYLE (peek_button os (shell_tray os)) true;
                SetLayeredWindowAttributes (peek_button os (shell_tray os)) 0])
       /\ cached_taskbar s2 = Some (shell_tray os) /\ cached_peek s2 = status)
    /\ (shell_tray os = cached -> status = cached_peek s -> new_events s1 s2 = []).
Proof.
  intros cfg os status s cached Hc. cbv zeta.
  rewrite RefreshHandles_eq. cbn [final].
  set (s1 := set_taskbars _ _).
  assert (main_taskbar s1 = shell_tray os) as Hm by reflexivity.
  assert (cached_taskbar s1 = Some cached) as Hc1 by exact Hc.
  assert (cached_peek s1 = cached_peek s) as Hp1 by reflexivity.
  clearbody s1. split.
  - intros Hne.
    assert (peek_cached status s1 = false) as Hmiss.
    { unfold peek_cached. rewrite Hc1, Hm. simpl.
      rewrite (bool_decide_eq_false_2 (cached = shell_tray os)) by congruence.
      apply andb_false_r. }
    rewrite (TogglePeek_miss os status s1 Hmiss). simpl.
    rewrite (new_events_app s1 _ (peek_toggle_events os status s1)) by reflexivity.
    unfold peek_toggle_events. rewrite Hm. auto.
  - intros He Hs.
    assert (peek_cached status s1 = true) as Hhit.
    { unfold peek_cached. rewrite Hc1, Hm, Hp1, Hs, He. simpl.
      rewrite eqb_reflx. apply bool_decide_eq_true_2. reflexivity. }
    rewrite (TogglePeek_hit os status s1 Hhit). simpl.
    unfold new_events. simpl. apply drop_all.
Qed.

Lemma new_primary_taskbar_retoggles_peek_witness :
  let s := set_cached_taskbar (Some 10) sample_Sys in
  let s1 := final (RefreshHandles default_config two_monitor_desktop s) in
  new_events s1 (final (TogglePeek two_monitor_desktop true s1))
  = [SetWindowLong_EXSTYLE (peek_button two_monitor_desktop (shell_tray two_monitor_desktop)) false].
Proof.
  apply (new_primary_taskbar_retoggles_peek default_config two_monitor_desktop true
           (set_cached_taskbar (Some 10) sample_Sys) 10);
    [reflexivity | vm_compute; discriminate].
Defined.

(** ** Messages and the loop *)

Lemma SetTaskbarBlur_untouched cfg os s :
  untouched_by_tick s (final (SetTaskbarBlur cfg os s)).
Proof.
  rewrite SetTaskbarBlur_blocks. unfold when, bind.
  assert (forall x, untouched_by_tick x
            (final (match apply_appearance cfg os x with
                    | Returned a s' => modify (fun s0 => set_counter (counter s0 + 1) s0) s'
                    | Thrown s' => Thrown s'
                    end))) as Happ.
  { intros x.
    destruct (apply_appearance_spec cfg os x)
      as (x' & delta & -> & _ & (U1 & U2 & U3 & _ & U5 & U6 & _) & _).
    unfold untouched_by_tick. simpl. rewrite U1, U2, U3, U5, U6. repeat split. }
  destruct (10 <=? counter s); [| apply Happ].
  destruct (reconcile_spec cfg os s) as (_ & U & _).
  destruct (reconcile cfg os s) as [[] s1 | s1]; simpl in *; [| exact U].
  eapply untouched_by_tick_trans; [exact U | apply Happ].
Qed.

(** X12. The iteration of the message loop that dispatches an exit message
    (a new instance, a close, or one of the two exit commands) still runs
    its tick and is the last one: the iterations after it are not run, and
    the loop ends with [run.is_running] false and the exit reason of that
    message; after the new-instance message, the end of [wWinMain] then
    leaves everything as it is. Iterations with other messages or none never
    stop the loop and never change the exit reason. *)
Theorem exit_message_ends_the_loop :
  (forall it rest msg reason s,
      is_running s = true -> it_msg it = Some msg -> exit_reason_of msg = Some reason ->
      message_loop (it :: rest) s
      = (DispatchMessage (it_cfg it) (it_os it) msg ;;
         SetTaskbarBlur (it_cfg it) (it_os it))%cpp s
      /\ is_running (final (message_loop (it :: rest) s)) = false
      /\ exit_reason (final (message_loop (it :: rest) s)) = reason
      /\ (reason = NewInstance ->
          forall os, restore_on_exit os (final (message_loop (it :: rest) s))
                     = Returned tt (final (message_loop (it :: rest) s))))
  /\ (forall its s,
        Forall (fun it => keeps_running it = true) its ->
        is_running (final (message_loop its s)) = is_running s /\
        exit_reason (final (message_loop its s)) = exit_reason s).
Proof.
  split.
  - intros it rest msg reason s Hrun Hmsg Hexit.
    destruct (DispatchMessage_frame (it_cfg it) (it_os it) msg s)
      as (s1 & E1 & _ & _ & _ & _ & _ & Hex).
    destruct (Hex reason Hexit) as (Hr1 & He1 & _).
    pose proof (SetTaskbarBlur_untouched (it_cfg it) (it_os it) s1) as (U1 & _ & U3 & _).
    assert (message_loop (it :: rest) s
            = (DispatchMessage (it_cfg it) (it_os it) msg ;;
               SetTaskbarBlur (it_cfg it) (it_os it))%cpp s) as Eloop.
    { cbn [message_loop]. unfold bind, get. rewrite Hrun, Hmsg, E1.
      destruct (SetTaskbarBlur (it_cfg it) (it_os it) s1) as [[] s2 | s2]; [| reflexivity].
      simpl in U3. destruct rest as [| it' rest']; [reflexivity |].
      cbn [message_loop]. unfold bind, get. rewrite U3, Hr1. reflexivity. }
    split; [exact Eloop |]. rewrite Eloop. unfold bind. rewrite E1.
    split; [| split].
    + destruct (SetTaskbarBlur (it_cfg it) (it_os it) s1); simpl in *; congruence.
    + destruct (SetTaskbarBlur (it_cfg it) (it_os it) s1); simpl in *; congruence.
    + intros -> os. rewrite restore_on_exit_blocks.
      rewrite bool_decide_eq_true_2; [reflexivity |].
      destruct (SetTaskbarBlur (it_cfg it) (it_os it) s1); simpl in *; congruence.
  - intros its s Hall. revert s.
    induction Hall as [| it rest Hit _ IH]; intros s; [split; reflexivity |].
    cbn [message_loop]. unfold bind, get.
    destruct (is_running s) eqn:Hrun; [| simpl; auto].
    assert (exists s1, match it_msg it with
                       | Some msg => DispatchMessage (it_cfg it) (it_os it) msg
                       | None => ret tt
                       end s = Returned tt s1 /\
                       is_running s1 = is_running s /\ exit_reason s1 = exit_reason s)
      as (s1 & E1 & R1 & X1).
    { unfold keeps_running in Hit. destruct (it_msg it) as [msg |].
      - apply bool_decide_eq_true in Hit.
        destruct (DispatchMessage_frame (it_cfg it) (it_os it) msg s)
          as (s1 & E1 & _ & _ & _ & _ & Hk & _).
        exists s1. split; [exact E1 |]. exact (Hk Hit).
      - exists s. repeat split. }
    rewrite E1.
    pose proof (SetTaskbarBlur_untouched (it_cfg it) (it_os it) s1) as (U1 & _ & U3 & _).
    destruct (SetTaskbarBlur (it_cfg it) (it_os it) s1) as [[] s2 | s2]; simpl in *.
    + destruct (IH s2) as (I1 & I2). split; congruence.
    + split; congruence.
Qed.

Lemma exit_message_ends_the_loop_witness :
  let it := mkIteration default_config (sample_desktop []) (Some IDM_EXITWITHOUTSAVING) in
  exit_reason (final (message_loop [it; it] sample_Sys)) = UserActionNoSave.
Proof.
  apply (proj1 exit_message_ends_the_loop
           (mkIteration default_config (sample_desktop []) (Some IDM_EXITWITHOUTSAVING))
           [mkIteration default_config (sample_desktop []) (Some IDM_EXITWITHOUTSAVING)]
           IDM_EXITWITHOUTSAVING UserActionNoSave sample_Sys); reflexivity.
Defined.

Lemma refreshed_map_is_Normal os found m w st :
  store_secondary os found
    (<[monitor os (shell_tray os) := (shell_tray os, Normal)]> ∅) !! m = Some (w, st) ->
  st = Normal.
Proof.
  intros H. apply store_secondary_entries in H as [H | (_ & -> & _)]; [| reflexivity].
  rewrite lookup_insert in H. destruct (decide (monitor os (shell_tray os) = m)).
  - injection H as _ <-. reflexivity.
  - rewrite lookup_empty in H. discriminate.
Qed.

(** Iterations without a message for the core, while the counter stays
    below 10: each is one tick that only applies the appearances. *)
Lemma quiet_idle_ticks its :
  forall s,
    Forall (fun it => is_quiet it = true) its -> is_running s = true ->
    counter s + Z.of_nat (length its) <= 10 ->
    exists s' delta,
      message_loop its s = Returned tt s' /\
      taskbars s' = taskbars s /\ is_running s' = true /\
      counter s' = counter s + Z.of_nat (length its) /\
      calls s' = calls s
                 ++ concat (map (fun it => map (blur_call (it_cfg it))
                                             (map_to_list (taskbars s))) its) /\
      trace s' = trace s ++ delta /\ Forall (fun e => from_blur e = true) delta.
Proof.
  induction its as [| it rest IH]; intros s Hq Hrun Hc.
  - exists s, []. simpl. rewrite !app_nil_r, Z.add_0_r. repeat split; auto.
  - apply Forall_cons in Hq as (Hit & Hrest).
    cbn [message_loop]. unfold bind, get. rewrite Hrun.
    assert (match it_msg it with
            | Some msg => DispatchMessage (it_cfg it) (it_os it) msg
            | None => ret tt
            end s = Returned tt s) as ->.
    { unfold is_quiet in Hit. destruct (it_msg it) as [[] |]; try discriminate; reflexivity. }
    cbn [length] in Hc.
    destruct (SetTaskbarBlur_idle (it_cfg it) (it_os it) s) as (s1 & d1 & E1 & C1 & T1 & F1 & Tb1 & _ & Cn1);
      [lia |].
    pose proof (SetTaskbarBlur_untouched (it_cfg it) (it_os it) s) as (_ & _ & U3 & _).
    rewrite E1 in *. cbn [final] in U3.
    destruct (IH s1 Hrest) as (s2 & d2 & E2 & Tb2 & R2 & Cn2 & C2 & T2 & F2);
      [congruence | lia |].
    exists s2, (d1 ++ d2). split; [exact E2 |].
    split; [congruence |]. split; [exact R2 |].
    split; [cbn [length]; lia |].
    split; [rewrite C2, C1, Tb1; cbn [map concat]; rewrite <- app_assoc; reflexivity |].
    split; [rewrite T2, T1, <- app_assoc; reflexivity |].
    apply Forall_app. split; assumption.
Qed.

(** X13. A display-change or taskbar-created message rebuilds the map but
    leaves the counter of [SetTaskbarBlur] alone. When it arrives between two
    passes and no message for the core follows before the next pass, every
    tick from its iteration on scans no window and calls the applier once
    for every rebuilt entry, in whatever order the map is walked, with the
    regular appearance and colour of the configuration of that tick,
    whatever windows are maximised; the map stays as rebuilt, all [Normal],
    and the loop keeps running. *)
Theorem display_change_shows_regular_appearance :
  forall it its msg s,
    it_msg it = Some msg -> refreshes_handles msg = true ->
    Forall (fun it' => is_quiet it' = true) its ->
    is_running s = true -> counter s + Z.of_nat (length its) < 10 ->
    let s1 := final (DispatchMessage (it_cfg it) (it_os it) msg s) in
    let o := message_loop (it :: its) s in
    returned o = true
    /\ taskbars (final o) = taskbars s1
    /\ (forall m w st, taskbars (final o) !! m = Some (w, st) -> st = Normal)
    /\ (exists blocks,
          new_calls s (final o) = call_RefreshHandles :: concat blocks /\
          Forall2 (fun it' block =>
                     block ≡ₚ map (regular_call (it_cfg it')) (map_to_list (taskbars s1)))
                  (it :: its) blocks)
    /\ (EnumWindows_call ∉ new_events s (final o))
    /\ List.filter is_visit (new_calls s (final o)) = []
    /\ counter (final o) = counter s + 1 + Z.of_nat (length its)
    /\ is_running (final o) = true.
Proof.
  intros it its msg s Hmsg Hrefresh Hq Hrun Hc. cbv zeta.
  assert (DispatchMessage (it_cfg it) (it_os it) msg s
          = RefreshHandles (it_cfg it) (it_os it) s) as Edisp
    by (destruct msg; try discriminate; reflexivity).
  cbn [message_loop]. unfold bind, get. rewrite Hrun, Hmsg, Edisp.
  rewrite RefreshHandles_eq. cbn [final].
  set (s1 := set_taskbars _ _).
  assert (counter s1 = counter s) as Hc1 by reflexivity.
  assert (is_running s1 = is_running s) as Hr1 by reflexivity.
  assert (calls s1 = calls s ++ [call_RefreshHandles]) as Hcl1 by reflexivity.
  assert (trace s1 = trace s ++ (if Config.VERBOSE (it_cfg it) then [Log_OutputMessage] else []))
    as Htr1 by reflexivity.
  assert (forall m w st, taskbars s1 !! m = Some (w, st) -> st = Normal) as Hn
    by (intros m w st; apply refreshed_map_is_Normal).
  clearbody s1.
  destruct (SetTaskbarBlur_idle (it_cfg it) (it_os it) s1)
    as (s2 & d2 & E2 & C2 & T2 & F2 & Tb2 & _ & Cn2); [lia |].
  pose proof (SetTaskbarBlur_untouched (it_cfg it) (it_os it) s1) as (_ & _ & U3 & _).
  rewrite E2 in *. cbn [final] in U3.
  destruct (quiet_idle_ticks its s2 Hq) as (s3 & d3 & E3 & Tb3 & R3 & Cn3 & C3 & T3 & F3);
    [congruence | lia |].
  rewrite E3. cbn [final returned].
  assert (forall cfg, map (blur_call cfg) (map_to_list (taskbars s1))
                      = map (regular_call cfg) (map_to_list (taskbars s1))) as Hreg.
  { intros cfg. apply map_ext_in. intros [m [w st]] Hin.
    apply list_elem_of_In, elem_of_map_to_list in Hin.
    unfold blur_call, regular_call. cbn [fst snd]. rewrite (Hn m w st Hin). reflexivity. }
  assert (calls s3 = calls s
            ++ call_RefreshHandles
               :: concat (map (fun it' => map (regular_call (it_cfg it'))
                                            (map_to_list (taskbars s1))) (it :: its))) as Cl.
  { rewrite C3, C2, Hcl1, Tb2. cbn [map concat]. rewrite <- !app_assoc. cbn [app].
    rewrite Hreg. do 3 f_equal.
    clear -Hreg. induction its as [| x l IH]; [reflexivity |].
    cbn [map concat]. rewrite IH, Hreg. reflexivity. }
  assert (trace s3 = trace s
            ++ (if Config.VERBOSE (it_cfg it) then [Log_OutputMessage] else []) ++ d2 ++ d3)
    as Tr by (rewrite T3, T2, Htr1, <- !app_assoc; reflexivity).
  split; [reflexivity |]. split; [congruence |].
  split; [intros m w st; rewrite Tb3, Tb2; apply Hn |].
  split; [| split; [| split; [| split]]].
  - eexists. split; [exact (new_calls_app _ _ _ Cl) |].
    clear. induction (it :: its) as [| x l IH]; [constructor |].
    cbn [map]. constructor; [reflexivity | exact IH].
  - rewrite (new_events_app _ _ _ Tr), !elem_of_app.
    intros [H | [H | H]].
    + destruct (Config.VERBOSE (it_cfg it)).
      * apply list_elem_of_singleton in H. discriminate.
      * apply elem_of_nil in H. contradiction.
    + apply (not_elem_of_Forall _ _ _ F2) in H; [contradiction | reflexivity].
    + apply (not_elem_of_Forall _ _ _ F3) in H; [contradiction | reflexivity].
  - rewrite (new_calls_app _ _ _ Cl). cbn [List.filter is_visit].
    clear. induction (it :: its) as [| x l IH]; [reflexivity |].
    cbn [map concat]. rewrite List.filter_app, IH, app_nil_r. clear.
    generalize (map_to_list (taskbars s1)). intros entries.
    induction entries as [| t l' IH']; [reflexivity | exact IH'].
  - lia.
  - exact R3.
Qed.

Lemma display_change_shows_regular_appearance_witness :
  let s := set_counter 4 sample_Sys in
  let it := mkIteration dynamic_config (sample_desktop [25]) (Some WM_DISPLAYCHANGE) in
  let quiet := mkIteration dynamic_config (sample_desktop [25]) None in
  let o := message_loop [it; quiet; quiet] s in
  returned o = true
  /\ (forall m w st, taskbars (final o) !! m = Some (w, st) -> st = Normal)
  /\ counter (final o) = counter s + 1 + 2.
Proof.
  pose proof (display_change_shows_regular_appearance
                (mkIteration dynamic_config (sample_desktop [25]) (Some WM_DISPLAYCHANGE))
                [mkIteration dynamic_config (sample_desktop [25]) None;
                 mkIteration dynamic_config (sample_desktop [25]) None]
                WM_DISPLAYCHANGE (set_counter 4 sample_Sys)) as H.
  destruct H as (H1 & _ & H3 & _ & _ & _ & H7 & _).
  - reflexivity.
  - reflexivity.
  - repeat constructor.
  - reflexivity.
  - vm_compute. reflexivity.
  - split; [exact H1 |]. split; [exact H3 | exact H7].
Defined.

(** ** Real windows *)

Lemma walk_stable sh n k :
  forall hwndTry hwndWalk r,
    Real.walk sh n hwndTry hwndWalk = Some r ->
    Real.walk sh (n + k) hwndTry hwndWalk = Some r.
Proof.
  induction n as [| n IH]; intros t w r.
  - simpl. destruct (t =? w) eqn:E; [| discriminate].
    intros H. destruct k; simpl; rewrite E; exact H.
  - simpl. destruct (t =? w); [auto |].
    destruct (Real.IsWindowVisible sh (Real.GetLastActivePopup sh t)); [auto |].
    apply IH.
Qed.

Lemma isRealWindow_stable sh n m hwnd b :
  Real.isRealWindow sh n hwnd = Some b -> (n <= m)%nat ->
  Real.isRealWindow sh m hwnd = Some b.
Proof.
  intros H Hle. replace m with (n + (m - n))%nat by lia.
  unfold Real.isRealWindow in *.
  destruct (negb (Real.IsWindowVisible sh hwnd)); [exact H |].
  destruct (Real.walk sh n (Real.GetAncestor_ROOTOWNER sh hwnd) NullWindow) as [w |] eqn:E;
    [| discriminate].
  rewrite (walk_stable sh n (m - n) _ _ w E). exact H.
Qed.

Lemma isRealWindow_true sh n hwnd :
  Real.isRealWindow sh n hwnd = Some true ->
  Real.IsWindowVisible sh hwnd = true /\
  Real.walk sh n (Real.GetAncestor_ROOTOWNER sh hwnd) NullWindow = Some hwnd /\
  Z.land (Real.rgstate0 sh hwnd) Real.STATE_SYSTEM_INVISIBLE = 0 /\
  Z.land (Real.GetWindowLong_EXSTYLE sh hwnd) Real.WS_EX_TOOLWINDOW = 0.
Proof.
  unfold Real.isRealWindow.
  destruct (Real.IsWindowVisible sh hwnd); simpl; [| discriminate].
  destruct (Real.walk sh n (Real.GetAncestor_ROOTOWNER sh hwnd) NullWindow) as [w |];
    [| discriminate].
  destruct (Z.eqb_spec w hwnd) as [-> | _]; simpl; [| discriminate].
  destruct (Z.eqb_spec (Z.land (Real.rgstate0 sh hwnd) Real.STATE_SYSTEM_INVISIBLE) 0)
    as [E1 | _]; simpl; [| discriminate].
  destruct (Z.eqb_spec (Z.land (Real.GetWindowLong_EXSTYLE sh hwnd) Real.WS_EX_TOOLWINDOW) 0)
    as [E2 | _]; simpl; [| discriminate].
  auto.
Qed.

(** X14. A window that [isRealWindow] accepts is visible, is where the walk
    along the last active popups from its root owner stops, and carries
    neither the invisible title-bar state nor the tool-window style. So at
    most one window of an ownership group is accepted: two accepted windows
    with the same root owner are the same window. *)
Theorem isRealWindow_accepts_one_per_owner :
  forall sh n hwnd,
    Real.isRealWindow sh n hwnd = Some true ->
    (Real.IsWindowVisible sh hwnd = true /\
     Real.walk sh n (Real.GetAncestor_ROOTOWNER sh hwnd) NullWindow = Some hwnd /\
     Z.land (Real.rgstate0 sh hwnd) Real.STATE_SYSTEM_INVISIBLE = 0 /\
     Z.land (Real.GetWindowLong_EXSTYLE sh hwnd) Real.WS_EX_TOOLWINDOW = 0)
    /\ (forall n' hwnd',
          Real.isRealWindow sh n' hwnd' = Some true ->
          Real.GetAncestor_ROOTOWNER sh hwnd' = Real.GetAncestor_ROOTOWNER sh hwnd ->
          hwnd' = hwnd).
Proof.
  intros sh n hwnd H. pose proof (isRealWindow_true sh n hwnd H) as Ht.
  split; [exact Ht |].
  intros n' hwnd' H' Hroot.
  destruct Ht as (_ & W & _). destruct (isRealWindow_true sh n' hwnd' H') as (_ & W' & _).
  rewrite Hroot in W'.
  apply (walk_stable sh n n') in W. apply (walk_stable sh n' n) in W'.
  rewrite (Nat.add_comm n' n) in W'. congruence.
Qed.

Lemma isRealWindow_accepts_one_per_owner_witness :
  Real.IsWindowVisible Real.sample_shell 1 = true /\
  Real.walk Real.sample_shell 5 (Real.GetAncestor_ROOTOWNER Real.sample_shell 1) NullWindow
  = Some 1 /\
  Z.land (Real.rgstate0 Real.sample_shell 1) Real.STATE_SYSTEM_INVISIBLE = 0 /\
  Z.land (Real.GetWindowLong_EXSTYLE Real.sample_shell 1) Real.WS_EX_TOOLWINDOW = 0.
Proof.
  apply (isRealWindow_accepts_one_per_owner Real.sample_shell 5 1). reflexivity.
Defined.

(** X15. [isRealWindow] answers [FALSE] for a hidden window without walking.
    For a visible window whose root owner is not null and has a visible last
    active popup, or is its own last active popup, one iteration of the loop
    is enough and the answer is [TRUE] exactly when the window is that root
    owner and has neither the invisible title-bar state nor the tool-window
    style: an owned window is not a real window then, even when it is that
    popup. An answer found within some number of iterations is the answer
    for any larger number. *)
Theorem isRealWindow_answers :
  forall sh hwnd,
    (Real.IsWindowVisible sh hwnd = false ->
       forall n, Real.isRealWindow sh n hwnd = Some false)
    /\ (Real.IsWindowVisible sh hwnd = true ->
        let root := Real.GetAncestor_ROOTOWNER sh hwnd in
        root <> NullWindow ->
        Real.IsWindowVisible sh (Real.GetLastActivePopup sh root) = true
        \/ Real.GetLastActivePopup sh root = root ->
        forall n,
          Real.isRealWindow sh (S n) hwnd
          = Some ((root =? hwnd)
                  && (Z.land (Real.rgstate0 sh hwnd) Real.STATE_SYSTEM_INVISIBLE =? 0)
                  && (Z.land (Real.GetWindowLong_EXSTYLE sh hwnd) Real.WS_EX_TOOLWINDOW =? 0)))
    /\ (forall n m b,
          Real.isRealWindow sh n hwnd = Some b -> (n <= m)%nat ->
          Real.isRealWindow sh m hwnd = Some b).
Proof.
  intros sh hwnd. split; [| split].
  - intros Hv n. unfold Real.isRealWindow. rewrite Hv. reflexivity.
  - intros Hv root Hroot Hpop n. unfold Real.isRealWindow. rewrite Hv. cbn [negb].
    change (Real.GetAncestor_ROOTOWNER sh hwnd) with root.
    assert (Real.walk sh (S n) root NullWindow = Some root) as ->.
    { simpl. destruct (Z.eqb_spec root NullWindow) as [E | _]; [contradiction |].
      destruct (Real.IsWindowVisible sh (Real.GetLastActivePopup sh root)) eqn:Ev;
        [reflexivity |].
      destruct Hpop as [Hp | Hp]; [discriminate |]. rewrite Hp.
      destruct n; simpl; rewrite Z.eqb_refl; reflexivity. }
    destruct (root =? hwnd); simpl; [| reflexivity].
    destruct (Z.land (Real.rgstate0 sh hwnd) Real.STATE_SYSTEM_INVISIBLE =? 0); simpl;
      [| reflexivity].
    destruct (Z.land (Real.GetWindowLong_EXSTYLE sh hwnd) Real.WS_EX_TOOLWINDOW =? 0);
      reflexivity.
  - intros n m b. apply isRealWindow_stable.
Qed.

Lemma isRealWindow_answers_witness :
  Real.isRealWindow Real.sample_shell 1 2 = Some false /\
  Real.isRealWindow Real.sample_shell 1 1 = Some true /\
  Real.isRealWindow Real.sample_shell 0 3 = Some false.
Proof.
  split; [| split].
  - apply (proj1 (proj2 (isRealWindow_answers Real.sample_shell 2)));
      [reflexivity | discriminate | left; reflexivity].
  - apply (proj1 (proj2 (isRealWindow_answers Real.sample_shell 1)));
      [reflexivity | discriminate | left; reflexivity].
  - apply (proj1 (isRealWindow_answers Real.sample_shell 3)). reflexivity.
Defined.

(** ** The folder of the executable *)

Lemma find_last_of_from_last_index chars s :
  forall i found,
    Path.find_last_of_from chars s i found
    = match Path.last_index chars s with
      | Some k => (i + N.of_nat k)%N
      | None => found
      end.
Proof.
  induction s as [| c rest IH]; intros i found; [reflexivity |].
  simpl. rewrite IH.
  destruct (Path.last_index chars rest) as [k |]; [lia |].
  destruct (Path.is_one_of chars c); [lia | reflexivity].
Qed.

Lemma last_index_Some chars s :
  forall k,
    Path.last_index chars s = Some k ->
    exists c, s !! k = Some c /\ Path.is_one_of chars c = true /\
              Forall (fun x => Path.is_one_of chars x = false) (drop (S k) s).
Proof.
  induction s as [| c rest IH]; intros k; [discriminate |].
  simpl. destruct (Path.last_index chars rest) as [j |] eqn:E.
  - intros H. injection H as <-. destruct (IH j eq_refl) as (x & Hx & Hs & Hf).
    exists x. auto.
  - destruct (Path.is_one_of chars c) eqn:Ec; [| discriminate].
    intros H. injection H as <-. exists c. simpl. repeat split; [exact Ec |].
    rewrite drop_0. clear -E. induction rest as [| y rest IHr]; [constructor |].
    simpl in E. destruct (Path.last_index chars rest); [discriminate |].
    destruct (Path.is_one_of chars y) eqn:Ey; [discriminate |].
    constructor; [exact Ey | apply IHr; reflexivity].
Qed.

Lemma last_index_None chars s :
  Path.last_index chars s = None ->
  Forall (fun x => Path.is_one_of chars x = false) s.
Proof.
  induction s as [| y rest IHr]; [constructor |].
  simpl. destruct (Path.last_index chars rest); [discriminate |].
  destruct (Path.is_one_of chars y) eqn:Ey; [discriminate |].
  intros _. constructor; [exact Ey | apply IHr; reflexivity].
Qed.

(** X16. [ApplyStock] keeps of the path of the executable, a string of
    16-bit code units of any value, the part up to and including its last
    slash or backslash: what it removes contains neither, and what it keeps
    ends with one or is empty. A path without any separator is emptied,
    because [npos + 1] wraps around to 0; [erase] is never called beyond the
    end of the string. *)
Theorem exe_folder_ends_at_last_separator :
  forall exe,
    (N.of_nat (length exe) < Path.npos)%N ->
    exists folder rest,
      Path.exe_folder exe = Some folder
      /\ exe = folder ++ rest
      /\ Forall (fun c => Path.is_one_of Path.separators c = false) rest
      /\ (folder = [] \/
          exists init c, folder = init ++ [c] /\ Path.is_one_of Path.separators c = true).
Proof.
  intros exe Hlen. unfold Path.exe_folder, Path.find_last_of, Path.size_t_add.
  rewrite find_last_of_from_last_index.
  destruct (Path.last_index Path.separators exe) as [k |] eqn:E.
  - destruct (last_index_Some _ _ _ E) as (c & Hc & Hsep & Hrest).
    pose proof (lookup_lt_Some _ _ _ Hc) as Hk.
    unfold Path.npos in Hlen.
    assert (((0 + N.of_nat k + 1) mod 2 ^ 64)%N = N.of_nat (S k)) as ->.
    { rewrite N.mod_small; lia. }
    unfold Path.erase.
    assert ((N.of_nat (S k) <=? N.of_nat (length exe))%N = true) as ->
      by (apply N.leb_le; lia).
    rewrite Nat2N.id.
    exists (take (S k) exe), (drop (S k) exe).
    split; [reflexivity |]. split; [symmetry; apply take_drop |]. split; [exact Hrest |].
    right. exists (take k exe), c. split; [apply take_S_r; exact Hc | exact Hsep].
  - assert (((Path.npos + 1) mod 2 ^ 64)%N = 0%N) as -> by reflexivity.
    exists [], exe. split; [| split; [reflexivity | split; [| left; reflexivity]]].
    + unfold Path.erase.
      assert ((0 <=? N.of_nat (length exe))%N = true) as -> by (apply N.leb_le; lia).
      reflexivity.
    + apply last_index_None. exact E.
Qed.

Lemma exe_folder_ends_at_last_separator_witness :
  Path.exe_folder Path.sample_exe = Some [0x43; 0x3A; 0x5C; 0x7A0B; 0x5E8F; 0x5C]
  /\ exists folder rest,
       Path.exe_folder Path.sample_exe = Some folder
       /\ Path.sample_exe = folder ++ rest
       /\ Forall (fun c => Path.is_one_of Path.separators c = false) rest
       /\ (folder = [] \/
           exists init c, folder = init ++ [c] /\ Path.is_one_of Path.separators c = true).
Proof.
  split; [reflexivity |].
  apply (exe_folder_ends_at_last_separator Path.sample_exe). vm_compute. reflexivity.
Defined.
